(** * Freehand 3D cutout: contour editor and extrusion builder

    A shallow embedding of [src/components/ImageEditor.tsx] (the contour
    editor: coordinate mapping, history, hit-testing, pointer handlers,
    finish) and of the shape/UV part of [src/components/ThreeViewer.tsx].

    Conventions of the embedding.
    - A JavaScript [number] that holds a coordinate or a size is a real
      number ([R]): arithmetic is exact and rounding is outside the model.
      A division by zero has no real value in JavaScript ([Infinity],
      [-Infinity] or [NaN]); the editor divides by the render size, which is
      zero until the image has loaded.  The real-number [toNormalized] and
      [clamp] are the code for a render size that is not zero;
      [toNormalizedJs] and [clampJs] follow the same source lines with the
      special values, on every input.  Array indices and lengths are [nat];
      where the source subtracts from a length in a comparison the comparison
      is written in [Z], so that [length - 1] may be negative as it is in
      JavaScript.
    - A React state cell is a field of [EditorState].  A handler is a
      function of the state it closed over (the state of the last render);
      every handler runs against the state left by the previous one (one
      render between two events).  [setX (prev => ...)] is applied to the
      pending state, [setX v] overwrites it.
    - A read [a[i]] past the end of an array gives [undefined] and a write
      [a[i] = v] past its end makes the array sparse; neither is a [Contour],
      so the handlers that can do this return [option] and answer [None]
      there. *)

From Stdlib Require Import Reals Lra Lia ZArith List String.
From stdpp Require Import base list.
Import ListNotations.

Local Open Scope R_scope.

(** ** Data model *)

(** [Point] of [src/types]: normalized coordinates, and also the shape of the
    pixel positions returned by [toScreen]. *)
Record Point : Type := mkPoint { x : R; y : R }.

Definition Contour : Type := list Point.

Inductive ToolType : Type := freehand | polygon | move.

(** The [dimensions] state cell. *)
Record Dimensions : Type := mkDimensions {
  width : R;
  height : R;
  scale : R;
  offsetX : R;
  offsetY : R
}.

(** What the editor reads of an [HTMLImageElement]. *)
Record ImageElement : Type := mkImage { img_width : R; img_height : R }.

Record Magnifier : Type := mkMagnifier { show : bool; mag_x : R; mag_y : R }.

Record CutoutData : Type := mkCutoutData {
  cd_points : Contour;
  textureUrl : string;
  aspectRatio : R
}.

Record EditorState : Type := mkEditorState {
  points : Contour;
  history : list Contour;
  historyStep : nat;
  tool : ToolType;
  cursorPos : option Point;
  draggingPointIndex : option nat;
  isDrawing : bool;
  dimensions : Dimensions;
  imageElement : option ImageElement;
  magnifierState : option Magnifier
}.

(** [useState] initial values. *)
Definition initialDimensions : Dimensions := mkDimensions 0 0 1 0 0.

Definition initialState : EditorState :=
  mkEditorState [] [[]] 0%nat freehand None None false initialDimensions None None.

(** State setters ([setPoints], [setHistory], ...). *)
Definition setPoints (v : Contour) (s : EditorState) : EditorState :=
  mkEditorState v (history s) (historyStep s) (tool s) (cursorPos s)
    (draggingPointIndex s) (isDrawing s) (dimensions s) (imageElement s)
    (magnifierState s).

Definition updPoints (f : Contour -> Contour) (s : EditorState) : EditorState :=
  setPoints (f (points s)) s.

Definition setHistory (v : list Contour) (s : EditorState) : EditorState :=
  mkEditorState (points s) v (historyStep s) (tool s) (cursorPos s)
    (draggingPointIndex s) (isDrawing s) (dimensions s) (imageElement s)
    (magnifierState s).

Definition setHistoryStep (v : nat) (s : EditorState) : EditorState :=
  mkEditorState (points s) (history s) v (tool s) (cursorPos s)
    (draggingPointIndex s) (isDrawing s) (dimensions s) (imageElement s)
    (magnifierState s).

Definition setTool (v : ToolType) (s : EditorState) : EditorState :=
  mkEditorState (points s) (history s) (historyStep s) v (cursorPos s)
    (draggingPointIndex s) (isDrawing s) (dimensions s) (imageElement s)
    (magnifierState s).

Definition setCursorPos (v : option Point) (s : EditorState) : EditorState :=
  mkEditorState (points s) (history s) (historyStep s) (tool s) v
    (draggingPointIndex s) (isDrawing s) (dimensions s) (imageElement s)
    (magnifierState s).

Definition setDraggingPointIndex (v : option nat) (s : EditorState) : EditorState :=
  mkEditorState (points s) (history s) (historyStep s) (tool s) (cursorPos s)
    v (isDrawing s) (dimensions s) (imageElement s) (magnifierState s).

Definition setIsDrawing (v : bool) (s : EditorState) : EditorState :=
  mkEditorState (points s) (history s) (historyStep s) (tool s) (cursorPos s)
    (draggingPointIndex s) v (dimensions s) (imageElement s) (magnifierState s).

Definition setDimensions (v : Dimensions) (s : EditorState) : EditorState :=
  mkEditorState (points s) (history s) (historyStep s) (tool s) (cursorPos s)
    (draggingPointIndex s) (isDrawing s) v (imageElement s) (magnifierState s).

Definition setImageElement (v : option ImageElement) (s : EditorState) : EditorState :=
  mkEditorState (points s) (history s) (historyStep s) (tool s) (cursorPos s)
    (draggingPointIndex s) (isDrawing s) (dimensions s) v (magnifierState s).

Definition setMagnifierState (v : option Magnifier) (s : EditorState) : EditorState :=
  mkEditorState (points s) (history s) (historyStep s) (tool s) (cursorPos s)
    (draggingPointIndex s) (isDrawing s) (dimensions s) (imageElement s) v.

(** ** Coordinate mapping *)

(** [fitImage]: the "contain" fit of an image of size [iw] x [ih] into a
    container of size [cw] x [ch]. *)
Definition fitImage (cw ch : R) (img : ImageElement) : Dimensions :=
  let iw := img_width img in
  let ih := img_height img in
  let scale := Rmin (cw / iw) (ch / ih) in
  let renderWidth := iw * scale in
  let renderHeight := ih * scale in
  let offsetX := (cw - renderWidth) / 2 in
  let offsetY := (ch - renderHeight) / 2 in
  mkDimensions renderWidth renderHeight scale offsetX offsetY.

Definition toScreen (d : Dimensions) (pt : Point) : Point :=
  mkPoint (offsetX d + x pt * width d) (offsetY d + y pt * height d).

(** [toNormalized], for a render width and height that are not zero (the
    quotient is then a real number). *)
Definition toNormalized (d : Dimensions) (x y : R) : Point :=
  mkPoint ((x - offsetX d) / width d) ((y - offsetY d) / height d).

(** The [clamped] object built at the head of [handlePointerDown] and
    [handlePointerMove], for a point with real coordinates. *)
Definition clamp (pt : Point) : Point :=
  mkPoint (Rmax 0 (Rmin 1 (x pt))) (Rmax 0 (Rmin 1 (y pt))).

(** A pointer event and the container's bounding rectangle. *)
Record PointerEvent : Type := mkPointerEvent { clientX : R; clientY : R }.
Record DOMRect : Type := mkDOMRect { left : R; top : R }.

(** [x] and [y] of the handlers: the pointer position inside the container. *)
Definition localX (rect : DOMRect) (e : PointerEvent) : R := clientX e - left rect.
Definition localY (rect : DOMRect) (e : PointerEvent) : R := clientY e - top rect.

(** The normalized point a pointer handler derives from its event. *)
Definition clampedOf (d : Dimensions) (rect : DOMRect) (e : PointerEvent) : Point :=
  clamp (toNormalized d (localX rect e) (localY rect e)).

(** ** The same lines with the special values of a JavaScript number

    The quotient of two finite numbers is finite unless the divisor is zero;
    then it is [Infinity] or [-Infinity] by the sign of the dividend, and
    [NaN] when the dividend is zero too.  (The divisor is a render size:
    [0] of [initialDimensions] or a product of [fitImage]; the sign of a
    zero is not distinguished.) *)
Inductive JsNumber : Type :=
| Finite (r : R)
| PlusInfinity
| MinusInfinity
| NaN.

(** [a / b] for finite [a] and [b]. *)
Definition jsDivide (a b : R) : JsNumber :=
  if Req_dec_T b 0 then
    if Req_dec_T a 0 then NaN
    else if Rlt_dec 0 a then PlusInfinity else MinusInfinity
  else Finite (a / b).

(** [Math.min(a, v)] and [Math.max(a, v)] for a finite [a]: [NaN] when [v]
    is [NaN]. *)
Definition mathMin (a : R) (v : JsNumber) : JsNumber :=
  match v with
  | Finite r => Finite (Rmin a r)
  | PlusInfinity => Finite a
  | MinusInfinity => MinusInfinity
  | NaN => NaN
  end.

Definition mathMax (a : R) (v : JsNumber) : JsNumber :=
  match v with
  | Finite r => Finite (Rmax a r)
  | PlusInfinity => PlusInfinity
  | MinusInfinity => Finite a
  | NaN => NaN
  end.

(** An object [{x, y}] whose coordinates may be special values. *)
Record JsPoint : Type := mkJsPoint { jx : JsNumber; jy : JsNumber }.

(** [toNormalized], on every input. *)
Definition toNormalizedJs (d : Dimensions) (x y : R) : JsPoint :=
  mkJsPoint (jsDivide (x - offsetX d) (width d))
            (jsDivide (y - offsetY d) (height d)).

(** The [clamped] object, on every input. *)
Definition clampJs (pt : JsPoint) : JsPoint :=
  mkJsPoint (mathMax 0 (mathMin 1 (jx pt))) (mathMax 0 (mathMin 1 (jy pt))).

(** The object a pointer handler derives from its event, on every input. *)
Definition clampedOfJs (d : Dimensions) (rect : DOMRect) (e : PointerEvent)
  : JsPoint :=
  clampJs (toNormalizedJs d (localX rect e) (localY rect e)).

(** A point with real coordinates as an object of JavaScript. *)
Definition ofPoint (p : Point) : JsPoint := mkJsPoint (Finite (x p)) (Finite (y p)).

(** A number of the interval [0,1]. *)
Definition inUnitInterval (v : JsNumber) : Prop :=
  match v with
  | Finite r => 0 <= r <= 1
  | _ => False
  end.

(** ** History *)

(** [saveHistory].  It reads [history] and [historyStep] of the render it
    closed over ([s]) and writes into the pending state ([k]). *)
Definition saveHistory (s : EditorState) (newPoints : Contour) (k : EditorState)
  : EditorState :=
  let newHistory := firstn (historyStep s + 1) (history s) ++ [newPoints] in
  setHistoryStep (length newHistory - 1) (setHistory newHistory k).

(** [handleUndo].  [history[step]] is [undefined] past the end of the array:
    [None]. *)
Definition handleUndo (s : EditorState) : option EditorState :=
  if (0 <? historyStep s)%nat then
    let step := (historyStep s - 1)%nat in
    match history s !! step with
    | Some snapshot => Some (setPoints snapshot (setHistoryStep step s))
    | None => None
    end
  else Some s.

(** [handleRedo]. *)
Definition handleRedo (s : EditorState) : option EditorState :=
  if (Z.of_nat (historyStep s) <? Z.of_nat (length (history s)) - 1)%Z then
    let step := (historyStep s + 1)%nat in
    match history s !! step with
    | Some snapshot => Some (setPoints snapshot (setHistoryStep step s))
    | None => None
    end
  else Some s.

(** [handleClear]. *)
Definition handleClear (s : EditorState) : EditorState :=
  saveHistory s [] (setPoints [] s).

(** ** Hit-testing (the Move branch of [handlePointerDown]) *)

(** [Math.hypot] of two arguments. *)
Definition hypot (a b : R) : R := sqrt (a * a + b * b).

(** The two variables the scan mutates. *)
Record HitScan : Type := mkHitScan { minDist : R; foundIndex : Z }.

(** Distance on screen between contour point [p] and the click. *)
Definition screenDist (d : Dimensions) (cx cy : R) (p : Point) : R :=
  let screenP := toScreen d p in
  hypot (x screenP - cx) (y screenP - cy).

(** Body of the [forEach] callback. *)
Definition hitStep (d : Dimensions) (cx cy : R) (acc : HitScan) (p : Point) (i : nat)
  : HitScan :=
  let dist := screenDist d cx cy p in
  if Rlt_dec dist (minDist acc) then mkHitScan dist (Z.of_nat i) else acc.

(** [Array.prototype.forEach] with an accumulator for the captured variables;
    [i] is the index of the head of [l]. *)
Fixpoint forEach {A St : Type} (f : St -> A -> nat -> St) (l : list A) (i : nat)
  (acc : St) : St :=
  match l with
  | [] => acc
  | a :: l' => forEach f l' (S i) (f acc a i)
  end.

(** [foundIndex] after the scan: [-1] when no point is hit. *)
Definition nearest (d : Dimensions) (cx cy : R) (ps : Contour) : Z :=
  foundIndex (forEach (hitStep d cx cy) ps 0%nat (mkHitScan 30 (-1))).

(** ** Pointer handlers *)

Definition handlePointerDown (rect : DOMRect) (e : PointerEvent) (s : EditorState)
  : EditorState :=
  let cx := localX rect e in
  let cy := localY rect e in
  let clamped := clampedOf (dimensions s) rect e in
  match tool s with
  | move =>
      let found := nearest (dimensions s) cx cy (points s) in
      if (found =? -1)%Z then s
      else setMagnifierState (Some (mkMagnifier true cx cy))
             (setDraggingPointIndex (Some (Z.to_nat found)) s)
  | freehand =>
      setMagnifierState (Some (mkMagnifier true cx cy))
        (updPoints (fun prev => prev ++ [clamped]) (setIsDrawing true s))
  | polygon =>
      let newPoints := points s ++ [clamped] in
      setMagnifierState (Some (mkMagnifier true cx cy))
        (saveHistory s newPoints (setPoints newPoints s))
  end.

(** [newPoints[i] = v] on a copy of the array: replaces inside the array,
    appends at its length, and makes it sparse (no [Contour]) beyond. *)
Definition arraySet (i : nat) (v : Point) (l : Contour) : option Contour :=
  if (i <? length l)%nat then Some (<[i := v]> l)
  else if (i =? length l)%nat then Some (l ++ [v])
  else None.

(** The updater passed to [setPoints] by the Freehand branch of
    [handlePointerMove] (the distance filter). *)
Definition distanceFilter (d : Dimensions) (clamped : Point) (prev : Contour)
  : Contour :=
  match last prev with
  | None => [clamped]
  | Some lastP =>
      let dx := (x clamped - x lastP) * width d in
      let dy := (y clamped - y lastP) * height d in
      if Rgt_dec (dx * dx + dy * dy) 10 then prev ++ [clamped] else prev
  end.

Definition handlePointerMove (rect : DOMRect) (e : PointerEvent) (s : EditorState)
  : option EditorState :=
  let cx := localX rect e in
  let cy := localY rect e in
  let clamped := clampedOf (dimensions s) rect e in
  let k := setCursorPos (Some clamped) s in
  match tool s with
  | move =>
      match draggingPointIndex s with
      | Some i =>
          match arraySet i clamped (points s) with
          | Some newPoints =>
              Some (setMagnifierState (Some (mkMagnifier true cx cy))
                      (setPoints newPoints k))
          | None => None
          end
      | None => Some k
      end
  | freehand =>
      if isDrawing s then
        Some (setMagnifierState (Some (mkMagnifier true cx cy))
                (updPoints (distanceFilter (dimensions s) clamped) k))
      else Some k
  | polygon => Some (setMagnifierState (Some (mkMagnifier true cx cy)) k)
  end.

Definition isFreehand (t : ToolType) : bool :=
  match t with freehand => true | _ => false end.
Definition isPolygon (t : ToolType) : bool :=
  match t with polygon => true | _ => false end.
Definition isMove (t : ToolType) : bool :=
  match t with move => true | _ => false end.
Definition isNull {A : Type} (o : option A) : bool :=
  match o with None => true | Some _ => false end.

Definition handlePointerUp (s : EditorState) : EditorState :=
  let k :=
    if isFreehand (tool s) && isDrawing s then
      setMagnifierState None (saveHistory s (points s) (setIsDrawing false s))
    else if isMove (tool s) && negb (isNull (draggingPointIndex s)) then
      setMagnifierState None
        (saveHistory s (points s) (setDraggingPointIndex None s))
    else s in
  if isPolygon (tool s) then setMagnifierState None k else k.

(** The [onPointerLeave] handler of the canvas area. *)
Definition onPointerLeave (s : EditorState) : EditorState :=
  setCursorPos None (handlePointerUp s).

(** ** Finish *)

(** What a handler does outside the component. *)
Inductive Effect : Type :=
| Alert (msg : string)
| OnFinish (data : CutoutData).

(** [handleFinish]: it calls no setter, so the state it returns is the state
    it was given. *)
Definition handleFinish (imageUrl : string) (s : EditorState)
  : EditorState * Effect :=
  if (length (points s) <? 3)%nat then
    (s, Alert "Please draw a loop to crop.")
  else
    (s, OnFinish (mkCutoutData (points s) imageUrl
                    match imageElement s with
                    | Some img => img_width img / img_height img
                    | None => 1
                    end)).

(** ** The editor as a transition system *)

Inductive Event : Type :=
| PointerDown (rect : DOMRect) (e : PointerEvent)
| PointerMove (rect : DOMRect) (e : PointerEvent)
| PointerUp
| PointerLeave
| ClickUndo
| ClickRedo
| ClickClear
| ClickTool (t : ToolType)
| ImageLoad (img : ImageElement) (cw ch : R)
| Resize (cw ch : R).

Definition step (s : EditorState) (ev : Event) : option EditorState :=
  match ev with
  | PointerDown rect e => Some (handlePointerDown rect e s)
  | PointerMove rect e => handlePointerMove rect e s
  | PointerUp => Some (handlePointerUp s)
  | PointerLeave => Some (onPointerLeave s)
  | ClickUndo => handleUndo s
  | ClickRedo => handleRedo s
  | ClickClear => Some (handleClear s)
  | ClickTool t => Some (setTool t s)
  | ImageLoad img cw ch =>
      Some (setDimensions (fitImage cw ch img) (setImageElement (Some img) s))
  | Resize cw ch =>
      match imageElement s with
      | Some img => Some (setDimensions (fitImage cw ch img) s)
      | None => Some s
      end
  end.

Fixpoint run (s : EditorState) (evs : list Event) : option EditorState :=
  match evs with
  | [] => Some s
  | ev :: evs' =>
      match step s ev with
      | Some s' => run s' evs'
      | None => None
      end
  end.

(** States the editor can be in: reached from [initialState] by events. *)
Inductive reachable : EditorState -> Prop :=
| reachable_init : reachable initialState
| reachable_step s ev s' : reachable s -> step s ev = Some s' -> reachable s'.

(** An event whose handler divides by nothing that is zero: a pointer event
    while the render width and height are not zero ([toNormalized]), the load
    of an image whose width and height are not zero ([fitImage]). *)
Definition dividesByNonzero (s : EditorState) (ev : Event) : Prop :=
  match ev with
  | PointerDown _ _ | PointerMove _ _ =>
      width (dimensions s) <> 0 /\ height (dimensions s) <> 0
  | ImageLoad img _ _ => img_width img <> 0 /\ img_height img <> 0
  | _ => True
  end.

(** States reached from [initialState] by such events only. *)
Inductive reachableLoaded : EditorState -> Prop :=
| reachableLoaded_init : reachableLoaded initialState
| reachableLoaded_step s ev s' :
    reachableLoaded s -> dividesByNonzero s ev -> step s ev = Some s' ->
    reachableLoaded s'.

(** An event that leaves the fit as it is. *)
Definition keepsFit (ev : Event) : Prop :=
  match ev with
  | ImageLoad _ _ _ | Resize _ _ => False
  | _ => True
  end.

(** ** Extrusion builder ([ExtrudedMesh] in ThreeViewer.tsx) *)

(** The world scale, [const scale = 5]. *)
Definition worldScale : R := 5.

(** Commands recorded by a [THREE.Shape]. *)
Inductive PathCmd : Type :=
| MoveTo (px py : R)
| LineTo (px py : R)
| ClosePath.

(** The planar position given to a normalized point (arguments of [moveTo]
    and [lineTo]). *)
Definition planarX (aspect : R) (p : Point) : R := (x p - 0.5) * worldScale * aspect.
Definition planarY (p : Point) : R := - (y p - 0.5) * worldScale.

(** The [shape] memo. *)
Definition shape (data : CutoutData) : list PathCmd :=
  if (length (cd_points data) <? 3)%nat then []
  else
    match cd_points data with
    | [] => []
    | p0 :: rest =>
        MoveTo (planarX (aspectRatio data) p0) (planarY p0)
          :: map (fun p => LineTo (planarX (aspectRatio data) p) (planarY p)) rest
          ++ [ClosePath]
    end.

(** The points a path of straight segments goes through, in the order of
    its commands: the outline three.js extrudes. *)
Definition outlinePoint (c : PathCmd) : option (R * R) :=
  match c with
  | MoveTo px py | LineTo px py => Some (px, py)
  | ClosePath => None
  end.

Definition outline (cmds : list PathCmd) : list (R * R) := omap outlinePoint cmds.

(** A vertex of the position attribute, a pair of the uv attribute. *)
Record Vertex : Type := mkVertex { vx : R; vy : R; vz : R }.
Record UV : Type := mkUV { u : R; v : R }.

(** Body of the UV loop for one vertex. *)
Definition uvOf (aspect : R) (p : Vertex) : UV :=
  let u := (vx p / (worldScale * aspect)) + 0.5 in
  let v := 1 - (- (vy p / worldScale) + 0.5) in
  mkUV u v.

(** The loop [for (i = 0; i < posAttribute.count; i++) uvAttribute.setXY(i, u, v)]
    over the vertices from index [i] on.  [setXY] writes into a typed array:
    a write past its end is dropped, as stdpp's insert does. *)
Fixpoint uvLoop (aspect : R) (pos : list Vertex) (i : nat) (uvs : list UV)
  : list UV :=
  match pos with
  | [] => uvs
  | p :: pos' => uvLoop aspect pos' (S i) (<[i := uvOf aspect p]> uvs)
  end.

(** The UV part of the [geometry] memo: [pos] and [uvs] are the position and
    uv attributes of the [THREE.ExtrudeGeometry] built from the shape. *)
Definition remapUV (data : CutoutData) (pos : list Vertex) (uvs : list UV)
  : list UV :=
  uvLoop (aspectRatio data) pos 0%nat uvs.

(** ** Auxiliary notions used in the statements *)

(** A point of the unit square. *)
Definition inUnitSquare (p : Point) : Prop :=
  0 <= x p <= 1 /\ 0 <= y p <= 1.

(** The contour and every snapshot of the history hold points of the unit
    square only. *)
Definition normalizedState (s : EditorState) : Prop :=
  Forall inUnitSquare (points s) /\ Forall (Forall inUnitSquare) (history s).

(** A commit as the handlers make it ([handleClear], the Polygon click): the
    live contour is set to [newPoints] and the same array is saved. *)
Definition commit (newPoints : Contour) (s : EditorState) : EditorState :=
  saveHistory s newPoints (setPoints newPoints s).

(** The cursor of the history points at an entry. *)
Definition cursorInRange (s : EditorState) : Prop :=
  (historyStep s < length (history s))%nat.



(** Squared distance on screen between two pointer events. *)
Definition eventDistSq (e1 e2 : PointerEvent) : R :=
  (clientX e2 - clientX e1) * (clientX e2 - clientX e1)
  + (clientY e2 - clientY e1) * (clientY e2 - clientY e1).

(** Consecutive events of a drag that starts at [e0] are closer than the
    decimation threshold: their squared distance is less than 10. *)
Fixpoint denseFrom (e0 : PointerEvent) (es : list PointerEvent) : Prop :=
  match es with
  | [] => True
  | e1 :: es' => eventDistSq e0 e1 < 10 /\ denseFrom e1 es'
  end.

(** Events a pointer produces once it is down: moves, and its release or its
    leaving the surface. *)
Definition isMoveOrRelease (ev : Event) : Prop :=
  match ev with
  | PointerMove _ _ | PointerUp | PointerLeave => True
  | _ => False
  end.

(** ** The scenario of the specification

    Image 800 x 400, contour [(0.25,0.25), (0.75,0.25), (0.5,0.75)], shown
    at half size in an 800 x 200 container. *)
Definition scenarioImage : ImageElement := mkImage 800 400.

Definition scenarioContour : Contour :=
  [mkPoint 0.25 0.25; mkPoint 0.75 0.25; mkPoint 0.5 0.75].

Definition scenarioDimensions : Dimensions := mkDimensions 400 200 0.5 200 0.

Definition scenarioRect : DOMRect := mkDOMRect 10 20.

Definition emptyCanvas : EditorState :=
  setDimensions scenarioDimensions
    (setImageElement (Some scenarioImage) initialState).

Definition scenarioState : EditorState := setPoints scenarioContour emptyCanvas.

Definition scenarioData : CutoutData :=
  mkCutoutData scenarioContour "photo.png" (800 / 400).

(** The position attribute of the extrusion of the scenario outline, depth
    0.5, no bevel, one step.  The geometry is not indexed: the back lid
    (z = 0) and the front lid (z = 0.5) are one triangle each, and each of
    the three edges, taken from the last to the first, gives a wall of two
    triangles: 24 vertices. *)
Definition scenarioPositions : list Vertex :=
  [mkVertex 0 (-1.25) 0; mkVertex (-2.5) 1.25 0; mkVertex 2.5 1.25 0;
   mkVertex 2.5 1.25 0.5; mkVertex (-2.5) 1.25 0.5; mkVertex 0 (-1.25) 0.5;
   mkVertex 0 (-1.25) 0; mkVertex 2.5 1.25 0; mkVertex 0 (-1.25) 0.5;
   mkVertex 2.5 1.25 0; mkVertex 2.5 1.25 0.5; mkVertex 0 (-1.25) 0.5;
   mkVertex 2.5 1.25 0; mkVertex (-2.5) 1.25 0; mkVertex 2.5 1.25 0.5;
   mkVertex (-2.5) 1.25 0; mkVertex (-2.5) 1.25 0.5; mkVertex 2.5 1.25 0.5;
   mkVertex (-2.5) 1.25 0; mkVertex 0 (-1.25) 0; mkVertex (-2.5) 1.25 0.5;
   mkVertex 0 (-1.25) 0; mkVertex 0 (-1.25) 0.5; mkVertex (-2.5) 1.25 0.5].

(** The uv attribute before the loop: one pair per vertex. *)
Definition scenarioUVs : list UV := replicate 24 (mkUV 0 0).

(** A pointer position outside the rendered image (left of it and below). *)
Definition scenarioOutside : PointerEvent := mkPointerEvent (-50) 900.

(** Two contour points at 10 px on either side of a click at (400, 100) of
    the container. *)
Definition tieContour : Contour := [mkPoint 0.475 0.5; mkPoint 0.525 0.5].

Definition tieClick : PointerEvent := mkPointerEvent 410 120.

(** A click far from the three points of the scenario contour, which are at
    (300, 50), (500, 50) and (400, 150) in the container. *)
Definition missClick : PointerEvent := mkPointerEvent 710 200.

(** A click 2 px right of and 2 px below the first point of the scenario
    contour, and the position the pointer is then dragged to. *)
Definition hitClick : PointerEvent := mkPointerEvent 312 72.

Definition dragTarget : PointerEvent := mkPointerEvent 330 80.

(** A stroke: the pointer goes down at (300, 50) of the container and moves
    by 1 px, 2 px and then 40 px to the right. *)
Definition strokeStart : PointerEvent := mkPointerEvent 310 70.

Definition strokeMoves : list PointerEvent :=
  [mkPointerEvent 311 70; mkPointerEvent 313 70; mkPointerEvent 353 70].

(** Moves of a dense drag from [strokeStart]: each less than the square root
    of 10 px from the one before. *)
Definition denseMoves : list PointerEvent :=
  [mkPointerEvent 311 70; mkPointerEvent 313 70; mkPointerEvent 315 71].


(** The Move tool on the scenario contour with a drag of point 0 in
    progress (the state the pointer-down at [hitClick] leaves). *)
Definition dragInProgress : EditorState :=
  setMagnifierState
    (Some (mkMagnifier true (localX scenarioRect hitClick)
             (localY scenarioRect hitClick)))
    (setDraggingPointIndex (Some 0%nat) (setTool move scenarioState)).

(** The pointer at the top-left corner of the container. *)
Definition cornerEvent : PointerEvent := mkPointerEvent 10 20.

(** ** Further notions: the editor between gestures *)

(** No stroke and no drag is in progress. *)
Definition idle (s : EditorState) : Prop :=
  isDrawing s = false /\ draggingPointIndex s = None.

(** The contour on screen is the history snapshot under the cursor. *)
Definition synced (s : EditorState) : Prop :=
  history s !! historyStep s = Some (points s).

(** Squared distance on screen between two normalized points, as the
    distance filter computes it. *)
Definition screenDistSq (d : Dimensions) (p q : Point) : R :=
  (x q - x p) * width d * ((x q - x p) * width d)
  + (y q - y p) * height d * ((y q - y p) * height d).

(** Every point of [ps] is farther than the decimation threshold from the
    point before it, [p0] being before the first. *)
Fixpoint spacedFrom (d : Dimensions) (p0 : Point) (ps : Contour) : Prop :=
  match ps with
  | [] => True
  | p1 :: ps' => screenDistSq d p0 p1 > 10 /\ spacedFrom d p1 ps'
  end.

(** The events of one freehand stroke or one move drag: the pointer goes
    down at [e0], moves through [es] and is released. *)
Definition gestureEvents (rect : DOMRect) (e0 : PointerEvent)
  (es : list PointerEvent) : list Event :=
  PointerDown rect e0 :: map (PointerMove rect) es ++ [PointerUp].

(** The events of a series of clicks: each a pointer-down and a pointer-up. *)
Definition clickEvents (rect : DOMRect) (es : list PointerEvent) : list Event :=
  flat_map (fun e => [PointerDown rect e; PointerUp]) es.

(** A cutout with a single point, as a project file can hold one. *)
Definition onePointData : CutoutData :=
  mkCutoutData [mkPoint 0.25 0.25] "photo.png"%string 2.

(** ** Snapshot capture ([ScreenshotHandler] in ThreeViewer.tsx)

    The renderer and the scene are objects of three.js; the model keeps the
    fields the handler reads or writes.  The objects of the scene are listed
    in the order [scene.traverse] visits them, and an object is referred to
    by its position in that list.  The calls into three.js are taken to
    return normally (the [catch] branch is for a call that throws). *)

Record SceneObject : Type := mkSceneObject {
  obj_name : string;
  obj_type : string;
  (** [obj.material?.type]: [None] without a material or without a type. *)
  obj_materialType : option string;
  obj_visible : bool
}.

Record GLState : Type := mkGLState {
  gl_pixelRatio : R;
  gl_clearColor : Z;
  gl_clearAlpha : R;
  (** [scene.background]; [None] is [null]. *)
  scene_background : option string;
  scene_objects : list SceneObject
}.

Definition setVisible (b : bool) (o : SceneObject) : SceneObject :=
  mkSceneObject (obj_name o) (obj_type o) (obj_materialType o) b.

(** The test of the traversal callback: shadows and grid are left out of a
    snapshot. *)
Definition isSnapshotHelper (o : SceneObject) : bool :=
  String.eqb (obj_name o) "ContactShadows"
  || match obj_materialType o with
     | Some t => String.eqb t "ShadowMaterial"
     | None => false
     end
  || String.eqb (obj_type o) "GridHelper".

(** The traversal that hides the helpers: [i] is the position of the head of
    [objs], [hidden] the array [hiddenObjects] so far. *)
Fixpoint hideHelpers (objs : list SceneObject) (i : nat) (hidden : list nat)
  : list SceneObject * list nat :=
  match objs with
  | [] => ([], hidden)
  | o :: rest =>
      if isSnapshotHelper o then
        if obj_visible o then
          let (rest', hidden') := hideHelpers rest (S i) (hidden ++ [i]) in
          (setVisible false o :: rest', hidden')
        else
          let (rest', hidden') := hideHelpers rest (S i) hidden in
          (o :: rest', hidden')
      else
        let (rest', hidden') := hideHelpers rest (S i) hidden in
        (o :: rest', hidden')
  end.

(** [hiddenObjects.forEach(obj => { obj.visible = true; })]. *)
Definition showAgain (hidden : list nat) (objs : list SceneObject)
  : list SceneObject :=
  fold_left (fun acc i => alter (setVisible true) i acc) hidden objs.

(** A part of a template literal. *)
Inductive MessagePart : Type :=
| Text (t : string)
| Number (n : R).

(** What the handler reports to its owner. *)
Inductive CaptureCallback : Type :=
| OnError (msg : list MessagePart)
| OnCapture (frame : GLState).

(** The handler's result: the renderer and scene after it, the frames it
    rendered (oldest first) and the callback it made, if any.  The data URL
    passed to [onCapture] is read from the canvas right after the first
    render; it is represented by the state that render drew. *)
Record CaptureOutcome : Type := mkCaptureOutcome {
  after : GLState;
  rendered : list GLState;
  callback : option CaptureCallback
}.

(** Body of the effect of [ScreenshotHandler]. *)
Definition screenshotEffect (trigger : Z) (scale : R) (sizeWidth sizeHeight : R)
  (webglMax : R) (st : GLState) : CaptureOutcome :=
  if (0 <? trigger)%Z then
    let maxDimension := Rmax sizeWidth sizeHeight * scale in
    if Rgt_dec maxDimension webglMax then
      mkCaptureOutcome st []
        (Some (OnError [Text "Resolution too high. Max supported: ";
                        Number webglMax; Text "px. Try a lower scale."]))
    else
      let originalPixelRatio := gl_pixelRatio st in
      let originalBackground := scene_background st in
      let (objs1, hiddenObjects) := hideHelpers (scene_objects st) 0 [] in
      let shot := mkGLState scale 0 0 None objs1 in
      let restored :=
        mkGLState originalPixelRatio 0 0 originalBackground
          (showAgain hiddenObjects objs1) in
      mkCaptureOutcome restored [shot; restored] (Some (OnCapture shot))
  else mkCaptureOutcome st [] None.

(** A scene for the examples: the extruded mesh, the contact shadows, a grid
    that is already hidden and a shadow-catching plane. *)
Definition exampleScene : list SceneObject :=
  [mkSceneObject "" "Mesh" (Some "MeshStandardMaterial") true;
   mkSceneObject "ContactShadows" "Group" None true;
   mkSceneObject "" "GridHelper" (Some "LineBasicMaterial") false;
   mkSceneObject "" "Mesh" (Some "ShadowMaterial") true]%string.

Definition exampleGL : GLState :=
  mkGLState 1 0 1 (Some "city"%string) exampleScene.

(** ** Project files ([handleSaveProject], [handleLoadProject], App.tsx)

    [handleLoadProject] casts the result of [JSON.parse] to [ProjectData]
    without checking it, so what it stores can be any JavaScript value: the
    state cells of [App] hold values of [JsValue].  An object is represented
    by an association list read by first match.  [JSON.stringify],
    [JSON.parse] and the file reader are outside the model: the handler is
    given the result of the parse, [None] when [JSON.parse] throws. *)

#[local] Unset Elimination Schemes.
Inductive JsValue : Type :=
| JUndefined
| JNull
| JBool (b : bool)
| JNum (n : R)
| JStr (s : string)
| JArr (items : list JsValue)
| JObj (fields : list (string * JsValue)).
#[local] Set Elimination Schemes.

Fixpoint assoc (k : string) (fields : list (string * JsValue)) : JsValue :=
  match fields with
  | [] => JUndefined
  | (k', v) :: rest => if String.eqb k k' then v else assoc k rest
  end.

(** [v.k] for the property names of a project file: a [TypeError] ([None]) on
    [undefined] and [null], the property or [undefined] on an object, and
    [undefined] on the other values, which have no property of these
    names. *)
Definition getProp (v : JsValue) (k : string) : option JsValue :=
  match v with
  | JUndefined | JNull => None
  | JObj fields => Some (assoc k fields)
  | _ => Some JUndefined
  end.

Definition isNullish (v : JsValue) : bool :=
  match v with
  | JUndefined | JNull => true
  | _ => false
  end.

(** JavaScript truthiness ([!cutoutData]). *)
Definition truthy (v : JsValue) : bool :=
  match v with
  | JUndefined | JNull => false
  | JBool b => b
  | JNum n => if Req_dec_T n 0 then false else true
  | JStr s => negb (String.eqb s "")
  | JArr _ | JObj _ => true
  end.

Inductive AppMode : Type := UPLOAD | DRAW | VIEW_3D.

Record AppState : Type := mkAppState {
  mode : AppMode;
  imageSrc : JsValue;
  cutoutData : JsValue;
  thickness : JsValue;
  extrusionColor : JsValue;
  bevelEnabled : JsValue;
  bevelSize : JsValue;
  isIso : JsValue;
  fov : JsValue;
  lightIntensity : JsValue;
  lightColor : JsValue
}.

(** [useState] initial values of [App]. *)
Definition initialApp : AppState :=
  mkAppState UPLOAD JNull JNull (JNum 0.5) (JStr "#e4e4e7") (JBool true)
    (JNum 0.05) (JBool false) (JNum 45) (JNum 1.5) (JStr "#ffffff").

Definition setMode (v : AppMode) (s : AppState) : AppState :=
  mkAppState v (imageSrc s) (cutoutData s) (thickness s) (extrusionColor s)
    (bevelEnabled s) (bevelSize s) (isIso s) (fov s) (lightIntensity s)
    (lightColor s).
Definition setImageSrc (v : JsValue) (s : AppState) : AppState :=
  mkAppState (mode s) v (cutoutData s) (thickness s) (extrusionColor s)
    (bevelEnabled s) (bevelSize s) (isIso s) (fov s) (lightIntensity s)
    (lightColor s).
Definition setCutoutData (v : JsValue) (s : AppState) : AppState :=
  mkAppState (mode s) (imageSrc s) v (thickness s) (extrusionColor s)
    (bevelEnabled s) (bevelSize s) (isIso s) (fov s) (lightIntensity s)
    (lightColor s).
Definition setThickness (v : JsValue) (s : AppState) : AppState :=
  mkAppState (mode s) (imageSrc s) (cutoutData s) v (extrusionColor s)
    (bevelEnabled s) (bevelSize s) (isIso s) (fov s) (lightIntensity s)
    (lightColor s).
Definition setExtrusionColor (v : JsValue) (s : AppState) : AppState :=
  mkAppState (mode s) (imageSrc s) (cutoutData s) (thickness s) v
    (bevelEnabled s) (bevelSize s) (isIso s) (fov s) (lightIntensity s)
    (lightColor s).
Definition setBevelEnabled (v : JsValue) (s : AppState) : AppState :=
  mkAppState (mode s) (imageSrc s) (cutoutData s) (thickness s) (extrusionColor s)
    v (bevelSize s) (isIso s) (fov s) (lightIntensity s) (lightColor s).
Definition setBevelSize (v : JsValue) (s : AppState) : AppState :=
  mkAppState (mode s) (imageSrc s) (cutoutData s) (thickness s) (extrusionColor s)
    (bevelEnabled s) v (isIso s) (fov s) (lightIntensity s) (lightColor s).
Definition setIsIso (v : JsValue) (s : AppState) : AppState :=
  mkAppState (mode s) (imageSrc s) (cutoutData s) (thickness s) (extrusionColor s)
    (bevelEnabled s) (bevelSize s) v (fov s) (lightIntensity s) (lightColor s).
Definition setFov (v : JsValue) (s : AppState) : AppState :=
  mkAppState (mode s) (imageSrc s) (cutoutData s) (thickness s) (extrusionColor s)
    (bevelEnabled s) (bevelSize s) (isIso s) v (lightIntensity s) (lightColor s).
Definition setLightIntensity (v : JsValue) (s : AppState) : AppState :=
  mkAppState (mode s) (imageSrc s) (cutoutData s) (thickness s) (extrusionColor s)
    (bevelEnabled s) (bevelSize s) (isIso s) (fov s) v (lightColor s).
Definition setLightColor (v : JsValue) (s : AppState) : AppState :=
  mkAppState (mode s) (imageSrc s) (cutoutData s) (thickness s) (extrusionColor s)
    (bevelEnabled s) (bevelSize s) (isIso s) (fov s) (lightIntensity s) v.

(** What [App] does outside its state. *)
Inductive AppEffect : Type :=
| AppAlert (msg : string)
| SaveFile (project : JsValue).

(** A block of statements that may throw: it runs on the pending state and
    gives the state reached and, unless something threw, a result.  The
    setter calls made before a throw stay made. *)
Definition Act (A : Type) : Type := AppState -> AppState * option A.

Definition actBind {A B : Type} (m : Act A) (f : A -> Act B) : Act B :=
  fun s =>
    match m s with
    | (s', Some a) => f a s'
    | (s', None) => (s', None)
    end.

Definition call (setter : AppState -> AppState) : Act unit :=
  fun s => (setter s, Some tt).

(** Reading a property: throws on [undefined] and [null]. *)
Definition read (v : JsValue) (k : string) : Act JsValue :=
  fun s => (s, getProp v k).

Notation "'let!' x ':=' m 'in' f" := (actBind m (fun x => f))
  (at level 10, x name, m at level 100, f at level 200).
Notation "'do!' m 'in' f" := (actBind m (fun _ => f))
  (at level 10, m at level 100, f at level 200).

(** The [try] block of the [onload] callback in [handleLoadProject]. *)
Definition loadBlock (project : JsValue) : Act unit :=
  let! c := read project "cutoutData" in
  do! call (setCutoutData c) in
  let! c := read project "cutoutData" in
  let! v := read c "textureUrl" in
  do! call (setImageSrc v) in
  let! t := read project "settings" in
  let! v := read t "thickness" in
  do! call (setThickness v) in
  let! t := read project "settings" in
  let! v := read t "extrusionColor" in
  do! call (setExtrusionColor v) in
  let! t := read project "settings" in
  let! v := read t "bevelEnabled" in
  do! call (setBevelEnabled v) in
  let! t := read project "settings" in
  let! v := read t "bevelSize" in
  do! call (setBevelSize v) in
  let! t := read project "settings" in
  let! v := read t "isIso" in
  do! call (setIsIso v) in
  let! t := read project "settings" in
  let! v := read t "fov" in
  do! call (setFov v) in
  let! t := read project "settings" in
  let! v := read t "lightIntensity" in
  do! call (setLightIntensity v) in
  let! t := read project "settings" in
  let! v := read t "lightColor" in
  do! call (setLightColor v) in
  call (setMode VIEW_3D).

(** The [onload] callback of [handleLoadProject]; [parsed] is the result of
    [JSON.parse], [None] when it throws. *)
Definition onProjectRead (parsed : option JsValue) (s : AppState)
  : AppState * list AppEffect :=
  match parsed with
  | None => (s, [AppAlert "Invalid project file"])
  | Some project =>
      match loadBlock project s with
      | (s', Some _) => (s', [])
      | (s', None) => (s', [AppAlert "Invalid project file"])
      end
  end.

(** The object literal [project] of [handleSaveProject]. *)
Definition projectOf (s : AppState) : JsValue :=
  JObj [("version", JNum 1);
        ("cutoutData", cutoutData s);
        ("settings",
         JObj [("thickness", thickness s);
               ("extrusionColor", extrusionColor s);
               ("bevelEnabled", bevelEnabled s);
               ("bevelSize", bevelSize s);
               ("isIso", isIso s);
               ("fov", fov s);
               ("lightIntensity", lightIntensity s);
               ("lightColor", lightColor s)])]%string.

(** [handleSaveProject]: the project object it serializes and offers for
    download, if any. *)
Definition handleSaveProject (s : AppState) : list AppEffect :=
  if negb (truthy (cutoutData s)) then [] else [SaveFile (projectOf s)].

(** A [CutoutData] as a JavaScript value. *)
Definition jsOfPoint (p : Point) : JsValue :=
  JObj [("x", JNum (x p)); ("y", JNum (y p))]%string.

Definition jsOfCutout (data : CutoutData) : JsValue :=
  JObj [("points", JArr (map jsOfPoint (cd_points data)));
        ("textureUrl", JStr (textureUrl data));
        ("aspectRatio", JNum (aspectRatio data))]%string.

(** [handleCropFinish], the [onFinish] callback given to the editor. *)
Definition handleCropFinish (data : CutoutData) (s : AppState) : AppState :=
  setMode VIEW_3D (setCutoutData (jsOfCutout data) s).

(** A project file that holds a cutout but no settings. *)
Definition projectWithoutSettings : JsValue :=
  JObj [("version", JNum 1); ("cutoutData", jsOfCutout scenarioData)]%string.

(** The value read from [v.k] where the read does not throw. *)
Definition propOr (v : JsValue) (k : string) : JsValue :=
  match getProp v k with
  | Some w => w
  | None => JUndefined
  end.

(** The state a complete load leaves: everything comes from the file. *)
Definition loadedState (url cd t : JsValue) : AppState :=
  mkAppState VIEW_3D url cd (propOr t "thickness") (propOr t "extrusionColor")
    (propOr t "bevelEnabled") (propOr t "bevelSize") (propOr t "isIso")
    (propOr t "fov") (propOr t "lightIntensity") (propOr t "lightColor").

(** * Properties *)

(** ** Coordinate mapping *)

Lemma clamp_unit_interval (t : R) : 0 <= Rmax 0 (Rmin 1 t) <= 1.
Proof.
  split.
  - apply Rmax_l.
  - apply Rmax_lub; [lra | apply Rmin_l].
Qed.

Lemma clamp_id_on_unit (t : R) : 0 <= t <= 1 -> Rmax 0 (Rmin 1 t) = t.
Proof.
  intros [H0 H1].
  rewrite (Rmin_right 1 t) by exact H1.
  apply Rmax_right; exact H0.
Qed.

Lemma clamp_inUnitSquare (p : Point) : inUnitSquare (clamp p).
Proof. split; apply clamp_unit_interval. Qed.

(** The fit of the scenario image into an 800 x 200 container. *)
Example fitImage_scenario :
  fitImage 800 200 scenarioImage = scenarioDimensions.
Proof.
  unfold fitImage, scenarioDimensions; simpl.
  assert (E : Rmin (800 / 800) (200 / 400) = 0.5).
  { rewrite Rmin_right by lra. lra. }
  rewrite E. f_equal; lra.
Qed.

(** For a render size that is not zero the object derived from a pointer
    event has real coordinates: those of the real-number definitions. *)
Lemma jsDivide_nonzero (a b : R) : b <> 0 -> jsDivide a b = Finite (a / b).
Proof.
  intros Hb. unfold jsDivide. destruct (Req_dec_T b 0); [contradiction | reflexivity].
Qed.

Lemma clampedOfJs_nonzero (d : Dimensions) (rect : DOMRect) (e : PointerEvent) :
  width d <> 0 -> height d <> 0 ->
  clampedOfJs d rect e = ofPoint (clampedOf d rect e).
Proof.
  intros Hw Hh. unfold clampedOfJs, clampJs, toNormalizedJs; simpl.
  rewrite !jsDivide_nonzero by assumption. reflexivity.
Qed.

(** One axis of the clamped object: [NaN] when dividend and divisor are both
    zero, a number of [0,1] otherwise. *)
Lemma clamped_axis_NaN (a b : R) :
  mathMax 0 (mathMin 1 (jsDivide a b)) = NaN <-> b = 0 /\ a = 0.
Proof.
  unfold jsDivide.
  destruct (Req_dec_T b 0) as [Hb|Hb]; [destruct (Req_dec_T a 0) as [Ha|Ha];
    [|destruct (Rlt_dec 0 a)]|]; simpl; split;
    try discriminate; try (intros [? ?]; contradiction); auto.
Qed.

Lemma clamped_axis_range (a b : R) :
  mathMax 0 (mathMin 1 (jsDivide a b)) <> NaN ->
  inUnitInterval (mathMax 0 (mathMin 1 (jsDivide a b))).
Proof.
  unfold jsDivide.
  destruct (Req_dec_T b 0) as [Hb|Hb]; [destruct (Req_dec_T a 0) as [Ha|Ha];
    [|destruct (Rlt_dec 0 a)]|]; simpl; intros H.
  - contradiction.
  - rewrite Rmax_right by lra. lra.
  - lra.
  - apply clamp_unit_interval.
Qed.

(** C6.  The object the pointer handlers derive from an event, [toNormalized]
    followed by the clamp of each axis.  For a render width and height that
    are not zero it is the point of the real-number model and lies in
    [0,1] x [0,1], wherever the pointer is.  On either axis the clamped
    number is [NaN] exactly when the render size on that axis is zero and
    the pointer is at the offset (0/0: the clamp keeps [NaN]); in every other
    case, an infinite quotient included, it is a number of [0,1].  So the
    range fails before the image has loaded, where the render size is 0. *)
Theorem C6_clamped_point_range :
  forall (d : Dimensions) (rect : DOMRect) (e : PointerEvent),
    (width d <> 0 -> height d <> 0 ->
       clampedOfJs d rect e
       = ofPoint (clamp (toNormalized d (clientX e - left rect)
                           (clientY e - top rect)))
       /\ inUnitSquare (clamp (toNormalized d (clientX e - left rect)
                                 (clientY e - top rect))))
    /\ (jx (clampedOfJs d rect e) = NaN
        <-> width d = 0 /\ clientX e - left rect = offsetX d)
    /\ (jy (clampedOfJs d rect e) = NaN
        <-> height d = 0 /\ clientY e - top rect = offsetY d)
    /\ (jx (clampedOfJs d rect e) <> NaN -> inUnitInterval (jx (clampedOfJs d rect e)))
    /\ (jy (clampedOfJs d rect e) <> NaN -> inUnitInterval (jy (clampedOfJs d rect e)))
    /\ (forall s s', dimensions s = d -> width d <> 0 -> height d <> 0 ->
          handlePointerMove rect e s = Some s' ->
          option_map ofPoint (cursorPos s') = Some (clampedOfJs d rect e))
    /\ (forall s, dimensions s = d -> width d <> 0 -> height d <> 0 ->
          tool s = freehand ->
          map ofPoint (points (handlePointerDown rect e s))
          = map ofPoint (points s) ++ [clampedOfJs d rect e]).
Proof.
  intros d rect e.
  split; [|split; [|split; [|split; [|split; [|split]]]]].
  - intros Hw Hh. split; [|exact (clamp_inUnitSquare _)].
    exact (clampedOfJs_nonzero d rect e Hw Hh).
  - unfold clampedOfJs, clampJs, toNormalizedJs, localX; simpl.
    rewrite clamped_axis_NaN. split; intros [H1 H2]; (split; [exact H1 | lra]).
  - unfold clampedOfJs, clampJs, toNormalizedJs, localY; simpl.
    rewrite clamped_axis_NaN. split; intros [H1 H2]; (split; [exact H1 | lra]).
  - unfold clampedOfJs, clampJs, toNormalizedJs; simpl. apply clamped_axis_range.
  - unfold clampedOfJs, clampJs, toNormalizedJs; simpl. apply clamped_axis_range.
  - intros s s' Hd Hw Hh Hm.
    rewrite (clampedOfJs_nonzero d rect e Hw Hh).
    unfold handlePointerMove in Hm. rewrite Hd in Hm.
    destruct (tool s).
    + destruct (isDrawing s); inversion Hm; reflexivity.
    + inversion Hm; reflexivity.
    + destruct (draggingPointIndex s) as [i|].
      * destruct (arraySet i _ (points s)); inversion Hm; reflexivity.
      * inversion Hm; reflexivity.
  - intros s Hd Hw Hh Ht.
    rewrite (clampedOfJs_nonzero d rect e Hw Hh).
    unfold handlePointerDown. rewrite Ht, Hd. simpl.
    rewrite map_app. reflexivity.
Qed.

Lemma C6_clamped_point_range_witness :
  (width scenarioDimensions <> 0 /\ height scenarioDimensions <> 0
   /\ inUnitSquare (clamp (toNormalized scenarioDimensions
                             (clientX scenarioOutside - left scenarioRect)
                             (clientY scenarioOutside - top scenarioRect))))
  /\ (width initialDimensions = 0
      /\ clientX cornerEvent - left scenarioRect = offsetX initialDimensions
      /\ jx (clampedOfJs initialDimensions scenarioRect cornerEvent) = NaN)
  /\ (height initialDimensions = 0
      /\ clientY cornerEvent - top scenarioRect = offsetY initialDimensions
      /\ jy (clampedOfJs initialDimensions scenarioRect cornerEvent) = NaN).
Proof.
  assert (Hw : width scenarioDimensions <> 0) by (simpl; lra).
  assert (Hh : height scenarioDimensions <> 0) by (simpl; lra).
  assert (Zw : width initialDimensions = 0) by reflexivity.
  assert (Zh : height initialDimensions = 0) by reflexivity.
  assert (Ex : clientX cornerEvent - left scenarioRect = offsetX initialDimensions)
    by (simpl; lra).
  assert (Ey : clientY cornerEvent - top scenarioRect = offsetY initialDimensions)
    by (simpl; lra).
  split; [|split].
  - split; [exact Hw|]. split; [exact Hh|].
    exact (proj2 (proj1 (C6_clamped_point_range scenarioDimensions scenarioRect
                           scenarioOutside) Hw Hh)).
  - split; [exact Zw|]. split; [exact Ex|].
    exact (proj2 (proj1 (proj2 (C6_clamped_point_range initialDimensions
                                  scenarioRect cornerEvent)))
             (conj Zw Ex)).
  - split; [exact Zh|]. split; [exact Ey|].
    exact (proj2 (proj1 (proj2 (proj2 (C6_clamped_point_range initialDimensions
                                         scenarioRect cornerEvent))))
             (conj Zh Ey)).
Defined.

(** C7.  For a fit whose render width and height are not zero, [toNormalized]
    undoes [toScreen] (exactly, in real arithmetic); and for a point of the
    unit square the clamp that follows it in the handlers changes nothing. *)
Theorem C7_toNormalized_toScreen :
  forall (d : Dimensions) (p : Point),
    width d <> 0 -> height d <> 0 ->
    toNormalized d (x (toScreen d p)) (y (toScreen d p)) = p
    /\ (inUnitSquare p ->
        clamp (toNormalized d (x (toScreen d p)) (y (toScreen d p))) = p).
Proof.
  intros d [a b] Hw Hh.
  assert (E : toNormalized d (x (toScreen d (mkPoint a b)))
                (y (toScreen d (mkPoint a b))) = mkPoint a b).
  { unfold toNormalized, toScreen; simpl. f_equal; field; assumption. }
  split; [exact E|].
  intros [Hx Hy]. rewrite E. unfold clamp; simpl in *.
  rewrite !clamp_id_on_unit by assumption. reflexivity.
Qed.

Lemma C7_toNormalized_toScreen_witness :
  width scenarioDimensions <> 0 /\ height scenarioDimensions <> 0
  /\ toNormalized scenarioDimensions
       (x (toScreen scenarioDimensions (mkPoint 0.25 0.75)))
       (y (toScreen scenarioDimensions (mkPoint 0.25 0.75)))
     = mkPoint 0.25 0.75
  /\ inUnitSquare (mkPoint 0.25 0.75)
  /\ clamp (toNormalized scenarioDimensions
              (x (toScreen scenarioDimensions (mkPoint 0.25 0.75)))
              (y (toScreen scenarioDimensions (mkPoint 0.25 0.75))))
     = mkPoint 0.25 0.75.
Proof.
  assert (Hw : width scenarioDimensions <> 0) by (simpl; lra).
  assert (Hh : height scenarioDimensions <> 0) by (simpl; lra).
  assert (Hu : inUnitSquare (mkPoint 0.25 0.75)) by (unfold inUnitSquare; simpl; lra).
  split; [exact Hw|]. split; [exact Hh|].
  split; [|split; [exact Hu|]].
  - exact (proj1 (C7_toNormalized_toScreen scenarioDimensions (mkPoint 0.25 0.75) Hw Hh)).
  - exact (proj2 (C7_toNormalized_toScreen scenarioDimensions (mkPoint 0.25 0.75) Hw Hh) Hu).
Defined.

(** ** Extrusion builder: UV remap *)

Lemma uvLoop_length (aspect : R) (pos : list Vertex) :
  forall (i : nat) (uvs : list UV),
    length (uvLoop aspect pos i uvs) = length uvs.
Proof.
  induction pos as [|p pos IH]; intros i uvs; simpl.
  - reflexivity.
  - rewrite IH. apply length_insert.
Qed.

(** Slots below the start index are not touched by the loop. *)
Lemma uvLoop_lookup_lt (aspect : R) (pos : list Vertex) :
  forall (i j : nat) (uvs : list UV),
    (j < i)%nat -> uvLoop aspect pos i uvs !! j = uvs !! j.
Proof.
  induction pos as [|p pos IH]; intros i j uvs Hj; simpl.
  - reflexivity.
  - rewrite IH by lia. apply list_lookup_insert_ne. lia.
Qed.

(** Slot [i + n] receives the UV computed from vertex [n]. *)
Lemma uvLoop_lookup (aspect : R) (pos : list Vertex) :
  forall (i n : nat) (uvs : list UV) (p : Vertex),
    pos !! n = Some p -> (i + n < length uvs)%nat ->
    uvLoop aspect pos i uvs !! (i + n)%nat = Some (uvOf aspect p).
Proof.
  induction pos as [|q pos IH]; intros i n uvs p Hp Hlen.
  - discriminate.
  - destruct n as [|n]; simpl in *.
    + inversion Hp; subst q. rewrite Nat.add_0_r in *.
      rewrite uvLoop_lookup_lt by lia.
      apply list_lookup_insert_eq. exact Hlen.
    + replace (i + S n)%nat with (S i + n)%nat by lia.
      apply IH; [exact Hp|]. rewrite length_insert. lia.
Qed.

(** The UV formula inverts the planar map. *)
Lemma uvOf_planar (aspect : R) (p : Point) (z : R) :
  aspect <> 0 ->
  uvOf aspect (mkVertex (planarX aspect p) (planarY p) z) = mkUV (x p) (1 - y p).
Proof.
  intros Ha. unfold uvOf, planarX, planarY, worldScale; simpl.
  f_equal; field. exact Ha.
Qed.

(** The outline of the shape of a cutout with at least 3 points: the planar
    images of its points, in order. *)
Lemma outline_shape (data : CutoutData) :
  (3 <= length (cd_points data))%nat ->
  outline (shape data)
  = map (fun p => (planarX (aspectRatio data) p, planarY p)) (cd_points data).
Proof.
  intros H3. unfold shape.
  destruct (length (cd_points data) <? 3)%nat eqn:G;
    [apply Nat.ltb_lt in G; lia|].
  destruct (cd_points data) as [|p0 rest]; [reflexivity|].
  unfold outline. cbn [omap list_omap outlinePoint map]. f_equal.
  clear H3 G. induction rest as [|p rest IH]; [reflexivity|].
  cbn [map app omap list_omap outlinePoint]. f_equal. exact IH.
Qed.

(** With fewer than 3 points the shape has no outline. *)
Lemma outline_shape_short (data : CutoutData) :
  (length (cd_points data) < 3)%nat -> outline (shape data) = [].
Proof.
  intros H3. unfold shape.
  destruct (length (cd_points data) <? 3)%nat eqn:G; [reflexivity|].
  apply Nat.ltb_ge in G. lia.
Qed.

(** C1.  After the UV loop, vertex [i] of the geometry (in particular every
    vertex of the front and back faces) carries [u = x/(5*aspect) + 0.5] and
    [v = 1 - (-(y/5) + 0.5)] for its own position [(x, y)].  The outline of
    [shape data] is the image of the contour under the forward map
    [((px - 0.5)*5*aspect, -(py - 0.5)*5)], point by point.  So a vertex
    that lies on outline point [k] of the shape is the forward image of
    contour point [k], and when the aspect ratio is not zero its UV is
    [(px, 1 - py)]; with aspect ratio 2 the vertex on the outline point of
    (0.25, 0.25) receives (0.25, 0.75). *)
Theorem C1_uv_inverts_planar_map :
  forall (data : CutoutData) (pos : list Vertex) (uvs : list UV)
         (i : nat) (q : Vertex),
    length uvs = length pos ->
    pos !! i = Some q ->
    remapUV data pos uvs !! i
      = Some (mkUV (vx q / (5 * aspectRatio data) + 0.5)
                   (1 - (- (vy q / 5) + 0.5)))
    /\ ((3 <= length (cd_points data))%nat ->
        outline (shape data)
        = map (fun p => ((x p - 0.5) * 5 * aspectRatio data, - (y p - 0.5) * 5))
            (cd_points data))
    /\ (forall k : nat,
          outline (shape data) !! k = Some (vx q, vy q) ->
          exists p : Point,
            cd_points data !! k = Some p
            /\ vx q = (x p - 0.5) * 5 * aspectRatio data
            /\ vy q = - (y p - 0.5) * 5
            /\ (aspectRatio data <> 0 ->
                remapUV data pos uvs !! i = Some (mkUV (x p) (1 - y p))))
    /\ (forall k : nat,
          aspectRatio data = 2 ->
          cd_points data !! k = Some (mkPoint 0.25 0.25) ->
          outline (shape data) !! k = Some (vx q, vy q) ->
          remapUV data pos uvs !! i = Some (mkUV 0.25 0.75)).
Proof.
  intros data pos uvs i q Hlen Hq.
  assert (Hi : (i < length pos)%nat) by (eapply lookup_lt_Some; exact Hq).
  assert (E : remapUV data pos uvs !! i = Some (uvOf (aspectRatio data) q)).
  { unfold remapUV. apply (uvLoop_lookup _ pos 0 i uvs q Hq). simpl. lia. }
  assert (G : forall k : nat,
             outline (shape data) !! k = Some (vx q, vy q) ->
             exists p : Point,
               cd_points data !! k = Some p
               /\ vx q = (x p - 0.5) * 5 * aspectRatio data
               /\ vy q = - (y p - 0.5) * 5
               /\ (aspectRatio data <> 0 ->
                   remapUV data pos uvs !! i = Some (mkUV (x p) (1 - y p)))).
  { intros k Hk.
    destruct (Nat.lt_ge_cases (length (cd_points data)) 3) as [Hs|H3].
    - rewrite (outline_shape_short data Hs) in Hk. discriminate.
    - rewrite (outline_shape data H3) in Hk.
      change (map ?f ?l) with (f <$> l) in Hk.
      rewrite list_lookup_fmap in Hk.
      apply fmap_Some in Hk as (p & Hp & Hxy).
      inversion Hxy as [[Hx Hy]].
      exists p. split; [exact Hp|].
      split; [rewrite Hx; unfold planarX, worldScale; reflexivity|].
      split; [rewrite Hy; unfold planarY, worldScale; reflexivity|].
      intros Ha. rewrite E.
      rewrite <- (uvOf_planar (aspectRatio data) p (vz q) Ha).
      destruct q as [qx qy qz]; simpl in *. rewrite Hx, Hy. reflexivity. }
  split; [exact E|]. split; [|split; [exact G|]].
  - intros H3. rewrite (outline_shape data H3). reflexivity.
  - intros k Ha Hp Hk.
    destruct (G k Hk) as (p & Hp' & _ & _ & Huv).
    rewrite Hp in Hp'. inversion Hp'; subst p.
    rewrite Huv by lra. simpl. do 2 f_equal. lra.
Qed.

Lemma C1_uv_inverts_planar_map_witness :
  length scenarioUVs = length scenarioPositions
  /\ scenarioPositions !! 4%nat = Some (mkVertex (-2.5) 1.25 0.5)
  /\ aspectRatio scenarioData = 2
  /\ cd_points scenarioData !! 0%nat = Some (mkPoint 0.25 0.25)
  /\ outline (shape scenarioData) !! 0%nat = Some (-2.5, 1.25)
  /\ remapUV scenarioData scenarioPositions scenarioUVs !! 4%nat
     = Some (mkUV 0.25 0.75)
  /\ (3 <= length (cd_points scenarioData))%nat
  /\ scenarioPositions !! 2%nat = Some (mkVertex 2.5 1.25 0)
  /\ outline (shape scenarioData) !! 1%nat = Some (2.5, 1.25)
  /\ exists p : Point,
       cd_points scenarioData !! 1%nat = Some p
       /\ remapUV scenarioData scenarioPositions scenarioUVs !! 2%nat
          = Some (mkUV (x p) (1 - y p)).
Proof.
  assert (Hl : length scenarioUVs = length scenarioPositions) by reflexivity.
  assert (Hq : scenarioPositions !! 4%nat = Some (mkVertex (-2.5) 1.25 0.5))
    by reflexivity.
  assert (Hq2 : scenarioPositions !! 2%nat = Some (mkVertex 2.5 1.25 0))
    by reflexivity.
  assert (Ha : aspectRatio scenarioData = 2) by (simpl; lra).
  assert (Hn : aspectRatio scenarioData <> 0) by (simpl; lra).
  assert (Hp : cd_points scenarioData !! 0%nat = Some (mkPoint 0.25 0.25))
    by reflexivity.
  assert (H3 : (3 <= length (cd_points scenarioData))%nat) by (simpl; lia).
  assert (Ho : outline (shape scenarioData) !! 0%nat = Some (-2.5, 1.25)).
  { rewrite (proj1 (proj2 (C1_uv_inverts_planar_map scenarioData scenarioPositions
                             scenarioUVs 4%nat _ Hl Hq)) H3).
    simpl. do 2 f_equal; lra. }
  assert (Ho1 : outline (shape scenarioData) !! 1%nat = Some (2.5, 1.25)).
  { rewrite (proj1 (proj2 (C1_uv_inverts_planar_map scenarioData scenarioPositions
                             scenarioUVs 4%nat _ Hl Hq)) H3).
    simpl. do 2 f_equal; lra. }
  split; [exact Hl|]. split; [exact Hq|]. split; [exact Ha|]. split; [exact Hp|].
  split; [exact Ho|]. split; [|split; [exact H3|split; [exact Hq2|split; [exact Ho1|]]]].
  - exact (proj2 (proj2 (proj2 (C1_uv_inverts_planar_map scenarioData
                                  scenarioPositions scenarioUVs 4%nat _ Hl Hq)))
             0%nat Ha Hp Ho).
  - destruct (proj1 (proj2 (proj2 (C1_uv_inverts_planar_map scenarioData
                                     scenarioPositions scenarioUVs 2%nat _ Hl Hq2)))
                1%nat Ho1) as (p & Hp1 & _ & _ & Huv).
    exists p. split; [exact Hp1 | exact (Huv Hn)].
Defined.

(** ** History stack *)

Lemma saveHistory_history (s k : EditorState) (newPoints : Contour) :
  history (saveHistory s newPoints k)
  = firstn (historyStep s + 1) (history s) ++ [newPoints].
Proof. reflexivity. Qed.

Lemma saveHistory_historyStep (s k : EditorState) (newPoints : Contour) :
  historyStep (saveHistory s newPoints k)
  = (length (firstn (historyStep s + 1) (history s) ++ [newPoints]) - 1)%nat.
Proof. reflexivity. Qed.

Lemma saveHistory_points (s k : EditorState) (newPoints : Contour) :
  points (saveHistory s newPoints k) = points k.
Proof. reflexivity. Qed.

(** After a commit the cursor is the index of the last entry. *)
Lemma saveHistory_cursor_last (s k : EditorState) (newPoints : Contour) :
  S (historyStep (saveHistory s newPoints k))
  = length (history (saveHistory s newPoints k)).
Proof.
  rewrite saveHistory_historyStep, saveHistory_history.
  rewrite length_app; simpl. lia.
Qed.

Lemma handleUndo_cursorInRange (s s' : EditorState) :
  cursorInRange s -> handleUndo s = Some s' -> cursorInRange s'.
Proof.
  unfold cursorInRange, handleUndo. intros H E.
  destruct (0 <? historyStep s)%nat eqn:G.
  - destruct (history s !! (historyStep s - 1)%nat); [|discriminate].
    inversion E; subst s'; simpl. lia.
  - inversion E; subst s'. exact H.
Qed.

Lemma handleRedo_cursorInRange (s s' : EditorState) :
  cursorInRange s -> handleRedo s = Some s' -> cursorInRange s'.
Proof.
  unfold cursorInRange, handleRedo. intros H E.
  destruct (Z.of_nat (historyStep s) <? Z.of_nat (length (history s)) - 1)%Z eqn:G.
  - destruct (history s !! (historyStep s + 1)%nat); [|discriminate].
    inversion E; subst s'; simpl. apply Z.ltb_lt in G. lia.
  - inversion E; subst s'. exact H.
Qed.

Lemma handlePointerDown_cursorInRange rect e (s : EditorState) :
  cursorInRange s -> cursorInRange (handlePointerDown rect e s).
Proof.
  unfold cursorInRange, handlePointerDown. intros H.
  destruct (tool s).
  - exact H.
  - simpl. rewrite length_app; simpl. lia.
  - destruct (_ =? _)%Z; exact H.
Qed.

Lemma handlePointerMove_cursorInRange rect e (s s' : EditorState) :
  cursorInRange s -> handlePointerMove rect e s = Some s' -> cursorInRange s'.
Proof.
  unfold cursorInRange, handlePointerMove. intros H E.
  destruct (tool s).
  - destruct (isDrawing s); inversion E; subst s'; exact H.
  - inversion E; subst s'; exact H.
  - destruct (draggingPointIndex s) as [i|].
    + destruct (arraySet i _ (points s)); inversion E; subst s'; exact H.
    + inversion E; subst s'; exact H.
Qed.

Lemma handlePointerUp_cursorInRange (s : EditorState) :
  cursorInRange s -> cursorInRange (handlePointerUp s).
Proof.
  unfold cursorInRange, handlePointerUp. intros H.
  destruct (tool s); simpl.
  - destruct (isDrawing s); simpl; [rewrite length_app; simpl; lia | exact H].
  - exact H.
  - destruct (draggingPointIndex s); simpl;
      [rewrite length_app; simpl; lia | exact H].
Qed.

Lemma step_cursorInRange (s s' : EditorState) (ev : Event) :
  cursorInRange s -> step s ev = Some s' -> cursorInRange s'.
Proof.
  intros H E. destruct ev; simpl in E.
  - inversion E; subst s'. apply handlePointerDown_cursorInRange, H.
  - eapply handlePointerMove_cursorInRange; eassumption.
  - inversion E; subst s'. apply handlePointerUp_cursorInRange, H.
  - inversion E; subst s'. apply (handlePointerUp_cursorInRange s H).
  - eapply handleUndo_cursorInRange; eassumption.
  - eapply handleRedo_cursorInRange; eassumption.
  - inversion E; subst s'. unfold cursorInRange, handleClear; simpl.
    rewrite length_app; simpl. lia.
  - inversion E; subst s'. exact H.
  - inversion E; subst s'. exact H.
  - destruct (imageElement s); inversion E; subst s'; exact H.
Qed.

(** The invariant of the data model, [0 <= cursor < length], holds in every
    state the editor reaches. *)
Lemma reachable_cursorInRange (s : EditorState) :
  reachable s -> cursorInRange s.
Proof.
  induction 1 as [|s ev s' _ IH E].
  - unfold cursorInRange; simpl. lia.
  - eapply step_cursorInRange; eassumption.
Qed.

(** In a state with the cursor in range undo and redo never read past the
    end of the history. *)
Lemma handleUndo_total (s : EditorState) :
  cursorInRange s -> exists s', handleUndo s = Some s'.
Proof.
  unfold cursorInRange, handleUndo. intros H.
  destruct (0 <? historyStep s)%nat; [|eauto].
  destruct (lookup_lt_is_Some_2 (history s) (historyStep s - 1)%nat) as [c Hc];
    [lia|]. rewrite Hc. eauto.
Qed.

Lemma handleRedo_total (s : EditorState) :
  exists s', handleRedo s = Some s'.
Proof.
  unfold handleRedo.
  destruct (Z.of_nat (historyStep s) <? Z.of_nat (length (history s)) - 1)%Z eqn:G;
    [|eauto].
  apply Z.ltb_lt in G.
  destruct (lookup_lt_is_Some_2 (history s) (historyStep s + 1)%nat) as [c Hc];
    [lia|]. rewrite Hc. eauto.
Qed.

(** C2.  The history starts as the single empty snapshot at cursor 0.  Undo at
    cursor 0 and redo at the last index return the state unchanged.  A commit
    keeps the entries up to the cursor, drops every entry beyond it, appends
    the new contour and moves the cursor onto it.  So commit A, commit B,
    undo, commit C leaves the history [[]; A; C] with the cursor on C, where
    redo changes nothing. *)
Theorem C2_history_stack :
  (history initialState = [[]] /\ historyStep initialState = 0%nat
   /\ points initialState = [])
  /\ (forall s, historyStep s = 0%nat -> handleUndo s = Some s)
  /\ (forall s,
        Z.of_nat (historyStep s) = (Z.of_nat (length (history s)) - 1)%Z ->
        handleRedo s = Some s)
  /\ (forall s k newPoints,
        (historyStep s < length (history s))%nat ->
        let s' := saveHistory s newPoints k in
        history s' = firstn (historyStep s + 1) (history s) ++ [newPoints]
        /\ (forall i, (i <= historyStep s)%nat -> history s' !! i = history s !! i)
        /\ length (history s') = (historyStep s + 2)%nat
        /\ historyStep s' = (historyStep s + 1)%nat
        /\ history s' !! historyStep s' = Some newPoints)
  /\ (forall A B C : Contour,
        exists s3,
          handleUndo (commit B (commit A initialState)) = Some s3
          /\ points s3 = A
          /\ history (commit C s3) = [[]; A; C]
          /\ historyStep (commit C s3) = 2%nat
          /\ points (commit C s3) = C
          /\ handleRedo (commit C s3) = Some (commit C s3)).
Proof.
  split; [repeat split|]. split; [|split; [|split]].
  - intros s H. unfold handleUndo. rewrite H. reflexivity.
  - intros s H. unfold handleRedo.
    rewrite (proj2 (Z.ltb_ge _ _)) by lia. reflexivity.
  - intros s k newPoints H s'. subst s'.
    rewrite saveHistory_history, saveHistory_historyStep.
    assert (L : length (firstn (historyStep s + 1) (history s))
                = (historyStep s + 1)%nat).
    { rewrite length_firstn. lia. }
    rewrite length_app, L; simpl.
    split; [reflexivity|]. split; [|split; [lia|split; [lia|]]].
    + intros i Hi. rewrite lookup_app_l by lia.
      change (firstn (historyStep s + 1) (history s))
        with (take (historyStep s + 1) (history s)).
      apply lookup_take_lt. lia.
    + replace (historyStep s + 1 + 1 - 1)%nat
        with (length (firstn (historyStep s + 1) (history s)) + 0)%nat by lia.
      rewrite lookup_app_r by lia.
      replace (_ + 0 - _)%nat with 0%nat by lia. reflexivity.
  - intros A B C. eexists. split; [reflexivity|]. repeat split.
Qed.

Lemma C2_history_stack_witness :
  historyStep initialState = 0%nat
  /\ handleUndo initialState = Some initialState
  /\ Z.of_nat (historyStep (commit scenarioContour initialState))
     = (Z.of_nat (length (history (commit scenarioContour initialState))) - 1)%Z
  /\ handleRedo (commit scenarioContour initialState)
     = Some (commit scenarioContour initialState)
  /\ (historyStep initialState < length (history initialState))%nat
  /\ history (saveHistory initialState scenarioContour initialState)
     = [[]; scenarioContour].
Proof.
  assert (H0 : historyStep initialState = 0%nat) by reflexivity.
  assert (H1 : Z.of_nat (historyStep (commit scenarioContour initialState))
               = (Z.of_nat (length (history (commit scenarioContour initialState))) - 1)%Z)
    by reflexivity.
  assert (H2 : (historyStep initialState < length (history initialState))%nat)
    by (simpl; lia).
  destruct C2_history_stack as (_ & Hundo & Hredo & Hcommit & _).
  split; [exact H0|]. split; [exact (Hundo initialState H0)|].
  split; [exact H1|]. split; [exact (Hredo _ H1)|].
  split; [exact H2|].
  exact (proj1 (Hcommit initialState initialState scenarioContour H2)).
Defined.

(** ** Finish *)

(** C3.  With fewer than 3 points [handleFinish] only raises the alert: it
    calls [onFinish] with no data and leaves the state (contour, history,
    tool) as it was.  With 3 points or more and the image loaded it calls
    [onFinish] with the current contour and the aspect ratio
    [width / height] of the image, again leaving the state as it was. *)
Theorem C3_finish_guard :
  forall (imageUrl : string) (s : EditorState),
    ((length (points s) < 3)%nat ->
       handleFinish imageUrl s = (s, Alert "Please draw a loop to crop.")
       /\ (forall data, snd (handleFinish imageUrl s) <> OnFinish data)
       /\ points (fst (handleFinish imageUrl s)) = points s
       /\ history (fst (handleFinish imageUrl s)) = history s
       /\ historyStep (fst (handleFinish imageUrl s)) = historyStep s
       /\ tool (fst (handleFinish imageUrl s)) = tool s)
    /\ (forall img,
          (3 <= length (points s))%nat ->
          imageElement s = Some img ->
          exists data,
            handleFinish imageUrl s = (s, OnFinish data)
            /\ cd_points data = points s
            /\ aspectRatio data = img_width img / img_height img).
Proof.
  intros imageUrl s. unfold handleFinish. split.
  - intros H. apply Nat.ltb_lt in H. rewrite H; simpl.
    repeat split; try reflexivity. intros data; discriminate.
  - intros img H Himg. apply Nat.ltb_ge in H. rewrite H, Himg.
    eexists. split; [reflexivity|]. split; reflexivity.
Qed.

Lemma C3_finish_guard_witness :
  (length (points (setPoints [mkPoint 0.25 0.25; mkPoint 0.75 0.25] scenarioState)) < 3)%nat
  /\ snd (handleFinish "photo.png"
            (setPoints [mkPoint 0.25 0.25; mkPoint 0.75 0.25] scenarioState))
     = Alert "Please draw a loop to crop."
  /\ (3 <= length (points scenarioState))%nat
  /\ imageElement scenarioState = Some scenarioImage
  /\ handleFinish "photo.png" scenarioState = (scenarioState, OnFinish scenarioData).
Proof.
  assert (H2 : (length (points (setPoints [mkPoint 0.25 0.25; mkPoint 0.75 0.25]
                                  scenarioState)) < 3)%nat) by (simpl; lia).
  assert (H3 : (3 <= length (points scenarioState))%nat) by (simpl; lia).
  assert (Hi : imageElement scenarioState = Some scenarioImage) by reflexivity.
  split; [exact H2|].
  split; [exact (f_equal snd (proj1 (proj1 (C3_finish_guard "photo.png" _) H2)))|].
  split; [exact H3|]. split; [exact Hi|].
  destruct (proj2 (C3_finish_guard "photo.png" scenarioState) scenarioImage H3 Hi)
    as (data & E & _ & _).
  reflexivity.
Defined.

(** C10.  With 3 points or more and no image element yet, [handleFinish] still
    calls [onFinish]: the data carries the current contour and the aspect
    ratio 1. *)
Theorem C10_finish_before_image_load :
  forall (imageUrl : string) (s : EditorState),
    (3 <= length (points s))%nat ->
    imageElement s = None ->
    handleFinish imageUrl s
    = (s, OnFinish (mkCutoutData (points s) imageUrl 1)).
Proof.
  intros imageUrl s H Himg. unfold handleFinish.
  apply Nat.ltb_ge in H. rewrite H, Himg. reflexivity.
Qed.

Lemma C10_finish_before_image_load_witness :
  (3 <= length (points (setPoints scenarioContour initialState)))%nat
  /\ imageElement (setPoints scenarioContour initialState) = None
  /\ handleFinish "photo.png" (setPoints scenarioContour initialState)
     = (setPoints scenarioContour initialState,
        OnFinish (mkCutoutData scenarioContour "photo.png" 1)).
Proof.
  assert (H3 : (3 <= length (points (setPoints scenarioContour initialState)))%nat)
    by (simpl; lia).
  assert (Hi : imageElement (setPoints scenarioContour initialState) = None)
    by reflexivity.
  split; [exact H3|]. split; [exact Hi|].
  exact (C10_finish_before_image_load "photo.png" _ H3 Hi).
Defined.

(** ** Pointer release and pointer leave *)




(** ** Hit-testing *)

Section HitTest.
Variables (d : Dimensions) (cx cy : R).

Local Abbreviation dist := (screenDist d cx cy).

Lemma hitStep_closer (acc : HitScan) (p : Point) (i : nat) :
  dist p < minDist acc ->
  hitStep d cx cy acc p i = mkHitScan (dist p) (Z.of_nat i).
Proof.
  intros H. unfold hitStep. cbv zeta.
  destruct (Rlt_dec (dist p) (minDist acc)); [reflexivity | contradiction].
Qed.

Lemma hitStep_not_closer (acc : HitScan) (p : Point) (i : nat) :
  ~ dist p < minDist acc -> hitStep d cx cy acc p i = acc.
Proof.
  intros H. unfold hitStep. cbv zeta.
  destruct (Rlt_dec (dist p) (minDist acc)); [contradiction | reflexivity].
Qed.

(** What the scan leaves in its two variables: either it replaced nothing,
    and no point was closer than the starting radius, or it holds the index
    and the distance of a point closer than the starting radius, at most as
    far as every point and strictly closer than every earlier one. *)
Lemma forEach_hitStep_spec (ps : Contour) :
  forall (i : nat) (acc : HitScan),
    (forEach (hitStep d cx cy) ps i acc = acc
     /\ forall j q, ps !! j = Some q -> ~ dist q < minDist acc)
    \/ (exists n p,
          ps !! n = Some p
          /\ foundIndex (forEach (hitStep d cx cy) ps i acc) = Z.of_nat (i + n)
          /\ minDist (forEach (hitStep d cx cy) ps i acc) = dist p
          /\ dist p < minDist acc
          /\ (forall j q, ps !! j = Some q -> dist p <= dist q)
          /\ (forall j q, (j < n)%nat -> ps !! j = Some q -> dist p < dist q)).
Proof.
  induction ps as [|p ps' IH]; intros i acc.
  - left. split; [reflexivity|]. intros j q H; discriminate.
  - cbn [forEach].
    destruct (Rlt_dec (dist p) (minDist acc)) as [Hlt|Hge].
    + rewrite (hitStep_closer acc p i Hlt).
      destruct (IH (S i) (mkHitScan (dist p) (Z.of_nat i)))
        as [[E Hall] | (n & q & Hq & Hf & Hm & Hlt' & Hmin & Hstrict)];
        cbn [minDist foundIndex] in *.
      * right. exists 0%nat, p. rewrite E. cbn [minDist foundIndex].
        rewrite Nat.add_0_r.
        repeat split; try reflexivity; try assumption.
        -- intros [|j] q Hq; simpl in Hq.
           ++ inversion Hq; subst q. lra.
           ++ specialize (Hall j q Hq). lra.
        -- intros j q Hj; lia.
      * right. exists (S n), q.
        repeat split; try assumption.
        -- rewrite Hf. f_equal. lia.
        -- lra.
        -- intros [|j] q' Hq'; simpl in Hq'.
           ++ inversion Hq'; subst q'. lra.
           ++ exact (Hmin j q' Hq').
        -- intros [|j] q' Hj Hq'; simpl in Hq'.
           ++ inversion Hq'; subst q'. exact Hlt'.
           ++ apply (Hstrict j q'); [lia | exact Hq'].
    + rewrite (hitStep_not_closer acc p i Hge).
      destruct (IH (S i) acc)
        as [[E Hall] | (n & q & Hq & Hf & Hm & Hlt' & Hmin & Hstrict)].
      * left. split; [exact E|].
        intros [|j] q Hq; simpl in Hq.
        -- inversion Hq; subst q. exact Hge.
        -- exact (Hall j q Hq).
      * right. exists (S n), q.
        repeat split; try assumption.
        -- rewrite Hf. f_equal. lia.
        -- intros [|j] q' Hq'; simpl in Hq'.
           ++ inversion Hq'; subst q'. lra.
           ++ exact (Hmin j q' Hq').
        -- intros [|j] q' Hj Hq'; simpl in Hq'.
           ++ inversion Hq'; subst q'. lra.
           ++ apply (Hstrict j q'); [lia | exact Hq'].
Qed.

(** The result of the hit test. *)
Lemma nearest_spec (ps : Contour) :
  (nearest d cx cy ps = (-1)%Z
   /\ forall j q, ps !! j = Some q -> ~ dist q < 30)
  \/ (exists i p,
        nearest d cx cy ps = Z.of_nat i
        /\ ps !! i = Some p
        /\ dist p < 30
        /\ (forall j q, ps !! j = Some q -> dist p <= dist q)
        /\ (forall j q, (j < i)%nat -> ps !! j = Some q -> dist p < dist q)).
Proof.
  unfold nearest.
  destruct (forEach_hitStep_spec ps 0 (mkHitScan 30 (-1)))
    as [[E Hall] | (n & q & Hq & Hf & Hm & Hlt' & Hmin & Hstrict)];
    cbn [minDist foundIndex Nat.add] in *.
  - left. rewrite E. split; [reflexivity | exact Hall].
  - right. exists n, q. repeat split; assumption.
Qed.

Lemma nearest_none_iff (ps : Contour) :
  nearest d cx cy ps = (-1)%Z
  <-> forall j q, ps !! j = Some q -> ~ dist q < 30.
Proof.
  destruct (nearest_spec ps) as [[E Hall] | (i & p & E & Hp & Hlt & _)].
  - split; [intros _; exact Hall | intros _; exact E].
  - split.
    + rewrite E. lia.
    + intros Hall. destruct (Hall i p Hp Hlt).
Qed.
End HitTest.

Lemma hypot_lt (a b r : R) : 0 < r -> a * a + b * b < r * r -> hypot a b < r.
Proof.
  intros Hr H. unfold hypot.
  rewrite <- (sqrt_square r) by lra.
  apply sqrt_lt_1_alt. split; [nra | exact H].
Qed.

(** C5.  The Move hit test scans the whole contour with the Euclidean distance
    on screen between each point and the click.  Either no point is strictly
    closer than 30 px and nothing is selected ([-1]; the state is unchanged),
    or the selected index holds a point strictly closer than 30 px, at most
    as far as every other point and strictly closer than every point before
    it; so of two points at equal distance the later one is never selected,
    and a point within the radius always leads to a selection.  The drag
    index recorded by [handlePointerDown] is that index. *)
Theorem C5_hit_test_nearest :
  forall (d : Dimensions) (cx cy : R) (ps : Contour),
    (forall p, screenDist d cx cy p
               = sqrt ((offsetX d + x p * width d - cx) * (offsetX d + x p * width d - cx)
                       + (offsetY d + y p * height d - cy) * (offsetY d + y p * height d - cy)))
    /\ ((nearest d cx cy ps = (-1)%Z
         /\ forall j q, ps !! j = Some q -> ~ screenDist d cx cy q < 30)
        \/ (exists i p,
              nearest d cx cy ps = Z.of_nat i
              /\ ps !! i = Some p
              /\ screenDist d cx cy p < 30
              /\ (forall j q, ps !! j = Some q ->
                    screenDist d cx cy p <= screenDist d cx cy q)
              /\ (forall j q, (j < i)%nat -> ps !! j = Some q ->
                    screenDist d cx cy p < screenDist d cx cy q)))
    /\ (forall i j p q,
          (i < j)%nat -> ps !! i = Some p -> ps !! j = Some q ->
          screenDist d cx cy p = screenDist d cx cy q ->
          nearest d cx cy ps <> Z.of_nat j)
    /\ (forall j q, ps !! j = Some q -> screenDist d cx cy q < 30 ->
          nearest d cx cy ps <> (-1)%Z)
    /\ (forall rect e s,
          tool s = move -> dimensions s = d -> points s = ps ->
          clientX e - left rect = cx -> clientY e - top rect = cy ->
          (nearest d cx cy ps = (-1)%Z -> handlePointerDown rect e s = s)
          /\ (forall i, nearest d cx cy ps = Z.of_nat i ->
                draggingPointIndex (handlePointerDown rect e s) = Some i
                /\ points (handlePointerDown rect e s) = ps)).
Proof.
  intros d cx cy ps. split; [reflexivity|].
  split; [exact (nearest_spec d cx cy ps)|]. split; [|split].
  - intros i j p q Hij Hp Hq Heq Hn.
    destruct (nearest_spec d cx cy ps)
      as [[E _] | (n & r & E & Hr & _ & _ & Hstrict)].
    + rewrite E in Hn. lia.
    + rewrite E in Hn. apply Nat2Z.inj in Hn. subst n.
      rewrite Hq in Hr. inversion Hr; subst r.
      specialize (Hstrict i p Hij Hp). lra.
  - intros j q Hq Hlt Hn.
    apply (proj1 (nearest_none_iff d cx cy ps) Hn j q Hq Hlt).
  - intros rect e s Ht Hd Hps Hx Hy.
    unfold handlePointerDown, localX, localY.
    rewrite Ht, Hd, Hps, Hx, Hy. split.
    + intros E. rewrite E. reflexivity.
    + intros i E. rewrite E.
      destruct (Z.of_nat i =? -1)%Z eqn:G; [apply Z.eqb_eq in G; lia|].
      cbn. rewrite Nat2Z.id. split; [reflexivity | exact Hps].
Qed.

(** With two contour points at 10 px on either side of the click, the first
    one is selected. *)
Example nearest_tie_selects_first :
  nearest scenarioDimensions 400 100 tieContour = 0%Z.
Proof.
  assert (Hin : screenDist scenarioDimensions 400 100 (mkPoint 0.475 0.5) < 30).
  { unfold screenDist; simpl. apply hypot_lt; lra. }
  assert (He : screenDist scenarioDimensions 400 100 (mkPoint 0.475 0.5)
               = screenDist scenarioDimensions 400 100 (mkPoint 0.525 0.5)).
  { unfold screenDist, hypot; simpl. f_equal. lra. }
  destruct (nearest_spec scenarioDimensions 400 100 tieContour)
    as [[_ Hall] | (i & p & E & Hp & _ & _ & Hstrict)].
  - destruct (Hall 0%nat _ eq_refl Hin).
  - rewrite E. destruct i as [|[|i]]; [reflexivity | | discriminate].
    inversion Hp; subst p.
    specialize (Hstrict 0%nat _ ltac:(lia) eq_refl). lra.
Qed.

Lemma C5_hit_test_nearest_witness :
  (0 < 1)%nat
  /\ tieContour !! 0%nat = Some (mkPoint 0.475 0.5)
  /\ tieContour !! 1%nat = Some (mkPoint 0.525 0.5)
  /\ screenDist scenarioDimensions 400 100 (mkPoint 0.475 0.5)
     = screenDist scenarioDimensions 400 100 (mkPoint 0.525 0.5)
  /\ nearest scenarioDimensions 400 100 tieContour <> 1%Z
  /\ screenDist scenarioDimensions 400 100 (mkPoint 0.475 0.5) < 30
  /\ nearest scenarioDimensions 400 100 tieContour <> (-1)%Z
  /\ tool (setTool move (setPoints tieContour emptyCanvas)) = move
  /\ clientX tieClick - left scenarioRect = 400
  /\ clientY tieClick - top scenarioRect = 100
  /\ nearest scenarioDimensions 400 100 tieContour = Z.of_nat 0
  /\ draggingPointIndex
       (handlePointerDown scenarioRect tieClick
          (setTool move (setPoints tieContour emptyCanvas))) = Some 0%nat.
Proof.
  assert (H01 : (0 < 1)%nat) by lia.
  assert (H0 : tieContour !! 0%nat = Some (mkPoint 0.475 0.5)) by reflexivity.
  assert (H1 : tieContour !! 1%nat = Some (mkPoint 0.525 0.5)) by reflexivity.
  assert (He : screenDist scenarioDimensions 400 100 (mkPoint 0.475 0.5)
               = screenDist scenarioDimensions 400 100 (mkPoint 0.525 0.5)).
  { unfold screenDist, hypot; simpl. f_equal. lra. }
  assert (Hin : screenDist scenarioDimensions 400 100 (mkPoint 0.475 0.5) < 30).
  { unfold screenDist; simpl. apply hypot_lt; lra. }
  assert (Ht : tool (setTool move (setPoints tieContour emptyCanvas)) = move)
    by reflexivity.
  assert (Hx : clientX tieClick - left scenarioRect = 400) by (simpl; lra).
  assert (Hy : clientY tieClick - top scenarioRect = 100) by (simpl; lra).
  destruct (C5_hit_test_nearest scenarioDimensions 400 100 tieContour)
    as (_ & _ & Htie & Hfound & Hdown).
  split; [exact H01|]. split; [exact H0|]. split; [exact H1|].
  split; [exact He|].
  split; [exact (Htie 0%nat 1%nat _ _ H01 H0 H1 He)|].
  split; [exact Hin|].
  split; [exact (Hfound 0%nat _ H0 Hin)|].
  split; [exact Ht|]. split; [exact Hx|]. split; [exact Hy|].
  split; [exact nearest_tie_selects_first|].
  exact (proj1 (proj2 (Hdown scenarioRect tieClick _ Ht eq_refl eq_refl Hx Hy)
                  0%nat nearest_tie_selects_first)).
Defined.


(** ** Move tool: a pointer-down that hits nothing *)

(** In Move mode with no drag index, a pointer move, a pointer-up and a
    pointer leave keep the contour, the history, the tool and the (absent)
    drag index. *)
Lemma step_move_idle (s : EditorState) (ev : Event) :
  tool s = move -> draggingPointIndex s = None -> isMoveOrRelease ev ->
  exists s',
    step s ev = Some s'
    /\ points s' = points s /\ history s' = history s
    /\ historyStep s' = historyStep s
    /\ tool s' = move /\ draggingPointIndex s' = None.
Proof.
  intros Ht Hd Hev. destruct ev; try contradiction; simpl.
  - unfold handlePointerMove. rewrite Ht, Hd.
    eexists; split; [reflexivity|]. repeat split; assumption.
  - unfold handlePointerUp. rewrite Ht, Hd; simpl.
    eexists; split; [reflexivity|]. repeat split; assumption.
  - unfold onPointerLeave, handlePointerUp. rewrite Ht, Hd; simpl.
    eexists; split; [reflexivity|]. repeat split; assumption.
Qed.

Lemma run_move_idle (evs : list Event) :
  forall s : EditorState,
    tool s = move -> draggingPointIndex s = None ->
    Forall isMoveOrRelease evs ->
    exists s',
      run s evs = Some s'
      /\ points s' = points s /\ history s' = history s
      /\ historyStep s' = historyStep s
      /\ tool s' = move /\ draggingPointIndex s' = None.
Proof.
  induction evs as [|ev evs IH]; intros s Ht Hd Hall.
  - exists s. repeat split; assumption.
  - inversion Hall as [|? ? Hev Hrest]; subst.
    destruct (step_move_idle s ev Ht Hd Hev)
      as (s1 & E1 & Hp1 & Hh1 & Hc1 & Ht1 & Hd1).
    destruct (IH s1 Ht1 Hd1 Hrest) as (s2 & E2 & Hp2 & Hh2 & Hc2 & Ht2 & Hd2).
    exists s2. simpl. rewrite E1.
    repeat split; try assumption; congruence.
Qed.

(** C9.  In Move mode with no drag in progress, a pointer-down with no contour
    point strictly closer than 30 px on screen changes nothing and records no
    drag index; whatever pointer moves, pointer-ups and pointer leaves follow,
    none of them fails, and the contour, the history and its cursor stay as
    they were before the pointer-down. *)
Theorem C9_move_miss_changes_nothing :
  forall (rect : DOMRect) (e : PointerEvent) (s : EditorState),
    tool s = move ->
    draggingPointIndex s = None ->
    (forall j q, points s !! j = Some q ->
       ~ screenDist (dimensions s) (clientX e - left rect) (clientY e - top rect) q < 30) ->
    handlePointerDown rect e s = s
    /\ draggingPointIndex (handlePointerDown rect e s) = None
    /\ forall evs : list Event,
         Forall isMoveOrRelease evs ->
         exists s',
           run (handlePointerDown rect e s) evs = Some s'
           /\ points s' = points s
           /\ history s' = history s
           /\ historyStep s' = historyStep s
           /\ draggingPointIndex s' = None.
Proof.
  intros rect e s Ht Hd Hmiss.
  assert (E : handlePointerDown rect e s = s).
  { unfold handlePointerDown, localX, localY. rewrite Ht.
    rewrite (proj2 (nearest_none_iff _ _ _ _) Hmiss). reflexivity. }
  rewrite E. split; [reflexivity|]. split; [exact Hd|].
  intros evs Hall.
  destruct (run_move_idle evs s Ht Hd Hall) as (s' & Hr & Hp & Hh & Hc & _ & Hd').
  exists s'. repeat split; assumption.
Qed.

Lemma hypot_not_lt (a b r : R) : 0 <= r -> r * r <= a * a + b * b -> ~ hypot a b < r.
Proof.
  intros Hr H Hlt. unfold hypot in Hlt.
  assert (G : sqrt (r * r) <= sqrt (a * a + b * b)) by (apply sqrt_le_1_alt; exact H).
  rewrite sqrt_square in G by exact Hr. lra.
Qed.

Lemma C9_move_miss_changes_nothing_witness :
  tool (setTool move scenarioState) = move
  /\ draggingPointIndex (setTool move scenarioState) = None
  /\ (forall j q, points (setTool move scenarioState) !! j = Some q ->
        ~ screenDist (dimensions (setTool move scenarioState))
            (clientX missClick - left scenarioRect)
            (clientY missClick - top scenarioRect) q < 30)
  /\ exists s',
       run (handlePointerDown scenarioRect missClick (setTool move scenarioState))
           [PointerMove scenarioRect tieClick; PointerUp] = Some s'
       /\ points s' = scenarioContour
       /\ history s' = [[]].
Proof.
  assert (Ht : tool (setTool move scenarioState) = move) by reflexivity.
  assert (Hd : draggingPointIndex (setTool move scenarioState) = None) by reflexivity.
  assert (Hmiss : forall j q, points (setTool move scenarioState) !! j = Some q ->
            ~ screenDist (dimensions (setTool move scenarioState))
                (clientX missClick - left scenarioRect)
                (clientY missClick - top scenarioRect) q < 30).
  { intros [|[|[|j]]] q Hq; simpl in Hq; inversion Hq; subst q;
      unfold screenDist; simpl; apply hypot_not_lt; lra. }
  split; [exact Ht|]. split; [exact Hd|]. split; [exact Hmiss|].
  destruct (C9_move_miss_changes_nothing scenarioRect missClick _ Ht Hd Hmiss)
    as (_ & _ & Hrun).
  destruct (Hrun [PointerMove scenarioRect tieClick; PointerUp])
    as (s' & Hr & Hp & Hh & _).
  - repeat constructor.
  - exists s'. split; [exact Hr|]. split; [exact Hp | exact Hh].
Defined.

(** ** Freehand tool: the distance filter *)

(** The clamp of one axis never increases a distance. *)
Lemma clamp_lipschitz_sq (a b : R) :
  (Rmax 0 (Rmin 1 a) - Rmax 0 (Rmin 1 b)) * (Rmax 0 (Rmin 1 a) - Rmax 0 (Rmin 1 b))
  <= (a - b) * (a - b).
Proof.
  assert (M : forall u w : R, u <= w ->
            0 <= Rmax 0 (Rmin 1 w) - Rmax 0 (Rmin 1 u) <= w - u).
  { intros u w Huw. unfold Rmin.
    destruct (Rle_dec 1 w), (Rle_dec 1 u); unfold Rmax;
      repeat match goal with
             | |- context [Rle_dec ?t1 ?t2] => destruct (Rle_dec t1 t2)
             end; lra. }
  destruct (Rle_dec a b) as [Hab|Hab].
  - pose proof (M a b Hab). nra.
  - pose proof (M b a ltac:(lra)). nra.
Qed.

(** On one axis: the distance on screen between two clamped normalized
    positions is at most the distance between the two pointer positions. *)
Lemma clamped_axis_sq (w o a0 a1 : R) :
  ((Rmax 0 (Rmin 1 ((a1 - o) / w)) - Rmax 0 (Rmin 1 ((a0 - o) / w))) * w)
  * ((Rmax 0 (Rmin 1 ((a1 - o) / w)) - Rmax 0 (Rmin 1 ((a0 - o) / w))) * w)
  <= (a1 - a0) * (a1 - a0).
Proof.
  destruct (Req_dec w 0) as [Hw|Hw].
  - rewrite Hw, Rmult_0_r, Rmult_0_l. apply (Rle_0_sqr (a1 - a0)).
  - pose proof (clamp_lipschitz_sq ((a1 - o) / w) ((a0 - o) / w)) as L.
    assert (E : ((a1 - o) / w - (a0 - o) / w) * w = a1 - a0) by (field; exact Hw).
    set (c1 := Rmax 0 (Rmin 1 ((a1 - o) / w))) in *.
    set (c0 := Rmax 0 (Rmin 1 ((a0 - o) / w))) in *.
    set (t := (a1 - o) / w - (a0 - o) / w) in *.
    rewrite <- E.
    replace ((c1 - c0) * w * ((c1 - c0) * w))
      with ((c1 - c0) * (c1 - c0) * (w * w)) by ring.
    replace (t * w * (t * w)) with (t * t * (w * w)) by ring.
    apply Rmult_le_compat_r; [apply (Rle_0_sqr w) | exact L].
Qed.

(** A move closer than the threshold to the event that produced the last
    point of the contour is filtered out. *)
Lemma distanceFilter_close (d : Dimensions) (rect : DOMRect)
      (e0 e1 : PointerEvent) (prev : Contour) :
  last prev = Some (clampedOf d rect e0) ->
  eventDistSq e0 e1 < 10 ->
  distanceFilter d (clampedOf d rect e1) prev = prev.
Proof.
  intros Hlast Hclose. unfold distanceFilter. rewrite Hlast.
  destruct (Rgt_dec _ _) as [Hgt|Hle]; [exfalso | reflexivity].
  unfold clampedOf, clamp, toNormalized, localX, localY in Hgt. simpl in Hgt.
  pose proof (clamped_axis_sq (width d) (offsetX d)
                (clientX e0 - left rect) (clientX e1 - left rect)) as Hx.
  pose proof (clamped_axis_sq (height d) (offsetY d)
                (clientY e0 - top rect) (clientY e1 - top rect)) as Hy.
  unfold eventDistSq in Hclose.
  replace (clientX e1 - left rect - (clientX e0 - left rect))
    with (clientX e1 - clientX e0) in Hx by ring.
  replace (clientY e1 - top rect - (clientY e0 - top rect))
    with (clientY e1 - clientY e0) in Hy by ring.
  lra.
Qed.

(** The filter keeps the contour and appends at most one point. *)
Lemma distanceFilter_appends (d : Dimensions) (c : Point) (prev : Contour) :
  exists app : Contour,
    distanceFilter d c prev = prev ++ app /\ (length app <= 1)%nat.
Proof.
  unfold distanceFilter. destruct (last prev) as [lastP|] eqn:Hlast.
  - destruct (Rgt_dec _ _).
    + exists [c]. split; [reflexivity | simpl; lia].
    + exists []. split; [rewrite app_nil_r; reflexivity | simpl; lia].
  - apply last_None in Hlast. subst prev.
    exists [c]. split; [reflexivity | simpl; lia].
Qed.

(** A run of pointer moves during a stroke never fails, touches neither the
    tool nor the history, and appends at most one point per move. *)
Lemma run_stroke_moves (rect : DOMRect) (es : list PointerEvent) :
  forall s : EditorState,
    tool s = freehand -> isDrawing s = true ->
    exists (s' : EditorState) (app : Contour),
      run s (map (PointerMove rect) es) = Some s'
      /\ points s' = points s ++ app
      /\ (length app <= length es)%nat
      /\ history s' = history s
      /\ historyStep s' = historyStep s.
Proof.
  induction es as [|e es IH]; intros s Ht Hd.
  - exists s, []. rewrite app_nil_r. repeat split; simpl; lia.
  - destruct (distanceFilter_appends (dimensions s)
                (clampedOf (dimensions s) rect e) (points s)) as (a1 & E1 & L1).
    cbn [map run step]. unfold handlePointerMove. rewrite Ht, Hd.
    match goal with |- context [run ?s1 _] => set (s1' := s1) end.
    destruct (IH s1') as (s' & a2 & Hr & Hp & Hl & Hh & Hc);
      [exact Ht | exact Hd |].
    exists s', (a1 ++ a2). split; [exact Hr|].
    split; [|split; [|split]].
    + rewrite Hp. subst s1'. simpl. rewrite E1, <- app_assoc. reflexivity.
    + rewrite length_app. simpl. lia.
    + rewrite Hh. reflexivity.
    + rewrite Hc. reflexivity.
Qed.

(** C4.  In Freehand mode, during a stroke and with a last contour point, a
    pointer move appends its clamped normalized point exactly when the squared
    distance on screen between that point and the last contour point is
    greater than 10, and otherwise leaves the contour as it is.  So in a
    drag (pointer-down, then at least one move) whose consecutive pointer
    positions are less than the threshold apart, the moves append strictly
    fewer points than there are moves. *)
Theorem C4_freehand_decimation :
  forall (rect : DOMRect) (s : EditorState),
    tool s = freehand ->
    (forall (e : PointerEvent) (lastP : Point),
       isDrawing s = true ->
       last (points s) = Some lastP ->
       let c := clamp (toNormalized (dimensions s)
                         (clientX e - left rect) (clientY e - top rect)) in
       let dx := x (toScreen (dimensions s) c) - x (toScreen (dimensions s) lastP) in
       let dy := y (toScreen (dimensions s) c) - y (toScreen (dimensions s) lastP) in
       exists s',
         handlePointerMove rect e s = Some s'
         /\ (dx * dx + dy * dy > 10 -> points s' = points s ++ [c])
         /\ (~ dx * dx + dy * dy > 10 -> points s' = points s)
         /\ history s' = history s)
    /\ (forall (e0 : PointerEvent) (es : list PointerEvent),
          es <> [] ->
          denseFrom e0 es ->
          exists (s' : EditorState) (appended : Contour),
            run (handlePointerDown rect e0 s) (map (PointerMove rect) es) = Some s'
            /\ points s' = points (handlePointerDown rect e0 s) ++ appended
            /\ (length appended < length es)%nat).
Proof.
  intros rect s Ht. split.
  - intros e lastP Hd Hlast c dx dy.
    unfold handlePointerMove. rewrite Ht, Hd.
    eexists. split; [reflexivity|]. cbn [points history setMagnifierState updPoints
                                           setPoints setCursorPos].
    unfold distanceFilter. rewrite Hlast.
    unfold clampedOf, localX, localY. fold c.
    assert (Ex : (x c - x lastP) * width (dimensions s) = dx)
      by (subst dx; unfold toScreen; simpl; ring).
    assert (Ey : (y c - y lastP) * height (dimensions s) = dy)
      by (subst dy; unfold toScreen; simpl; ring).
    rewrite Ex, Ey.
    destruct (Rgt_dec (dx * dx + dy * dy) 10) as [Hgt|Hle].
    + split; [reflexivity|]. split; [contradiction | reflexivity].
    + split; [contradiction|]. split; reflexivity.
  - intros e0 es Hne Hdense. destruct es as [|e1 es]; [contradiction|].
    destruct Hdense as [Hclose _].
    set (s0 := handlePointerDown rect e0 s).
    assert (Ht0 : tool s0 = freehand)
      by (subst s0; unfold handlePointerDown; rewrite Ht; exact Ht).
    assert (Hd0 : isDrawing s0 = true)
      by (subst s0; unfold handlePointerDown; rewrite Ht; reflexivity).
    assert (Hdim : dimensions s0 = dimensions s)
      by (subst s0; unfold handlePointerDown; rewrite Ht; reflexivity).
    assert (Hlast : last (points s0) = Some (clampedOf (dimensions s0) rect e0)).
    { rewrite Hdim. subst s0. unfold handlePointerDown. rewrite Ht. simpl.
      apply last_snoc. }
    cbn [map run step]. unfold handlePointerMove. rewrite Ht0, Hd0.
    match goal with |- context [run ?t _] => set (s1 := t) end.
    assert (Hp1 : points s1 = points s0).
    { subst s1. simpl. apply (distanceFilter_close _ rect e0 e1); assumption. }
    destruct (run_stroke_moves rect es s1) as (s' & app & Hr & Hp & Hl & _);
      [exact Ht0 | exact Hd0 |].
    exists s', app. split; [exact Hr|]. split.
    + rewrite Hp, Hp1. reflexivity.
    + simpl. lia.
Qed.

Lemma C4_freehand_decimation_witness :
  tool scenarioState = freehand
  /\ denseMoves <> []
  /\ denseFrom strokeStart denseMoves
  /\ (exists (s' : EditorState) (appended : Contour),
        run (handlePointerDown scenarioRect strokeStart scenarioState)
            (map (PointerMove scenarioRect) denseMoves) = Some s'
        /\ points s'
           = points (handlePointerDown scenarioRect strokeStart scenarioState)
             ++ appended
        /\ (length appended < length denseMoves)%nat)
  /\ tool (handlePointerDown scenarioRect strokeStart emptyCanvas) = freehand
  /\ isDrawing (handlePointerDown scenarioRect strokeStart emptyCanvas) = true
  /\ last (points (handlePointerDown scenarioRect strokeStart emptyCanvas))
     = Some (clampedOf scenarioDimensions scenarioRect strokeStart)
  /\ exists s',
       handlePointerMove scenarioRect (mkPointerEvent 353 70)
         (handlePointerDown scenarioRect strokeStart emptyCanvas) = Some s'
       /\ history s' = [[]].
Proof.
  assert (Ht : tool scenarioState = freehand) by reflexivity.
  assert (Hne : denseMoves <> []) by discriminate.
  assert (Hdense : denseFrom strokeStart denseMoves).
  { unfold denseMoves, strokeStart, denseFrom, eventDistSq; simpl.
    repeat split; lra. }
  assert (Ht0 : tool (handlePointerDown scenarioRect strokeStart emptyCanvas)
                = freehand) by reflexivity.
  assert (Hd0 : isDrawing (handlePointerDown scenarioRect strokeStart emptyCanvas)
                = true) by reflexivity.
  assert (Hl0 : last (points (handlePointerDown scenarioRect strokeStart emptyCanvas))
                = Some (clampedOf scenarioDimensions scenarioRect strokeStart))
    by reflexivity.
  split; [exact Ht|]. split; [exact Hne|]. split; [exact Hdense|].
  split; [|split; [exact Ht0|split; [exact Hd0|split; [exact Hl0|]]]].
  - exact (proj2 (C4_freehand_decimation scenarioRect scenarioState Ht)
             strokeStart denseMoves Hne Hdense).
  - destruct (proj1 (C4_freehand_decimation scenarioRect _ Ht0)
                (mkPointerEvent 353 70) _ Hd0 Hl0) as (s' & E & _ & _ & Hh).
    exists s'. split; [exact E | exact Hh].
Defined.

(** ** The handlers on concrete gestures *)

Lemma distanceFilter_far (d : Dimensions) (c lastP : Point) (prev : Contour) :
  last prev = Some lastP ->
  (x c - x lastP) * width d * ((x c - x lastP) * width d)
  + (y c - y lastP) * height d * ((y c - y lastP) * height d) > 10 ->
  distanceFilter d c prev = prev ++ [c].
Proof.
  intros Hlast H. unfold distanceFilter. rewrite Hlast.
  destruct (Rgt_dec _ _); [reflexivity | contradiction].
Qed.

Lemma distanceFilter_near (d : Dimensions) (c lastP : Point) (prev : Contour) :
  last prev = Some lastP ->
  ~ (x c - x lastP) * width d * ((x c - x lastP) * width d)
    + (y c - y lastP) * height d * ((y c - y lastP) * height d) > 10 ->
  distanceFilter d c prev = prev.
Proof.
  intros Hlast H. unfold distanceFilter. rewrite Hlast.
  destruct (Rgt_dec _ _); [contradiction | reflexivity].
Qed.

(** A pointer inside the rendered image is not moved by the clamp. *)
Lemma clampedOf_inside (d : Dimensions) (rect : DOMRect) (e : PointerEvent) (a b : R) :
  0 <= a <= 1 -> 0 <= b <= 1 ->
  (clientX e - left rect - offsetX d) / width d = a ->
  (clientY e - top rect - offsetY d) / height d = b ->
  clampedOf d rect e = mkPoint a b.
Proof.
  intros Ha Hb Ea Eb. unfold clampedOf, clamp, toNormalized, localX, localY; simpl.
  rewrite Ea, Eb, !clamp_id_on_unit by assumption. reflexivity.
Qed.

Arguments distanceFilter : simpl never.
Arguments clampedOf : simpl never.
Arguments nearest : simpl never.

(** The handlers of a freehand stroke, branch by branch. *)
Lemma handlePointerDown_freehand (rect : DOMRect) (e : PointerEvent) (s : EditorState) :
  tool s = freehand ->
  handlePointerDown rect e s
  = setMagnifierState (Some (mkMagnifier true (localX rect e) (localY rect e)))
      (setPoints (points s ++ [clampedOf (dimensions s) rect e])
         (setIsDrawing true s)).
Proof. intros H. unfold handlePointerDown. rewrite H. reflexivity. Qed.

Lemma handlePointerMove_stroke (rect : DOMRect) (e : PointerEvent) (s : EditorState) :
  tool s = freehand -> isDrawing s = true ->
  handlePointerMove rect e s
  = Some (setMagnifierState
            (Some (mkMagnifier true (localX rect e) (localY rect e)))
            (setPoints (distanceFilter (dimensions s)
                          (clampedOf (dimensions s) rect e) (points s))
               (setCursorPos (Some (clampedOf (dimensions s) rect e)) s))).
Proof. intros H1 H2. unfold handlePointerMove. rewrite H1, H2. reflexivity. Qed.

Lemma handlePointerUp_stroke (s : EditorState) :
  tool s = freehand -> isDrawing s = true ->
  handlePointerUp s
  = setMagnifierState None (saveHistory s (points s) (setIsDrawing false s)).
Proof. intros H1 H2. unfold handlePointerUp. rewrite H1, H2. reflexivity. Qed.

(** Reads the fields of a state built by setters. *)
Ltac state_fields :=
  cbn [points history historyStep tool cursorPos draggingPointIndex isDrawing
       dimensions imageElement magnifierState setPoints updPoints setHistory
       setHistoryStep setTool setCursorPos setDraggingPointIndex setIsDrawing
       setDimensions setImageElement setMagnifierState emptyCanvas scenarioState
       initialState app].

(** A freehand stroke on the empty canvas: down at (300, 50) of the
    container, moves of 1 px and 2 px (filtered out: 1 and 9 are not above
    10) and of 40 px (kept), then up.  One history entry is added. *)
Example freehand_stroke :
  exists s',
    run emptyCanvas
        (PointerDown scenarioRect strokeStart
           :: map (PointerMove scenarioRect) strokeMoves ++ [PointerUp]) = Some s'
    /\ points s' = [mkPoint 0.25 0.25; mkPoint 0.3575 0.25]
    /\ history s' = [[]; [mkPoint 0.25 0.25; mkPoint 0.3575 0.25]]
    /\ historyStep s' = 1%nat
    /\ isDrawing s' = false.
Proof.
  assert (C0 : clampedOf scenarioDimensions scenarioRect strokeStart
               = mkPoint 0.25 0.25)
    by (apply clampedOf_inside; simpl; lra).
  assert (C1 : clampedOf scenarioDimensions scenarioRect (mkPointerEvent 311 70)
               = mkPoint 0.2525 0.25)
    by (apply clampedOf_inside; simpl; lra).
  assert (C2 : clampedOf scenarioDimensions scenarioRect (mkPointerEvent 313 70)
               = mkPoint 0.2575 0.25)
    by (apply clampedOf_inside; simpl; lra).
  assert (C3 : clampedOf scenarioDimensions scenarioRect (mkPointerEvent 353 70)
               = mkPoint 0.3575 0.25)
    by (apply clampedOf_inside; simpl; lra).
  assert (F1 : distanceFilter scenarioDimensions (mkPoint 0.2525 0.25)
                 [mkPoint 0.25 0.25] = [mkPoint 0.25 0.25])
    by (apply (distanceFilter_near _ _ (mkPoint 0.25 0.25));
        [reflexivity | simpl; lra]).
  assert (F2 : distanceFilter scenarioDimensions (mkPoint 0.2575 0.25)
                 [mkPoint 0.25 0.25] = [mkPoint 0.25 0.25])
    by (apply (distanceFilter_near _ _ (mkPoint 0.25 0.25));
        [reflexivity | simpl; lra]).
  assert (F3 : distanceFilter scenarioDimensions (mkPoint 0.3575 0.25)
                 [mkPoint 0.25 0.25] = [mkPoint 0.25 0.25; mkPoint 0.3575 0.25])
    by (rewrite (distanceFilter_far _ _ (mkPoint 0.25 0.25));
        [reflexivity | reflexivity | simpl; lra]).
  cbn [map app strokeMoves run step].
  rewrite (handlePointerDown_freehand _ _ emptyCanvas eq_refl).
  state_fields. rewrite C0.
  rewrite handlePointerMove_stroke by reflexivity.
  state_fields. rewrite C1, F1.
  rewrite handlePointerMove_stroke by reflexivity.
  state_fields. rewrite C2, F2.
  rewrite handlePointerMove_stroke by reflexivity.
  state_fields. rewrite C3, F3.
  rewrite handlePointerUp_stroke by reflexivity.
  eexists. split; [reflexivity|].
  repeat split; reflexivity.
Qed.

(** A move drag on the scenario contour: the click at (302, 52) of the
    container selects point 0, which is at (300, 50); the point follows the
    pointer to (320, 60); the release adds one history entry. *)
Example move_drag :
  exists s',
    run (setTool move scenarioState)
        [PointerDown scenarioRect hitClick; PointerMove scenarioRect dragTarget;
         PointerUp] = Some s'
    /\ points s' = [mkPoint 0.3 0.3; mkPoint 0.75 0.25; mkPoint 0.5 0.75]
    /\ history s' = [[]; [mkPoint 0.3 0.3; mkPoint 0.75 0.25; mkPoint 0.5 0.75]]
    /\ draggingPointIndex s' = None.
Proof.
  assert (N : nearest scenarioDimensions (localX scenarioRect hitClick)
                (localY scenarioRect hitClick) scenarioContour = 0%Z).
  { destruct (nearest_spec scenarioDimensions (localX scenarioRect hitClick)
                (localY scenarioRect hitClick) scenarioContour)
      as [[_ Hall] | (i & p & E & Hp & Hlt & _)].
    - exfalso. apply (Hall 0%nat _ eq_refl).
      unfold screenDist, localX, localY; simpl. apply hypot_lt; lra.
    - rewrite E. destruct i as [|[|[|i]]]; [reflexivity | | | discriminate];
        exfalso; inversion Hp; subst p; revert Hlt;
        unfold screenDist, localX, localY; simpl; apply hypot_not_lt; lra. }
  assert (C : clampedOf scenarioDimensions scenarioRect dragTarget = mkPoint 0.3 0.3)
    by (apply clampedOf_inside; simpl; lra).
  eexists. split.
  - cbn [run step]. unfold handlePointerDown.
    cbn [tool setTool scenarioState emptyCanvas setPoints setDimensions
         setImageElement initialState dimensions points].
    rewrite N. cbn. rewrite C. cbn. reflexivity.
  - repeat split; reflexivity.
Qed.

Lemma nearest_hitClick :
  nearest (dimensions (setTool move scenarioState))
    (clientX hitClick - left scenarioRect) (clientY hitClick - top scenarioRect)
    (points (setTool move scenarioState)) = Z.of_nat 0.
Proof.
  cbn [dimensions points setTool scenarioState emptyCanvas setPoints setDimensions
       setImageElement].
  destruct (nearest_spec scenarioDimensions (clientX hitClick - left scenarioRect)
              (clientY hitClick - top scenarioRect) scenarioContour)
    as [[_ Hall] | (i & p & E & Hp & Hlt & _)].
  - exfalso. apply (Hall 0%nat _ eq_refl).
    unfold screenDist; simpl. apply hypot_lt; lra.
  - rewrite E. destruct i as [|[|[|i]]]; [reflexivity | | | discriminate];
      exfalso; inversion Hp; subst p; revert Hlt;
      unfold screenDist; simpl; apply hypot_not_lt; lra.
Qed.

(** C9, without the condition on the drag index.  The Move tool has a drag of
    point 0 in progress (the pointer went down on it) when a pointer goes
    down far from every point: this pointer-down finds no point and changes
    nothing, the index stays recorded, and the pointer move that follows
    rewrites point 0; the pointer-up then adds a history entry. *)
Lemma C9_stale_drag_index_moves_point :
  handlePointerDown scenarioRect hitClick (setTool move scenarioState)
  = dragInProgress
  /\ tool dragInProgress = move
  /\ (forall j q, points dragInProgress !! j = Some q ->
        ~ screenDist (dimensions dragInProgress)
            (clientX missClick - left scenarioRect)
            (clientY missClick - top scenarioRect) q < 30)
  /\ handlePointerDown scenarioRect missClick dragInProgress = dragInProgress
  /\ draggingPointIndex (handlePointerDown scenarioRect missClick dragInProgress)
     = Some 0%nat
  /\ exists s',
       run (handlePointerDown scenarioRect missClick dragInProgress)
           [PointerMove scenarioRect tieClick; PointerUp] = Some s'
       /\ points s' = [mkPoint 0.5 0.5; mkPoint 0.75 0.25; mkPoint 0.5 0.75]
       /\ points s' <> points dragInProgress
       /\ history s' = [[]; [mkPoint 0.5 0.5; mkPoint 0.75 0.25; mkPoint 0.5 0.75]]
       /\ history s' <> history dragInProgress.
Proof.
  assert (Hhit : handlePointerDown scenarioRect hitClick (setTool move scenarioState)
                 = dragInProgress).
  { unfold handlePointerDown, localX, localY.
    change (tool (setTool move scenarioState)) with move. cbv iota.
    rewrite nearest_hitClick. reflexivity. }
  assert (Hmiss : forall j q, points dragInProgress !! j = Some q ->
            ~ screenDist (dimensions dragInProgress)
                (clientX missClick - left scenarioRect)
                (clientY missClick - top scenarioRect) q < 30).
  { intros [|[|[|j]]] q Hq; simpl in Hq; inversion Hq; subst q;
      unfold screenDist; simpl; apply hypot_not_lt; lra. }
  assert (Hdown : handlePointerDown scenarioRect missClick dragInProgress
                  = dragInProgress).
  { unfold handlePointerDown, localX, localY.
    change (tool dragInProgress) with move. cbv iota.
    rewrite (proj2 (nearest_none_iff _ _ _ _) Hmiss). reflexivity. }
  assert (C : clampedOf scenarioDimensions scenarioRect tieClick = mkPoint 0.5 0.5)
    by (apply clampedOf_inside; simpl; lra).
  split; [exact Hhit|]. split; [reflexivity|]. split; [exact Hmiss|].
  split; [exact Hdown|]. split; [rewrite Hdown; reflexivity|].
  rewrite Hdown.
  eexists. split.
  - cbn [run step]. unfold handlePointerMove, dragInProgress.
    cbn [tool draggingPointIndex dimensions points setTool setMagnifierState
         setDraggingPointIndex scenarioState emptyCanvas setPoints setDimensions
         setImageElement initialState].
    rewrite C. cbn. reflexivity.
  - split; [reflexivity|]. split; [|split; [reflexivity|]].
    + cbn. intros H. inversion H. lra.
    + cbn. intros H. inversion H.
Qed.

(** ** Every stored point is normalized *)

Lemma saveHistory_normalized (s k : EditorState) (newPoints : Contour) :
  Forall (Forall inUnitSquare) (history s) ->
  Forall inUnitSquare newPoints ->
  Forall inUnitSquare (points k) ->
  normalizedState (saveHistory s newPoints k).
Proof.
  intros Hh Hn Hk. split; [exact Hk|].
  rewrite saveHistory_history. apply Forall_app. split.
  - apply Forall_take. exact Hh.
  - constructor; [exact Hn | constructor].
Qed.

Lemma distanceFilter_normalized (d : Dimensions) (c : Point) (prev : Contour) :
  inUnitSquare c -> Forall inUnitSquare prev ->
  Forall inUnitSquare (distanceFilter d c prev).
Proof.
  intros Hc Hp. unfold distanceFilter.
  destruct (last prev) as [lastP|].
  - destruct (Rgt_dec _ _); [|exact Hp].
    apply Forall_app. split; [exact Hp | constructor; [exact Hc | constructor]].
  - constructor; [exact Hc | constructor].
Qed.

Lemma arraySet_normalized (i : nat) (c : Point) (l l' : Contour) :
  inUnitSquare c -> Forall inUnitSquare l -> arraySet i c l = Some l' ->
  Forall inUnitSquare l'.
Proof.
  intros Hc Hl E. unfold arraySet in E.
  destruct (i <? length l)%nat.
  - inversion E; subst l'. apply Forall_insert; assumption.
  - destruct (i =? length l)%nat; [|discriminate].
    inversion E; subst l'.
    apply Forall_app. split; [exact Hl | constructor; [exact Hc | constructor]].
Qed.

Lemma step_normalized (s s' : EditorState) (ev : Event) :
  normalizedState s -> step s ev = Some s' -> normalizedState s'.
Proof.
  intros [Hp Hh] E.
  destruct ev as [rect e|rect e| | | | | |t|img cw ch|cw ch]; simpl in E.
  - inversion E; subst s'; clear E. unfold handlePointerDown.
    pose proof (clamp_inUnitSquare
                  (toNormalized (dimensions s) (localX rect e) (localY rect e)))
      as Hc.
    assert (Happ : Forall inUnitSquare
                     (points s ++ [clampedOf (dimensions s) rect e])).
    { apply Forall_app. split; [exact Hp | constructor; [exact Hc | constructor]]. }
    destruct (tool s).
    + split; [exact Happ | exact Hh].
    + destruct (saveHistory_normalized s
                  (setPoints (points s ++ [clampedOf (dimensions s) rect e]) s)
                  (points s ++ [clampedOf (dimensions s) rect e]) Hh Happ Happ)
        as [G1 G2].
      split; [exact G1 | exact G2].
    + destruct (_ =? _)%Z; split; assumption.
  - unfold handlePointerMove in E.
    pose proof (clamp_inUnitSquare
                  (toNormalized (dimensions s) (localX rect e) (localY rect e)))
      as Hc.
    destruct (tool s).
    + destruct (isDrawing s); inversion E; subst s'; clear E.
      * split; [|exact Hh]. apply distanceFilter_normalized; assumption.
      * split; assumption.
    + inversion E; subst s'. split; assumption.
    + destruct (draggingPointIndex s) as [i|].
      * destruct (arraySet i _ (points s)) as [l'|] eqn:A; [|discriminate].
        inversion E; subst s'; clear E. split; [|exact Hh].
        eapply arraySet_normalized; [exact Hc | exact Hp | exact A].
      * inversion E; subst s'. split; assumption.
  - inversion E; subst s'; clear E. unfold handlePointerUp.
    destruct (tool s); simpl.
    + destruct (isDrawing s); simpl; [|split; assumption].
      exact (saveHistory_normalized s (setIsDrawing false s) (points s) Hh Hp Hp).
    + split; assumption.
    + destruct (draggingPointIndex s); simpl; [|split; assumption].
      exact (saveHistory_normalized s (setDraggingPointIndex None s) (points s)
               Hh Hp Hp).
  - inversion E; subst s'; clear E. unfold onPointerLeave, handlePointerUp.
    destruct (tool s); simpl.
    + destruct (isDrawing s); simpl; [|split; assumption].
      exact (saveHistory_normalized s (setIsDrawing false s) (points s) Hh Hp Hp).
    + split; assumption.
    + destruct (draggingPointIndex s); simpl; [|split; assumption].
      exact (saveHistory_normalized s (setDraggingPointIndex None s) (points s)
               Hh Hp Hp).
  - unfold handleUndo in E. destruct (0 <? historyStep s)%nat.
    + destruct (history s !! (historyStep s - 1)%nat) as [c|] eqn:L; [|discriminate].
      inversion E; subst s'. split; [|exact Hh].
      exact (Forall_lookup_1 _ _ _ _ Hh L).
    + inversion E; subst s'. split; assumption.
  - unfold handleRedo in E. destruct (_ <? _)%Z.
    + destruct (history s !! (historyStep s + 1)%nat) as [c|] eqn:L; [|discriminate].
      inversion E; subst s'. split; [|exact Hh].
      exact (Forall_lookup_1 _ _ _ _ Hh L).
    + inversion E; subst s'. split; assumption.
  - inversion E; subst s'.
    apply (saveHistory_normalized s (setPoints [] s) []); [exact Hh | constructor ..].
  - inversion E; subst s'. split; assumption.
  - inversion E; subst s'. split; assumption.
  - destruct (imageElement s); inversion E; subst s'; split; assumption.
Qed.

(** With real quotients, both coordinates of every point of the contour and
    of every snapshot are in [0,1] in every state reached by events. *)
Lemma reachable_normalized (s : EditorState) :
  reachable s -> normalizedState s.
Proof.
  induction 1 as [|s ev s' _ IH E].
  - split; [constructor | repeat constructor].
  - eapply step_normalized; eassumption.
Qed.

(** * Further properties of the code *)

(** ** The fit of the image into the container *)









(** The fit of the scenario image into an 800 x 200 container is the one
    used in the examples. *)
(** ** Clamping seen on screen *)






(** ** Undo and redo *)

Lemma run_app (evs1 evs2 : list Event) :
  forall s s1 : EditorState,
    run s evs1 = Some s1 -> run s (evs1 ++ evs2) = run s1 evs2.
Proof.
  induction evs1 as [|ev evs1 IH]; intros s s1 H; simpl in *.
  - inversion H; reflexivity.
  - destruct (step s ev) as [s'|]; [apply IH; exact H | discriminate].
Qed.

(** What undo does when it acts. *)
Lemma handleUndo_acts (s : EditorState) (c : Contour) :
  (0 < historyStep s)%nat ->
  history s !! (historyStep s - 1)%nat = Some c ->
  handleUndo s = Some (setPoints c (setHistoryStep (historyStep s - 1) s)).
Proof.
  intros Hpos Hc. unfold handleUndo.
  rewrite (proj2 (Nat.ltb_lt _ _) Hpos), Hc. reflexivity.
Qed.

(** What redo does when it acts. *)
Lemma handleRedo_acts (s : EditorState) (c : Contour) :
  history s !! (historyStep s + 1)%nat = Some c ->
  handleRedo s = Some (setPoints c (setHistoryStep (historyStep s + 1) s)).
Proof.
  intros Hc. unfold handleRedo.
  assert (Hlt : (historyStep s + 1 < length (history s))%nat)
    by (eapply lookup_lt_Some; exact Hc).
  rewrite (proj2 (Z.ltb_lt _ _)) by lia. rewrite Hc. reflexivity.
Qed.

(** X5.  With the cursor in range, undo followed by redo (when the cursor is
    not 0), and redo followed by undo (when the cursor is not on the last
    entry), both succeed, leave the history list as it was and bring the
    cursor back; the contour is then the snapshot under the cursor, so it is
    the contour from before whenever that was the snapshot under the cursor. *)
Theorem X5_undo_redo_round_trip :
  forall s : EditorState,
    (historyStep s < length (history s))%nat ->
    ((0 < historyStep s)%nat ->
       exists s1 s2,
         handleUndo s = Some s1 /\ handleRedo s1 = Some s2
         /\ history s1 = history s /\ S (historyStep s1) = historyStep s
         /\ history s !! historyStep s1 = Some (points s1)
         /\ history s2 = history s /\ historyStep s2 = historyStep s
         /\ history s !! historyStep s = Some (points s2)
         /\ (synced s -> points s2 = points s))
    /\ ((S (historyStep s) < length (history s))%nat ->
          exists s1 s2,
            handleRedo s = Some s1 /\ handleUndo s1 = Some s2
            /\ history s1 = history s /\ historyStep s1 = S (historyStep s)
            /\ history s !! historyStep s1 = Some (points s1)
            /\ history s2 = history s /\ historyStep s2 = historyStep s
            /\ history s !! historyStep s = Some (points s2)
            /\ (synced s -> points s2 = points s)).
Proof.
  intros s Hin.
  destruct (lookup_lt_is_Some_2 (history s) (historyStep s) Hin) as [c0 Hc0].
  split.
  - intros Hpos.
    destruct (lookup_lt_is_Some_2 (history s) (historyStep s - 1)%nat) as [c1 Hc1];
      [lia|].
    set (s1 := setPoints c1 (setHistoryStep (historyStep s - 1) s)).
    assert (Hback : history s1 !! (historyStep s1 + 1)%nat = Some c0).
    { subst s1; simpl. replace (historyStep s - 1 + 1)%nat with (historyStep s) by lia.
      exact Hc0. }
    exists s1, (setPoints c0 (setHistoryStep (historyStep s1 + 1) s1)).
    split; [exact (handleUndo_acts s c1 Hpos Hc1)|].
    split; [exact (handleRedo_acts s1 c0 Hback)|].
    subst s1; simpl.
    split; [reflexivity|]. split; [lia|]. split; [exact Hc1|].
    split; [reflexivity|]. split; [lia|]. split; [exact Hc0|].
    unfold synced. intros Hs. congruence.
  - intros Hnext.
    destruct (lookup_lt_is_Some_2 (history s) (historyStep s + 1)%nat) as [c1 Hc1];
      [lia|].
    set (s1 := setPoints c1 (setHistoryStep (historyStep s + 1) s)).
    assert (Hpos : (0 < historyStep s1)%nat) by (subst s1; simpl; lia).
    assert (Hback : history s1 !! (historyStep s1 - 1)%nat = Some c0).
    { subst s1; simpl. replace (historyStep s + 1 - 1)%nat with (historyStep s) by lia.
      exact Hc0. }
    exists s1, (setPoints c0 (setHistoryStep (historyStep s1 - 1) s1)).
    split; [exact (handleRedo_acts s c1 Hc1)|].
    split; [exact (handleUndo_acts s1 c0 Hpos Hback)|].
    subst s1; simpl.
    split; [reflexivity|]. split; [lia|].
    split; [replace (S (historyStep s)) with (historyStep s + 1)%nat by lia; exact Hc1|].
    split; [reflexivity|]. split; [lia|]. split; [exact Hc0|].
    unfold synced. intros Hs. congruence.
Qed.

Lemma X5_undo_redo_round_trip_witness :
  (historyStep (commit scenarioContour initialState)
   < length (history (commit scenarioContour initialState)))%nat
  /\ (0 < historyStep (commit scenarioContour initialState))%nat
  /\ (exists s1 s2,
        handleUndo (commit scenarioContour initialState) = Some s1
        /\ handleRedo s1 = Some s2
        /\ points s1 = []
        /\ points s2 = scenarioContour).
Proof.
  assert (Hin : (historyStep (commit scenarioContour initialState)
                 < length (history (commit scenarioContour initialState)))%nat)
    by (simpl; lia).
  assert (Hpos : (0 < historyStep (commit scenarioContour initialState))%nat)
    by (simpl; lia).
  split; [exact Hin|]. split; [exact Hpos|].
  destruct (proj1 (X5_undo_redo_round_trip _ Hin) Hpos)
    as (s1 & s2 & Hu & Hr & _ & _ & H1 & _ & _ & H2 & _).
  exists s1, s2. split; [exact Hu|]. split; [exact Hr|].
  inversion Hu; subst s1. inversion Hr; subst s2. split; reflexivity.
Defined.

(** ** The contour and the history between gestures *)

(** A commit of the contour that the pending state holds leaves the state
    synced. *)
Lemma saveHistory_synced (s k : EditorState) (newPoints : Contour) :
  points k = newPoints -> synced (saveHistory s newPoints k).
Proof.
  intros Hk. unfold synced.
  rewrite saveHistory_history, saveHistory_historyStep, saveHistory_points, Hk.
  rewrite length_app; simpl.
  replace (length (firstn (historyStep s + 1) (history s)) + 1 - 1)%nat
    with (length (firstn (historyStep s + 1) (history s)) + 0)%nat by lia.
  rewrite lookup_app_r by lia.
  replace (_ + 0 - _)%nat with 0%nat by lia. reflexivity.
Qed.

Lemma handleUndo_synced (s s' : EditorState) :
  handleUndo s = Some s' -> s' = s \/ synced s'.
Proof.
  unfold handleUndo. intros E.
  destruct (0 <? historyStep s)%nat.
  - destruct (history s !! (historyStep s - 1)%nat) as [c|] eqn:L; [|discriminate].
    inversion E; subst s'. right. exact L.
  - inversion E. left; reflexivity.
Qed.

Lemma handleRedo_synced (s s' : EditorState) :
  handleRedo s = Some s' -> s' = s \/ synced s'.
Proof.
  unfold handleRedo. intros E.
  destruct (_ <? _)%Z.
  - destruct (history s !! (historyStep s + 1)%nat) as [c|] eqn:L; [|discriminate].
    inversion E; subst s'. right. exact L.
  - inversion E. left; reflexivity.
Qed.

Lemma handlePointerUp_idle_synced (s : EditorState) :
  (idle s -> synced s) -> idle (handlePointerUp s) -> synced (handlePointerUp s).
Proof.
  unfold handlePointerUp. intros Hinv.
  destruct (tool s) eqn:Ht; simpl.
  - destruct (isDrawing s) eqn:Hd; simpl.
    + intros _. exact (saveHistory_synced s (setIsDrawing false s) (points s) eq_refl).
    + intros [_ Hi]. apply Hinv. split; assumption.
  - intros [Hd Hi]. apply Hinv. split; assumption.
  - destruct (draggingPointIndex s) eqn:Hi; simpl.
    + intros _.
      exact (saveHistory_synced s (setDraggingPointIndex None s) (points s) eq_refl).
    + intros [Hd _]. apply Hinv. split; assumption.
Qed.

Lemma step_idle_synced (s s' : EditorState) (ev : Event) :
  (idle s -> synced s) -> step s ev = Some s' -> idle s' -> synced s'.
Proof.
  intros Hinv E.
  destruct ev as [rect e|rect e| | | | | |t|img cw ch|cw ch]; simpl in E.
  - inversion E; subst s'; clear E. unfold handlePointerDown.
    destruct (tool s).
    + intros [Hd _]. discriminate.
    + intros _.
      exact (saveHistory_synced s
               (setPoints (points s ++ [clampedOf (dimensions s) rect e]) s)
               (points s ++ [clampedOf (dimensions s) rect e]) eq_refl).
    + destruct (_ =? _)%Z; [exact Hinv|]. intros [_ Hi]. discriminate.
  - unfold handlePointerMove in E. destruct (tool s).
    + destruct (isDrawing s) eqn:Hd; inversion E; subst s'; clear E.
      * intros [Hd' _]. simpl in Hd'. congruence.
      * exact Hinv.
    + inversion E; subst s'. exact Hinv.
    + destruct (draggingPointIndex s) as [i|] eqn:Hi.
      * destruct (arraySet i _ (points s)); inversion E; subst s'; clear E.
        intros [_ Hi']. simpl in Hi'. congruence.
      * inversion E; subst s'. exact Hinv.
  - inversion E; subst s'. apply handlePointerUp_idle_synced. exact Hinv.
  - inversion E; subst s'. exact (handlePointerUp_idle_synced s Hinv).
  - destruct (handleUndo_synced s s' E) as [->|H]; [exact Hinv | intros _; exact H].
  - destruct (handleRedo_synced s s' E) as [->|H]; [exact Hinv | intros _; exact H].
  - inversion E; subst s'. intros _.
    exact (saveHistory_synced s (setPoints [] s) [] eq_refl).
  - inversion E; subst s'. exact Hinv.
  - inversion E; subst s'. exact Hinv.
  - destruct (imageElement s); inversion E; subst s'; exact Hinv.
Qed.

(** X6.  In every state the editor reaches, when no stroke and no drag is in
    progress the contour on screen is the history snapshot under the cursor:
    nothing the handlers do outside a gesture leaves an uncommitted change. *)
Theorem X6_idle_contour_is_committed :
  forall s : EditorState,
    reachable s -> idle s -> history s !! historyStep s = Some (points s).
Proof.
  induction 1 as [|s ev s' _ IH E].
  - intros _. reflexivity.
  - exact (step_idle_synced s s' ev IH E).
Qed.

Lemma X6_idle_contour_is_committed_witness :
  reachable (handleClear initialState)
  /\ idle (handleClear initialState)
  /\ history (handleClear initialState) !! historyStep (handleClear initialState)
     = Some (points (handleClear initialState)).
Proof.
  assert (Hr : reachable (handleClear initialState)).
  { apply (reachable_step initialState ClickClear); [constructor | reflexivity]. }
  assert (Hi : idle (handleClear initialState)) by (split; reflexivity).
  split; [exact Hr|]. split; [exact Hi|].
  exact (X6_idle_contour_is_committed _ Hr Hi).
Defined.

(** ** Commits are single undo steps *)

Lemma saveHistory_cursor (s k : EditorState) (newPoints : Contour) :
  cursorInRange s ->
  historyStep (saveHistory s newPoints k) = (historyStep s + 1)%nat.
Proof.
  unfold cursorInRange. intros H.
  rewrite saveHistory_historyStep, length_app, length_firstn; simpl. lia.
Qed.

(** Entries up to the cursor survive a commit. *)
Lemma saveHistory_prefix (s k : EditorState) (newPoints : Contour) (i : nat) :
  cursorInRange s -> (i <= historyStep s)%nat ->
  history (saveHistory s newPoints k) !! i = history s !! i.
Proof.
  unfold cursorInRange. intros H Hi.
  rewrite saveHistory_history.
  rewrite lookup_app_l by (rewrite length_firstn; lia).
  change (firstn (historyStep s + 1) (history s))
    with (take (historyStep s + 1) (history s)).
  apply lookup_take_lt. lia.
Qed.

(** Undo in a state [t] whose history and cursor are those a commit made in
    [s] (whatever else the handler set) steps back to the snapshot that was
    under the cursor of [s]. *)
Lemma handleUndo_after_commit (s k t : EditorState) (newPoints c : Contour) :
  cursorInRange s ->
  history t = history (saveHistory s newPoints k) ->
  historyStep t = historyStep (saveHistory s newPoints k) ->
  history s !! historyStep s = Some c ->
  handleUndo t = Some (setPoints c (setHistoryStep (historyStep s) t)).
Proof.
  intros Hin Hh Hc Hs.
  rewrite saveHistory_cursor in Hc by exact Hin.
  assert (Ec : historyStep s = (historyStep t - 1)%nat) by lia.
  rewrite Ec.
  apply handleUndo_acts; [lia|].
  rewrite Hh, Hc. replace (historyStep s + 1 - 1)%nat with (historyStep s) by lia.
  rewrite saveHistory_prefix by (try exact Hin; lia). exact Hs.
Qed.

(** X7.  Clear All is one undoable step: from a state whose contour is the
    snapshot under the (in range) cursor, clearing empties the contour, undo
    then brings the contour back with the cursor where it was, and redo
    clears it again. *)
Theorem X7_clear_is_undoable :
  forall s : EditorState,
    (historyStep s < length (history s))%nat ->
    history s !! historyStep s = Some (points s) ->
    points (handleClear s) = []
    /\ exists s1 s2,
         handleUndo (handleClear s) = Some s1
         /\ points s1 = points s
         /\ historyStep s1 = historyStep s
         /\ handleRedo s1 = Some s2
         /\ points s2 = []
         /\ history s2 = history (handleClear s).
Proof.
  intros s Hin Hs. split; [reflexivity|].
  pose proof (handleUndo_after_commit s (setPoints [] s) (handleClear s) []
                (points s) Hin eq_refl eq_refl Hs) as Hu.
  set (s1 := setPoints (points s) (setHistoryStep (historyStep s) (handleClear s))) in *.
  assert (Hnext : history s1 !! (historyStep s1 + 1)%nat = Some []).
  { subst s1. unfold handleClear. cbn [history historyStep setPoints setHistoryStep].
    rewrite saveHistory_history.
    rewrite lookup_app_r by (rewrite length_firstn; lia).
    rewrite length_firstn.
    replace (historyStep s + 1 - _)%nat with 0%nat by lia. reflexivity. }
  exists s1, (setPoints [] (setHistoryStep (historyStep s1 + 1) s1)).
  split; [exact Hu|]. split; [reflexivity|]. split; [reflexivity|].
  split; [exact (handleRedo_acts s1 [] Hnext)|].
  split; reflexivity.
Qed.

Lemma X7_clear_is_undoable_witness :
  (historyStep (commit scenarioContour initialState)
   < length (history (commit scenarioContour initialState)))%nat
  /\ history (commit scenarioContour initialState)
       !! historyStep (commit scenarioContour initialState)
     = Some (points (commit scenarioContour initialState))
  /\ exists s1,
       handleUndo (handleClear (commit scenarioContour initialState)) = Some s1
       /\ points s1 = scenarioContour.
Proof.
  assert (Hin : (historyStep (commit scenarioContour initialState)
                 < length (history (commit scenarioContour initialState)))%nat)
    by (simpl; lia).
  assert (Hs : history (commit scenarioContour initialState)
                 !! historyStep (commit scenarioContour initialState)
               = Some (points (commit scenarioContour initialState)))
    by reflexivity.
  split; [exact Hin|]. split; [exact Hs|].
  destruct (proj2 (X7_clear_is_undoable _ Hin Hs)) as (s1 & s2 & Hu & Hp & _).
  exists s1. split; [exact Hu | exact Hp].
Defined.

(** ** Polygon tool *)

(** A series of polygon clicks appends one point per click, commits after
    each and keeps the history up to the initial cursor. *)
Lemma run_polygon_clicks (rect : DOMRect) (es : list PointerEvent) :
  forall s : EditorState,
    tool s = polygon -> cursorInRange s ->
    exists s1,
      run s (clickEvents rect es) = Some s1
      /\ tool s1 = polygon
      /\ dimensions s1 = dimensions s
      /\ points s1 = points s ++ map (clampedOf (dimensions s) rect) es
      /\ historyStep s1 = (historyStep s + length es)%nat
      /\ cursorInRange s1
      /\ (forall i, (i <= historyStep s)%nat -> history s1 !! i = history s !! i)
      /\ (synced s -> synced s1).
Proof.
  induction es as [|e es IH]; intros s Ht Hin.
  - exists s. simpl. rewrite app_nil_r, Nat.add_0_r.
    repeat split; auto.
  - set (c := clampedOf (dimensions s) rect e).
    set (s' := handlePointerUp (handlePointerDown rect e s)).
    assert (Hdown : handlePointerDown rect e s
                    = setMagnifierState
                        (Some (mkMagnifier true (localX rect e) (localY rect e)))
                        (saveHistory s (points s ++ [c])
                           (setPoints (points s ++ [c]) s)))
      by (unfold handlePointerDown; rewrite Ht; reflexivity).
    assert (Ht' : tool s' = polygon)
      by (subst s'; rewrite Hdown; unfold handlePointerUp; simpl; rewrite Ht; exact Ht).
    assert (Hs' : s' = setMagnifierState None
                         (saveHistory s (points s ++ [c])
                            (setPoints (points s ++ [c]) s)))
      by (subst s'; rewrite Hdown; unfold handlePointerUp; simpl; rewrite Ht;
          reflexivity).
    assert (Hin' : cursorInRange s')
      by (subst s'; apply handlePointerUp_cursorInRange,
            handlePointerDown_cursorInRange, Hin).
    destruct (IH s' Ht' Hin')
      as (s1 & Hr & Ht1 & Hd1 & Hp1 & Hc1 & Hin1 & Hpre1 & Hsyn1).
    assert (Hstep : historyStep s' = (historyStep s + 1)%nat)
      by (rewrite Hs'; exact (saveHistory_cursor s _ _ Hin)).
    exists s1. split; [exact Hr|]. split; [exact Ht1|].
    split; [rewrite Hd1, Hs'; reflexivity|].
    split.
    { rewrite Hp1. rewrite Hs' at 1 2. cbn [points dimensions setMagnifierState
        saveHistory setHistoryStep setHistory setPoints map].
      rewrite <- app_assoc. reflexivity. }
    split; [rewrite Hc1, Hstep; simpl; lia|].
    split; [exact Hin1|]. split.
    + intros i Hi. rewrite Hpre1 by lia. rewrite Hs'.
      exact (saveHistory_prefix s _ _ i Hin Hi).
    + intros _. apply Hsyn1. rewrite Hs'.
      exact (saveHistory_synced s (setPoints (points s ++ [c]) s)
               (points s ++ [c]) eq_refl).
Qed.

(** [n] undos with at least [n] entries before the cursor step the cursor
    back by [n] and show the snapshot found there. *)
Lemma run_undos (n : nat) :
  forall s : EditorState,
    cursorInRange s -> (n <= historyStep s)%nat ->
    exists s2,
      run s (repeat ClickUndo n) = Some s2
      /\ history s2 = history s
      /\ historyStep s2 = (historyStep s - n)%nat
      /\ ((0 < n)%nat -> history s !! (historyStep s - n)%nat = Some (points s2))
      /\ (n = 0%nat -> s2 = s).
Proof.
  induction n as [|n IH]; intros s Hin Hn.
  - exists s. simpl. repeat split; lia.
  - destruct (lookup_lt_is_Some_2 (history s) (historyStep s - 1)%nat) as [c Hc];
      [unfold cursorInRange in Hin; lia|].
    pose proof (handleUndo_acts s c ltac:(lia) Hc) as Hu.
    set (s' := setPoints c (setHistoryStep (historyStep s - 1) s)) in *.
    destruct (IH s') as (s2 & Hr & Hh & Hs & Hp & Hz).
    { unfold cursorInRange in *. subst s'; simpl. lia. }
    { subst s'; simpl. lia. }
    exists s2. cbn [repeat run step]. rewrite Hu.
    split; [exact Hr|]. split; [rewrite Hh; reflexivity|].
    split; [rewrite Hs; subst s'; simpl; lia|]. split; [|discriminate].
    intros _. destruct n as [|n].
    + rewrite (Hz eq_refl). subst s'; simpl. exact Hc.
    + replace (historyStep s - S (S n))%nat with (historyStep s' - S n)%nat
        by (subst s'; simpl; lia).
      apply (Hp ltac:(lia)).
Qed.

(** X8.  In Polygon mode, from a state whose contour is the snapshot under
    the (in range) cursor, a series of clicks appends the clicked points in
    order, one per click, and moves the cursor forward by one per click;
    as many undos as there were clicks then bring back the contour and the
    cursor from before the first click. *)
Theorem X8_polygon_clicks_undo :
  forall (rect : DOMRect) (es : list PointerEvent) (s : EditorState),
    tool s = polygon ->
    (historyStep s < length (history s))%nat ->
    history s !! historyStep s = Some (points s) ->
    exists s1 s2,
      run s (clickEvents rect es) = Some s1
      /\ points s1
         = points s
           ++ map (fun e => clamp (toNormalized (dimensions s)
                                     (clientX e - left rect) (clientY e - top rect)))
                es
      /\ historyStep s1 = (historyStep s + length es)%nat
      /\ run s (clickEvents rect es ++ repeat ClickUndo (length es)) = Some s2
      /\ points s2 = points s
      /\ historyStep s2 = historyStep s.
Proof.
  intros rect es s Ht Hin Hsyn.
  destruct (run_polygon_clicks rect es s Ht Hin)
    as (s1 & Hr & _ & _ & Hp1 & Hc1 & Hin1 & Hpre1 & _).
  destruct (run_undos (length es) s1 Hin1 ltac:(lia)) as (s2 & Hu & _ & Hc2 & Hp2 & Hz).
  exists s1, s2. split; [exact Hr|]. split; [exact Hp1|]. split; [exact Hc1|].
  split; [rewrite (run_app _ _ s s1 Hr); exact Hu|].
  split; [|lia].
  destruct es as [|e es].
  - rewrite (Hz eq_refl). rewrite Hp1; simpl. apply app_nil_r.
  - specialize (Hp2 ltac:(simpl; lia)).
    replace (historyStep s1 - length (e :: es))%nat with (historyStep s) in Hp2 by lia.
    rewrite Hpre1 in Hp2 by lia. congruence.
Qed.

Lemma X8_polygon_clicks_undo_witness :
  tool (setTool polygon emptyCanvas) = polygon
  /\ (historyStep (setTool polygon emptyCanvas)
      < length (history (setTool polygon emptyCanvas)))%nat
  /\ history (setTool polygon emptyCanvas) !! historyStep (setTool polygon emptyCanvas)
     = Some (points (setTool polygon emptyCanvas))
  /\ exists s1 s2,
       run (setTool polygon emptyCanvas) (clickEvents scenarioRect strokeMoves)
       = Some s1
       /\ historyStep s1 = 3%nat
       /\ run (setTool polygon emptyCanvas)
            (clickEvents scenarioRect strokeMoves ++ repeat ClickUndo 3) = Some s2
       /\ points s2 = [].
Proof.
  assert (Ht : tool (setTool polygon emptyCanvas) = polygon) by reflexivity.
  assert (Hin : (historyStep (setTool polygon emptyCanvas)
                 < length (history (setTool polygon emptyCanvas)))%nat)
    by (simpl; lia).
  assert (Hs : history (setTool polygon emptyCanvas)
                 !! historyStep (setTool polygon emptyCanvas)
               = Some (points (setTool polygon emptyCanvas))) by reflexivity.
  split; [exact Ht|]. split; [exact Hin|]. split; [exact Hs|].
  destruct (X8_polygon_clicks_undo scenarioRect strokeMoves _ Ht Hin Hs)
    as (s1 & s2 & Hr & _ & Hc & Hu & Hp & _).
  exists s1, s2. split; [exact Hr|]. split; [exact Hc|].
  split; [exact Hu | exact Hp].
Defined.

(** ** A whole freehand stroke *)

(** The filter on a contour with last point [p0]: either the point is kept
    and is farther than the threshold from [p0], or the contour is as it
    was. *)
Lemma distanceFilter_spaced (d : Dimensions) (c p0 : Point) (prev : Contour) :
  last prev = Some p0 ->
  (distanceFilter d c prev = prev ++ [c] /\ screenDistSq d p0 c > 10)
  \/ distanceFilter d c prev = prev.
Proof.
  intros Hlast. unfold distanceFilter, screenDistSq. rewrite Hlast.
  destruct (Rgt_dec _ _) as [H|H]; [left; split; [reflexivity | exact H] | right].
  reflexivity.
Qed.

(** Pointer moves during a stroke: the points appended are a subsequence of
    the clamped pointer positions, each farther than the threshold from the
    point recorded before it. *)
Lemma run_stroke_moves_spaced (rect : DOMRect) (es : list PointerEvent) :
  forall (s : EditorState) (p0 : Point),
    tool s = freehand -> isDrawing s = true -> last (points s) = Some p0 ->
    exists (s' : EditorState) (app : Contour),
      run s (map (PointerMove rect) es) = Some s'
      /\ points s' = points s ++ app
      /\ spacedFrom (dimensions s) p0 app
      /\ app `sublist_of` map (clampedOf (dimensions s) rect) es
      /\ tool s' = freehand /\ isDrawing s' = true
      /\ history s' = history s /\ historyStep s' = historyStep s.
Proof.
  induction es as [|e es IH]; intros s p0 Ht Hd Hlast.
  - exists s, []. rewrite app_nil_r. simpl. repeat split; auto; try constructor.
  - cbn [map run step]. unfold handlePointerMove. rewrite Ht, Hd.
    set (c := clampedOf (dimensions s) rect e).
    match goal with |- context [run ?t _] => set (s1 := t) end.
    assert (Hp1 : points s1 = distanceFilter (dimensions s) c (points s))
      by reflexivity.
    destruct (distanceFilter_spaced (dimensions s) c p0 (points s) Hlast)
      as [[E Hfar] | E]; rewrite E in Hp1.
    + destruct (IH s1 c) as (s' & app & Hr & Hp & Hsp & Hsub & Ht' & Hd' & Hh & Hc);
        [exact Ht | exact Hd | rewrite Hp1; apply last_snoc |].
      exists s', (c :: app). split; [exact Hr|].
      split; [rewrite Hp, Hp1, <- app_assoc; reflexivity|].
      split; [split; [exact Hfar | exact Hsp]|].
      split; [simpl; apply sublist_skip; exact Hsub|].
      repeat split; assumption.
    + destruct (IH s1 p0) as (s' & app & Hr & Hp & Hsp & Hsub & Ht' & Hd' & Hh & Hc);
        [exact Ht | exact Hd | rewrite Hp1; exact Hlast |].
      exists s', app. split; [exact Hr|].
      split; [rewrite Hp, Hp1; reflexivity|].
      split; [exact Hsp|].
      split; [simpl; apply sublist_cons; exact Hsub|].
      repeat split; assumption.
Qed.

(** X9.  A freehand stroke (pointer-down, any pointer moves, pointer-up)
    never fails.  It appends the clamped pointer-down point followed by a
    subsequence of the clamped positions of the moves, in which every point
    is farther than the threshold (squared distance on screen above 10) from
    the point recorded before it; the stroke flag is cleared at the end. *)
Theorem X9_stroke_points_are_spaced :
  forall (rect : DOMRect) (e0 : PointerEvent) (es : list PointerEvent)
         (s : EditorState),
    tool s = freehand ->
    exists (s' : EditorState) (app : Contour),
      run s (gestureEvents rect e0 es) = Some s'
      /\ points s' = points s ++ clampedOf (dimensions s) rect e0 :: app
      /\ spacedFrom (dimensions s) (clampedOf (dimensions s) rect e0) app
      /\ app `sublist_of` map (clampedOf (dimensions s) rect) es
      /\ isDrawing s' = false.
Proof.
  intros rect e0 es s Ht.
  set (s0 := handlePointerDown rect e0 s).
  set (c0 := clampedOf (dimensions s) rect e0).
  assert (Hp0 : points s0 = points s ++ [c0])
    by (subst s0; unfold handlePointerDown; rewrite Ht; reflexivity).
  assert (Hd0 : dimensions s0 = dimensions s)
    by (subst s0; unfold handlePointerDown; rewrite Ht; reflexivity).
  assert (Ht0 : tool s0 = freehand)
    by (subst s0; unfold handlePointerDown; rewrite Ht; exact Ht).
  assert (Hi0 : isDrawing s0 = true)
    by (subst s0; unfold handlePointerDown; rewrite Ht; reflexivity).
  destruct (run_stroke_moves_spaced rect es s0 c0 Ht0 Hi0)
    as (s1 & app & Hr & Hp & Hsp & Hsub & Ht1 & Hd1 & _); [rewrite Hp0; apply last_snoc|].
  exists (handlePointerUp s1), app.
  split.
  { unfold gestureEvents. cbn [run step]. fold s0.
    rewrite (run_app _ [PointerUp] s0 s1 Hr). reflexivity. }
  rewrite Hd0 in Hsp, Hsub.
  unfold handlePointerUp. rewrite Ht1, Hd1; simpl.
  split; [rewrite Hp, Hp0, <- app_assoc; reflexivity|].
  split; [exact Hsp|]. split; [exact Hsub | reflexivity].
Qed.

(** X10.  A freehand stroke is one undo step: started with the contour equal
    to the snapshot under the (in range) cursor, the stroke adds exactly one
    history entry, which holds the contour with the stroke; the cursor moves
    onto it, and one undo brings back the contour and the cursor from before
    the stroke. *)
Theorem X10_stroke_is_one_undo_step :
  forall (rect : DOMRect) (e0 : PointerEvent) (es : list PointerEvent)
         (s : EditorState),
    tool s = freehand ->
    (historyStep s < length (history s))%nat ->
    history s !! historyStep s = Some (points s) ->
    exists s' s2,
      run s (gestureEvents rect e0 es) = Some s'
      /\ history s' = firstn (historyStep s + 1) (history s) ++ [points s']
      /\ historyStep s' = (historyStep s + 1)%nat
      /\ handleUndo s' = Some s2
      /\ points s2 = points s
      /\ historyStep s2 = historyStep s.
Proof.
  intros rect e0 es s Ht Hin Hsyn.
  set (s0 := handlePointerDown rect e0 s).
  assert (Hh0 : history s0 = history s /\ historyStep s0 = historyStep s)
    by (subst s0; unfold handlePointerDown; rewrite Ht; split; reflexivity).
  assert (Ht0 : tool s0 = freehand)
    by (subst s0; unfold handlePointerDown; rewrite Ht; exact Ht).
  assert (Hi0 : isDrawing s0 = true)
    by (subst s0; unfold handlePointerDown; rewrite Ht; reflexivity).
  destruct (run_stroke_moves rect es s0 Ht0 Hi0) as (s1 & app & Hr & _ & _ & Hh1 & Hc1).
  assert (Ht1 : tool s1 = freehand /\ isDrawing s1 = true).
  { destruct (run_stroke_moves_spaced rect es s0
                (clampedOf (dimensions s) rect e0) Ht0 Hi0)
      as (s1' & app' & Hr' & _ & _ & _ & Ht1 & Hd1 & _).
    - subst s0. unfold handlePointerDown. rewrite Ht. simpl. apply last_snoc.
    - rewrite Hr in Hr'. inversion Hr'; subst s1'. split; assumption. }
  destruct Ht1 as [Ht1 Hd1]. destruct Hh0 as [Hh0 Hc0].
  set (s' := handlePointerUp s1).
  assert (Hup : s' = setMagnifierState None
                       (saveHistory s1 (points s1) (setIsDrawing false s1)))
    by (subst s'; unfold handlePointerUp; rewrite Ht1, Hd1; reflexivity).
  assert (Hin1 : cursorInRange s1)
    by (unfold cursorInRange; rewrite Hh1, Hc1, Hh0, Hc0; exact Hin).
  assert (Hsnap : history s1 !! historyStep s1 = Some (points s))
    by (rewrite Hh1, Hc1, Hh0, Hc0; exact Hsyn).
  exists s', (setPoints (points s) (setHistoryStep (historyStep s1) s')).
  split.
  { unfold gestureEvents. cbn [run step]. fold s0.
    rewrite (run_app _ [PointerUp] s0 s1 Hr). reflexivity. }
  split; [rewrite Hup; simpl; rewrite Hh1, Hc1, Hh0, Hc0; reflexivity|].
  split.
  { rewrite Hup. cbn [historyStep setMagnifierState].
    rewrite (saveHistory_cursor s1 _ _ Hin1), Hc1, Hc0. reflexivity. }
  split.
  { apply (handleUndo_after_commit s1 (setIsDrawing false s1) s' (points s1)
             (points s) Hin1); [rewrite Hup; reflexivity .. | exact Hsnap]. }
  split; [reflexivity|]. simpl. rewrite Hc1, Hc0. reflexivity.
Qed.

Lemma X10_stroke_is_one_undo_step_witness :
  tool emptyCanvas = freehand
  /\ (historyStep emptyCanvas < length (history emptyCanvas))%nat
  /\ history emptyCanvas !! historyStep emptyCanvas = Some (points emptyCanvas)
  /\ exists s' s2,
       run emptyCanvas (gestureEvents scenarioRect strokeStart strokeMoves) = Some s'
       /\ historyStep s' = 1%nat
       /\ handleUndo s' = Some s2
       /\ points s2 = [].
Proof.
  assert (Ht : tool emptyCanvas = freehand) by reflexivity.
  assert (Hin : (historyStep emptyCanvas < length (history emptyCanvas))%nat)
    by (simpl; lia).
  assert (Hs : history emptyCanvas !! historyStep emptyCanvas
               = Some (points emptyCanvas)) by reflexivity.
  split; [exact Ht|]. split; [exact Hin|]. split; [exact Hs|].
  destruct (X10_stroke_is_one_undo_step scenarioRect strokeStart strokeMoves
              emptyCanvas Ht Hin Hs) as (s' & s2 & Hr & _ & Hc & Hu & Hp & _).
  exists s', s2. split; [exact Hr|]. split; [exact Hc|].
  split; [exact Hu | exact Hp].
Defined.

Lemma X9_stroke_points_are_spaced_witness :
  tool scenarioState = freehand
  /\ exists (s' : EditorState) (app : Contour),
       run scenarioState (gestureEvents scenarioRect strokeStart strokeMoves)
       = Some s'
       /\ points s'
          = scenarioContour
            ++ clampedOf scenarioDimensions scenarioRect strokeStart :: app
       /\ spacedFrom scenarioDimensions
            (clampedOf scenarioDimensions scenarioRect strokeStart) app.
Proof.
  assert (Ht : tool scenarioState = freehand) by reflexivity.
  split; [exact Ht|].
  destruct (X9_stroke_points_are_spaced scenarioRect strokeStart strokeMoves
              scenarioState Ht) as (s' & app & Hr & Hp & Hsp & _).
  exists s', app. split; [exact Hr|]. split; [exact Hp | exact Hsp].
Defined.

(** ** A whole move drag *)

(** Pointer moves during a drag of point [i], which is inside the contour:
    they never fail; the contour keeps its length and changes at index [i]
    only, where it holds the clamped position of the last move. *)
Lemma run_drag_moves (rect : DOMRect) (i : nat) (es : list PointerEvent) :
  forall s : EditorState,
    tool s = move -> draggingPointIndex s = Some i ->
    (i < length (points s))%nat ->
    exists s',
      run s (map (PointerMove rect) es) = Some s'
      /\ points s'
         = match last es with
           | Some e => <[i := clampedOf (dimensions s) rect e]> (points s)
           | None => points s
           end
      /\ tool s' = move /\ draggingPointIndex s' = Some i
      /\ history s' = history s /\ historyStep s' = historyStep s.
Proof.
  induction es as [|e es IH]; intros s Ht Hd Hi.
  - exists s. simpl. repeat split; auto.
  - cbn [map run step]. unfold handlePointerMove, arraySet. rewrite Ht, Hd.
    rewrite (proj2 (Nat.ltb_lt _ _) Hi).
    match goal with |- context [run ?t _] => set (s1 := t) end.
    destruct (IH s1) as (s' & Hr & Hp & Ht' & Hd' & Hh & Hc);
      [exact Ht | exact Hd
      | subst s1; cbn [points setMagnifierState setPoints setCursorPos];
        eapply Nat.lt_le_trans;
        [exact Hi | apply Nat.eq_le_incl; symmetry; apply length_insert] |].
    exists s'. split; [exact Hr|]. split; [|repeat split; assumption].
    rewrite Hp. subst s1. cbn [points dimensions setMagnifierState setPoints
                                 setCursorPos].
    destruct es as [|e' es]; [reflexivity|].
    rewrite last_cons_cons.
    destruct (last (e' :: es)) as [e2|] eqn:L.
    + apply list_insert_insert_eq.
    + apply last_None in L. discriminate.
Qed.

(** X11.  In Move mode, a drag that starts with a hit on point [i] never
    fails and never writes outside the contour: the contour keeps its length,
    every point other than [i] stays, and point [i] ends at the clamped
    position of the last move (the contour is unchanged without any move).
    The drag adds one history entry holding the new contour and clears the
    drag index; started from a committed contour with the cursor in range,
    one undo brings the contour back. *)
Theorem X11_move_drag_replaces_one_point :
  forall (rect : DOMRect) (e0 : PointerEvent) (es : list PointerEvent)
         (s : EditorState) (i : nat),
    tool s = move ->
    nearest (dimensions s) (clientX e0 - left rect) (clientY e0 - top rect)
      (points s) = Z.of_nat i ->
    exists s',
      run s (gestureEvents rect e0 es) = Some s'
      /\ (i < length (points s))%nat
      /\ length (points s') = length (points s)
      /\ (forall j, j <> i -> points s' !! j = points s !! j)
      /\ (forall e, last es = Some e ->
            points s' !! i
            = Some (clamp (toNormalized (dimensions s)
                             (clientX e - left rect) (clientY e - top rect))))
      /\ (es = [] -> points s' = points s)
      /\ history s' = firstn (historyStep s + 1) (history s) ++ [points s']
      /\ draggingPointIndex s' = None
      /\ ((historyStep s < length (history s))%nat ->
          history s !! historyStep s = Some (points s) ->
          exists s2, handleUndo s' = Some s2 /\ points s2 = points s).
Proof.
  intros rect e0 es s i Ht Hn.
  assert (Hi : (i < length (points s))%nat).
  { destruct (nearest_spec (dimensions s) (clientX e0 - left rect)
                (clientY e0 - top rect) (points s))
      as [[E _] | (n & p & E & Hp & _)].
    - rewrite E in Hn. lia.
    - rewrite E in Hn. apply Nat2Z.inj in Hn. subst n.
      eapply lookup_lt_Some; exact Hp. }
  set (s0 := handlePointerDown rect e0 s).
  assert (Hs0 : s0 = setMagnifierState
                       (Some (mkMagnifier true (localX rect e0) (localY rect e0)))
                       (setDraggingPointIndex (Some i) s)).
  { subst s0. unfold handlePointerDown, localX, localY. rewrite Ht, Hn.
    destruct (Z.of_nat i =? -1)%Z eqn:G; [apply Z.eqb_eq in G; lia|].
    rewrite Nat2Z.id. reflexivity. }
  destruct (run_drag_moves rect i es s0) as (s1 & Hr & Hp & Ht1 & Hd1 & Hh1 & Hc1);
    [rewrite Hs0; exact Ht | rewrite Hs0; reflexivity | rewrite Hs0; exact Hi |].
  rewrite Hs0 in Hp, Hh1, Hc1.
  cbn [points dimensions history historyStep setMagnifierState
       setDraggingPointIndex] in Hp, Hh1, Hc1.
  set (s' := handlePointerUp s1).
  assert (Hup : s' = setMagnifierState None
                       (saveHistory s1 (points s1) (setDraggingPointIndex None s1)))
    by (subst s'; unfold handlePointerUp; rewrite Ht1, Hd1; reflexivity).
  assert (Hps' : points s' = points s1) by (rewrite Hup; reflexivity).
  exists s'. split.
  { unfold gestureEvents. cbn [run step]. fold s0.
    rewrite (run_app _ [PointerUp] s0 s1 Hr). reflexivity. }
  split; [exact Hi|]. rewrite Hps'.
  split.
  { rewrite Hp. destruct (last es); [apply length_insert | reflexivity]. }
  split.
  { intros j Hj. rewrite Hp.
    destruct (last es); [apply list_lookup_insert_ne; congruence | reflexivity]. }
  split.
  { intros e He. rewrite Hp, He. apply list_lookup_insert_eq. exact Hi. }
  split.
  { intros ->. rewrite Hp. reflexivity. }
  split.
  { rewrite Hup. cbn [history setMagnifierState]. rewrite saveHistory_history.
    rewrite Hh1, Hc1. reflexivity. }
  split; [rewrite Hup; reflexivity|].
  intros Hin Hsyn.
  assert (Hin1 : cursorInRange s1)
    by (unfold cursorInRange; rewrite Hh1, Hc1; exact Hin).
  exists (setPoints (points s) (setHistoryStep (historyStep s1) s')).
  split; [|reflexivity].
  apply (handleUndo_after_commit s1 (setDraggingPointIndex None s1) s' (points s1)
           (points s) Hin1); [rewrite Hup; reflexivity .. |].
  rewrite Hh1, Hc1. exact Hsyn.
Qed.

Lemma X11_move_drag_replaces_one_point_witness :
  tool (setTool move scenarioState) = move
  /\ nearest (dimensions (setTool move scenarioState))
       (clientX hitClick - left scenarioRect) (clientY hitClick - top scenarioRect)
       (points (setTool move scenarioState)) = Z.of_nat 0
  /\ exists s',
       run (setTool move scenarioState)
           (gestureEvents scenarioRect hitClick [dragTarget]) = Some s'
       /\ length (points s') = 3%nat
       /\ points s' !! 1%nat = Some (mkPoint 0.75 0.25)
       /\ draggingPointIndex s' = None.
Proof.
  assert (Ht : tool (setTool move scenarioState) = move) by reflexivity.
  split; [exact Ht|]. split; [exact nearest_hitClick|].
  destruct (X11_move_drag_replaces_one_point scenarioRect hitClick [dragTarget]
              _ 0%nat Ht nearest_hitClick)
    as (s' & Hr & _ & Hl & Hother & _ & _ & _ & Hd & _).
  exists s'. split; [exact Hr|]. split; [exact Hl|].
  split; [exact (Hother 1%nat ltac:(lia)) | exact Hd].
Defined.

(** ** Switching the tool during a stroke *)

(** X12.  The tool buttons only set the tool.  If the tool is switched away
    from Freehand while a stroke is in progress (and no drag index is set),
    the pointer-up and the pointer leave that follow commit nothing: history
    and cursor are unchanged and the stroke flag stays set, with the points of
    the stroke still in the contour.  Back in Freehand, a pointer move without
    any pointer-down goes through the distance filter again. *)
Theorem X12_tool_switch_leaves_stroke_open :
  forall (s : EditorState) (t : ToolType),
    tool s = freehand -> isDrawing s = true -> draggingPointIndex s = None ->
    t <> freehand ->
    (history (handlePointerUp (setTool t s)) = history s
     /\ historyStep (handlePointerUp (setTool t s)) = historyStep s
     /\ points (handlePointerUp (setTool t s)) = points s
     /\ isDrawing (handlePointerUp (setTool t s)) = true)
    /\ (history (onPointerLeave (setTool t s)) = history s
        /\ isDrawing (onPointerLeave (setTool t s)) = true)
    /\ forall (rect : DOMRect) (e : PointerEvent),
         exists s2,
           run s [ClickTool t; PointerUp; ClickTool freehand; PointerMove rect e]
           = Some s2
           /\ points s2
              = distanceFilter (dimensions s)
                  (clamp (toNormalized (dimensions s)
                            (clientX e - left rect) (clientY e - top rect)))
                  (points s)
           /\ history s2 = history s.
Proof.
  intros s t Ht Hd Hi Hne.
  assert (Hup : handlePointerUp (setTool t s)
                = (if isPolygon t then setMagnifierState None (setTool t s)
                   else setTool t s)).
  { unfold handlePointerUp. cbn [tool isDrawing draggingPointIndex setTool].
    rewrite Hi. destruct t; [contradiction | reflexivity | reflexivity]. }
  split; [|split].
  - rewrite Hup. destruct t; simpl; repeat split; assumption.
  - unfold onPointerLeave. rewrite Hup. destruct t; simpl; split; auto.
  - intros rect e. cbn [run step]. rewrite Hup.
    eexists. split.
    + unfold handlePointerMove.
      destruct t; [contradiction | |]; cbn; rewrite Hd; reflexivity.
    + destruct t; [contradiction | |]; split; reflexivity.
Qed.

Lemma X12_tool_switch_leaves_stroke_open_witness :
  tool (handlePointerDown scenarioRect strokeStart emptyCanvas) = freehand
  /\ isDrawing (handlePointerDown scenarioRect strokeStart emptyCanvas) = true
  /\ draggingPointIndex (handlePointerDown scenarioRect strokeStart emptyCanvas) = None
  /\ polygon <> freehand
  /\ history (handlePointerUp
                (setTool polygon
                   (handlePointerDown scenarioRect strokeStart emptyCanvas)))
     = [[]]
  /\ isDrawing (handlePointerUp
                  (setTool polygon
                     (handlePointerDown scenarioRect strokeStart emptyCanvas)))
     = true.
Proof.
  assert (Ht : tool (handlePointerDown scenarioRect strokeStart emptyCanvas)
               = freehand) by reflexivity.
  assert (Hd : isDrawing (handlePointerDown scenarioRect strokeStart emptyCanvas)
               = true) by reflexivity.
  assert (Hi : draggingPointIndex
                 (handlePointerDown scenarioRect strokeStart emptyCanvas) = None)
    by reflexivity.
  assert (Hne : polygon <> freehand) by discriminate.
  split; [exact Ht|]. split; [exact Hd|]. split; [exact Hi|]. split; [exact Hne|].
  destruct (X12_tool_switch_leaves_stroke_open _ polygon Ht Hd Hi Hne)
    as ((Hh & _ & _ & Hdr) & _).
  split; [exact Hh | exact Hdr].
Defined.

(** ** What every reachable state guarantees *)

(** X13.  In every state the editor reaches the history is not empty and the
    cursor points at one of its entries; so undo and redo never read past the
    history: both always return a state, whose cursor is again in range. *)
Theorem X13_history_cursor_in_range :
  forall s : EditorState,
    reachable s ->
    (historyStep s < length (history s))%nat
    /\ (exists s1, handleUndo s = Some s1
                   /\ (historyStep s1 < length (history s1))%nat)
    /\ (exists s2, handleRedo s = Some s2
                   /\ (historyStep s2 < length (history s2))%nat).
Proof.
  intros s Hr.
  pose proof (reachable_cursorInRange s Hr) as Hin.
  split; [exact Hin|]. split.
  - destruct (handleUndo_total s Hin) as [s1 H1].
    exists s1. split; [exact H1 | exact (handleUndo_cursorInRange s s1 Hin H1)].
  - destruct (handleRedo_total s) as [s2 H2].
    exists s2. split; [exact H2 | exact (handleRedo_cursorInRange s s2 Hin H2)].
Qed.

Lemma reachable_run (evs : list Event) :
  forall s s' : EditorState, reachable s -> run s evs = Some s' -> reachable s'.
Proof.
  induction evs as [|ev evs IH]; intros s s' Hr E; simpl in E.
  - inversion E; subst s'. exact Hr.
  - destruct (step s ev) as [s1|] eqn:E1; [|discriminate].
    apply (IH s1 s'); [exact (reachable_step s ev s1 Hr E1) | exact E].
Qed.

Lemma X13_history_cursor_in_range_witness :
  exists s',
    run initialState (ClickTool polygon :: clickEvents scenarioRect strokeMoves)
    = Some s'
    /\ reachable s'
    /\ (historyStep s' < length (history s'))%nat.
Proof.
  destruct (run_polygon_clicks scenarioRect strokeMoves (setTool polygon initialState)
              eq_refl ltac:(unfold cursorInRange; simpl; lia))
    as (s1 & Hrun & _).
  assert (Hrun' : run initialState
                    (ClickTool polygon :: clickEvents scenarioRect strokeMoves)
                  = Some s1) by exact Hrun.
  pose proof (reachable_run _ _ _ reachable_init Hrun') as Hr.
  exists s1. split; [exact Hrun'|]. split; [exact Hr|].
  exact (proj1 (X13_history_cursor_in_range _ Hr)).
Defined.

Lemma reachableLoaded_reachable (s : EditorState) :
  reachableLoaded s -> reachable s.
Proof.
  induction 1 as [|s ev s' _ IH _ E].
  - exact reachable_init.
  - exact (reachable_step s ev s' IH E).
Qed.

(** Only the load of the image and a resize change the fit. *)
Lemma step_keeps_dimensions (s s' : EditorState) (ev : Event) :
  keepsFit ev -> step s ev = Some s' -> dimensions s' = dimensions s.
Proof.
  intros Hk E.
  destruct ev as [rect e|rect e| | | | | |t|img cw ch|cw ch]; simpl in E;
    try contradiction.
  - inversion E; subst s'. unfold handlePointerDown.
    destruct (tool s); [reflexivity | reflexivity |].
    destruct (_ =? _)%Z; reflexivity.
  - unfold handlePointerMove in E. destruct (tool s).
    + destruct (isDrawing s); inversion E; reflexivity.
    + inversion E; reflexivity.
    + destruct (draggingPointIndex s) as [i|].
      * destruct (arraySet i _ (points s)); inversion E; reflexivity.
      * inversion E; reflexivity.
  - inversion E; subst s'. unfold handlePointerUp.
    destruct (tool s); simpl.
    + destruct (isDrawing s); reflexivity.
    + reflexivity.
    + destruct (draggingPointIndex s); reflexivity.
  - inversion E; subst s'. unfold onPointerLeave, handlePointerUp.
    destruct (tool s); simpl.
    + destruct (isDrawing s); reflexivity.
    + reflexivity.
    + destruct (draggingPointIndex s); reflexivity.
  - unfold handleUndo in E. destruct (0 <? historyStep s)%nat.
    + destruct (history s !! (historyStep s - 1)%nat); inversion E; reflexivity.
    + inversion E; reflexivity.
  - unfold handleRedo in E. destruct (_ <? _)%Z.
    + destruct (history s !! (historyStep s + 1)%nat); inversion E; reflexivity.
    + inversion E; reflexivity.
  - inversion E; reflexivity.
  - inversion E; reflexivity.
Qed.

(** Once the render size is not zero, events that keep the fit divide by
    nothing that is zero. *)
Lemma reachableLoaded_run (evs : list Event) :
  forall s s' : EditorState,
    reachableLoaded s ->
    width (dimensions s) <> 0 -> height (dimensions s) <> 0 ->
    Forall keepsFit evs ->
    run s evs = Some s' -> reachableLoaded s'.
Proof.
  induction evs as [|ev evs IH]; intros s s' Hr Hw Hh Hall E; simpl in E.
  - inversion E; subst s'. exact Hr.
  - inversion Hall as [|? ? Hk Hrest]; subst.
    destruct (step s ev) as [s1|] eqn:E1; [|discriminate].
    pose proof (step_keeps_dimensions s s1 ev Hk E1) as Hd.
    apply (IH s1 s'); [|rewrite Hd; exact Hw|rewrite Hd; exact Hh|exact Hrest|exact E].
    apply (reachableLoaded_step s ev s1 Hr); [|exact E1].
    destruct ev; simpl; try exact I; try contradiction; split; assumption.
Qed.

(** X14.  In every state reached by events whose handlers divide by nothing
    that is zero (pointer events only while the render width and height are
    not zero, images of non-zero size), every point of the contour and of
    every history snapshot has both coordinates in [0,1]; so whenever
    [handleFinish] then calls [onFinish], the data carries at least 3 points,
    all in the unit square. *)
Theorem X14_finished_contour_is_normalized :
  forall (s : EditorState) (imageUrl : string),
    reachableLoaded s ->
    Forall inUnitSquare (points s)
    /\ Forall (Forall inUnitSquare) (history s)
    /\ forall data,
         snd (handleFinish imageUrl s) = OnFinish data ->
         (3 <= length (cd_points data))%nat
         /\ Forall inUnitSquare (cd_points data)
         /\ textureUrl data = imageUrl.
Proof.
  intros s imageUrl Hr.
  destruct (reachable_normalized s (reachableLoaded_reachable s Hr)) as [Hp Hh].
  split; [exact Hp|]. split; [exact Hh|].
  intros data E. unfold handleFinish in E.
  destruct (length (points s) <? 3)%nat eqn:G; simpl in E; [discriminate|].
  inversion E; subst data; simpl.
  apply Nat.ltb_ge in G. repeat split; assumption.
Qed.

Lemma X14_finished_contour_is_normalized_witness :
  exists s' data,
    run initialState
        (ImageLoad scenarioImage 800 200 :: ClickTool polygon
           :: clickEvents scenarioRect strokeMoves)
    = Some s'
    /\ reachableLoaded s'
    /\ snd (handleFinish "photo.png" s') = OnFinish data
    /\ (3 <= length (cd_points data))%nat
    /\ Forall inUnitSquare (cd_points data).
Proof.
  destruct (run_polygon_clicks scenarioRect strokeMoves (setTool polygon emptyCanvas)
              eq_refl ltac:(unfold cursorInRange; simpl; lia))
    as (s1 & Hrun & _ & _ & Hp & _).
  assert (Hload : step initialState (ImageLoad scenarioImage 800 200)
                  = Some emptyCanvas)
    by (cbn [step]; rewrite fitImage_scenario; reflexivity).
  assert (Hrun' : run initialState
                    (ImageLoad scenarioImage 800 200 :: ClickTool polygon
                       :: clickEvents scenarioRect strokeMoves)
                  = Some s1)
    by (cbn [run]; rewrite Hload; exact Hrun).
  assert (Hsize : img_width scenarioImage <> 0 /\ img_height scenarioImage <> 0)
    by (simpl; lra).
  pose proof (reachableLoaded_step initialState (ImageLoad scenarioImage 800 200)
                emptyCanvas reachableLoaded_init Hsize Hload) as Hr0.
  assert (Hr : reachableLoaded s1).
  { apply (reachableLoaded_run (ClickTool polygon :: clickEvents scenarioRect strokeMoves)
             emptyCanvas s1 Hr0).
    - simpl; lra.
    - simpl; lra.
    - repeat constructor.
    - exact Hrun. }
  assert (Hl : length (points s1) = 3%nat)
    by (rewrite Hp, length_app, length_map; reflexivity).
  assert (Hf : snd (handleFinish "photo.png" s1)
               = OnFinish (mkCutoutData (points s1) "photo.png"
                             match imageElement s1 with
                             | Some img => img_width img / img_height img
                             | None => 1
                             end)).
  { unfold handleFinish. rewrite Hl. reflexivity. }
  eexists s1, _. split; [exact Hrun'|]. split; [exact Hr|]. split; [exact Hf|].
  destruct (X14_finished_contour_is_normalized _ "photo.png" Hr) as (_ & _ & H).
  destruct (H _ Hf) as (H3 & Hu & _).
  split; [exact H3 | exact Hu].
Defined.

(** ** The shape built from the cutout *)

(** The shape of a contour with a first point and at least two more. *)
Lemma shape_spec (data : CutoutData) (p0 : Point) (rest : Contour) :
  cd_points data = p0 :: rest -> (2 <= length rest)%nat ->
  shape data
  = MoveTo (planarX (aspectRatio data) p0) (planarY p0)
      :: map (fun p => LineTo (planarX (aspectRatio data) p) (planarY p)) rest
      ++ [ClosePath].
Proof.
  intros E Hl. unfold shape. rewrite E.
  destruct (length (p0 :: rest) <? 3)%nat eqn:G; [|reflexivity].
  apply Nat.ltb_lt in G. simpl in G. lia.
Qed.

(** X15.  The builder's guard and the editor's guard agree: a cutout with
    fewer than 3 points gives the empty shape, and every cutout that
    [handleFinish] hands to [onFinish] gives a shape that is not empty: one
    [moveTo] at the planar image of the first point, one [lineTo] per further
    point in contour order, then [closePath]. *)
Theorem X15_finished_cutout_has_a_shape :
  (forall data : CutoutData,
     (length (cd_points data) < 3)%nat -> shape data = [])
  /\ forall (imageUrl : string) (s : EditorState) (data : CutoutData),
       snd (handleFinish imageUrl s) = OnFinish data ->
       exists p0 rest,
         points s = p0 :: rest
         /\ shape data
            = MoveTo ((x p0 - 0.5) * 5 * aspectRatio data) (- (y p0 - 0.5) * 5)
                :: map (fun p => LineTo ((x p - 0.5) * 5 * aspectRatio data)
                                   (- (y p - 0.5) * 5)) rest
                ++ [ClosePath]
         /\ length (shape data) = S (length (points s)).
Proof.
  split.
  - intros data H. unfold shape. rewrite (proj2 (Nat.ltb_lt _ _) H). reflexivity.
  - intros imageUrl s data E. unfold handleFinish in E.
    destruct (length (points s) <? 3)%nat eqn:G; simpl in E; [discriminate|].
    apply Nat.ltb_ge in G.
    destruct (points s) as [|p0 rest] eqn:Hp; [simpl in G; lia|].
    exists p0, rest. split; [reflexivity|].
    assert (Hd : cd_points data = p0 :: rest) by (inversion E; reflexivity).
    assert (Hl : (2 <= length rest)%nat) by (simpl in G; lia).
    rewrite (shape_spec data p0 rest Hd Hl).
    split; [reflexivity|].
    simpl. rewrite length_app, length_map. simpl. lia.
Qed.

Lemma X15_finished_cutout_has_a_shape_witness :
  (length (cd_points onePointData) < 3)%nat
  /\ shape onePointData = []
  /\ snd (handleFinish "photo.png" scenarioState) = OnFinish scenarioData
  /\ length (shape scenarioData) = 4%nat.
Proof.
  assert (H1 : (length (cd_points onePointData)
                < 3)%nat) by (simpl; lia).
  assert (H2 : snd (handleFinish "photo.png" scenarioState) = OnFinish scenarioData)
    by reflexivity.
  destruct X15_finished_cutout_has_a_shape as [Hempty Hshape].
  split; [exact H1|]. split; [exact (Hempty _ H1)|]. split; [exact H2|].
  destruct (Hshape "photo.png"%string scenarioState scenarioData H2)
    as (p0 & rest & _ & _ & Hl).
  exact Hl.
Defined.

(** X16.  With a positive aspect ratio the planar map sends the unit square
    into the rectangle of width 5 * aspect and height 5 centred at the
    origin, the centre of the image to the origin, keeps the left-to-right
    order and reverses the top-to-bottom order (the y flip). *)
Theorem X16_planar_map_bounds :
  forall (aspect : R) (p q : Point),
    0 < aspect ->
    (inUnitSquare p ->
       - (2.5 * aspect) <= planarX aspect p <= 2.5 * aspect
       /\ - 2.5 <= planarY p <= 2.5)
    /\ (x p = 0.5 -> y p = 0.5 -> planarX aspect p = 0 /\ planarY p = 0)
    /\ (x p <= x q <-> planarX aspect p <= planarX aspect q)
    /\ (y p <= y q <-> planarY q <= planarY p).
Proof.
  intros aspect p q Ha. unfold planarX, planarY, worldScale.
  split; [|split; [|split]].
  - intros [Hx Hy]. repeat split; nra.
  - intros Hx Hy. rewrite Hx, Hy. split; ring.
  - split; intros H; nra.
  - split; intros H; lra.
Qed.

Lemma X16_planar_map_bounds_witness :
  0 < 2 /\ inUnitSquare (mkPoint 0.25 0.25)
  /\ - (2.5 * 2) <= planarX 2 (mkPoint 0.25 0.25) <= 2.5 * 2.
Proof.
  assert (Ha : 0 < 2) by lra.
  assert (Hu : inUnitSquare (mkPoint 0.25 0.25)) by (unfold inUnitSquare; simpl; lra).
  split; [exact Ha|]. split; [exact Hu|].
  exact (proj1 (proj1 (X16_planar_map_bounds 2 (mkPoint 0.25 0.25)
                         (mkPoint 0.25 0.25) Ha) Hu)).
Defined.

(** ** The UV loop as a whole *)

(** Slots past the vertices are not touched by the loop. *)
Lemma uvLoop_lookup_ge (aspect : R) (pos : list Vertex) :
  forall (i j : nat) (uvs : list UV),
    (i + length pos <= j)%nat -> uvLoop aspect pos i uvs !! j = uvs !! j.
Proof.
  induction pos as [|p pos IH]; intros i j uvs Hj; simpl in *.
  - reflexivity.
  - rewrite IH by lia. apply list_lookup_insert_ne. lia.
Qed.

(** X17.  After the UV loop the uv attribute holds, for every vertex that has
    a slot, the UV computed from that vertex; slots past the last vertex keep
    their value and no slot is added.  So when both attributes have the same
    number of entries the result does not depend on the UVs that were there
    before, and running the loop again changes nothing. *)
Theorem X17_uv_loop_result :
  forall (data : CutoutData) (pos : list Vertex) (uvs : list UV),
    remapUV data pos uvs
    = take (length uvs) (map (uvOf (aspectRatio data)) pos ++ drop (length pos) uvs)
    /\ (length uvs = length pos ->
        remapUV data pos uvs = map (uvOf (aspectRatio data)) pos)
    /\ remapUV data pos (remapUV data pos uvs) = remapUV data pos uvs.
Proof.
  intros data pos uvs.
  assert (E : forall uvs0 : list UV,
              remapUV data pos uvs0
              = take (length uvs0)
                  (map (uvOf (aspectRatio data)) pos ++ drop (length pos) uvs0)).
  { intros uvs0. apply list_eq. intros j. unfold remapUV.
    destruct (le_lt_dec (length uvs0) j) as [Hj|Hj].
    - rewrite lookup_ge_None_2 by (rewrite uvLoop_length; exact Hj).
      symmetry. apply lookup_ge_None_2. rewrite length_take. lia.
    - rewrite lookup_take_lt by exact Hj.
      destruct (le_lt_dec (length pos) j) as [Hp|Hp].
      + rewrite uvLoop_lookup_ge by (simpl; exact Hp).
        rewrite lookup_app_r by (rewrite length_map; exact Hp).
        rewrite length_map, lookup_drop. f_equal. lia.
      + destruct (lookup_lt_is_Some_2 pos j Hp) as [q Hq].
        rewrite (uvLoop_lookup _ pos 0 j uvs0 q Hq) by (simpl; exact Hj).
        rewrite lookup_app_l by (rewrite length_map; exact Hp).
        rewrite list_lookup_fmap, Hq. reflexivity. }
  assert (L : length (remapUV data pos uvs) = length uvs)
    by (unfold remapUV; apply uvLoop_length).
  split; [apply E|]. split.
  - intros Hl. rewrite E, Hl.
    rewrite drop_ge by lia. rewrite app_nil_r.
    apply take_ge. rewrite length_map. lia.
  - apply list_eq. intros j. unfold remapUV.
    destruct (le_lt_dec (length pos) j) as [Hp|Hp].
    + apply uvLoop_lookup_ge. simpl. exact Hp.
    + destruct (lookup_lt_is_Some_2 pos j Hp) as [q Hq].
      destruct (le_lt_dec (length uvs) j) as [Hj|Hj].
      * rewrite !lookup_ge_None_2 by (rewrite ?uvLoop_length; exact Hj).
        reflexivity.
      * rewrite (uvLoop_lookup _ pos 0 j _ q Hq)
          by (simpl; rewrite uvLoop_length; exact Hj).
        rewrite (uvLoop_lookup _ pos 0 j uvs q Hq) by (simpl; exact Hj).
        reflexivity.
Qed.

Lemma X17_uv_loop_result_witness :
  length scenarioUVs = length scenarioPositions
  /\ remapUV scenarioData scenarioPositions scenarioUVs
     = map (uvOf (aspectRatio scenarioData)) scenarioPositions.
Proof.
  assert (Hl : length scenarioUVs = length scenarioPositions) by reflexivity.
  split; [exact Hl|].
  exact (proj1 (proj2 (X17_uv_loop_result scenarioData scenarioPositions
                         scenarioUVs)) Hl).
Defined.

(** X18.  With an aspect ratio that is not zero the UV of a vertex determines
    its planar position: mapping the point [(u, 1 - v)] forward through the
    planar map gives back the vertex's [x] and [y].  So two vertices receive
    the same UV exactly when they have the same [x] and [y], whatever their
    depth. *)
Theorem X18_uv_determines_planar_position :
  forall (aspect : R) (q q' : Vertex),
    aspect <> 0 ->
    (planarX aspect (mkPoint (u (uvOf aspect q)) (1 - v (uvOf aspect q))) = vx q
     /\ planarY (mkPoint (u (uvOf aspect q)) (1 - v (uvOf aspect q))) = vy q)
    /\ (uvOf aspect q = uvOf aspect q' <-> vx q = vx q' /\ vy q = vy q').
Proof.
  intros aspect q q' Ha.
  assert (Inv : forall t : Vertex,
            planarX aspect (mkPoint (u (uvOf aspect t)) (1 - v (uvOf aspect t))) = vx t
            /\ planarY (mkPoint (u (uvOf aspect t)) (1 - v (uvOf aspect t))) = vy t).
  { intros t. unfold planarX, planarY, uvOf, worldScale; simpl.
    split; field. exact Ha. }
  split; [apply Inv|]. split.
  - intros E. destruct (Inv q) as [Hx Hy]. destruct (Inv q') as [Hx' Hy'].
    rewrite E in Hx, Hy. split; congruence.
  - intros [Hx Hy]. unfold uvOf. rewrite Hx, Hy. reflexivity.
Qed.

Lemma X18_uv_determines_planar_position_witness :
  2 <> 0
  /\ planarX 2 (mkPoint (u (uvOf 2 (mkVertex (-2.5) 1.25 0.5)))
                  (1 - v (uvOf 2 (mkVertex (-2.5) 1.25 0.5))))
     = vx (mkVertex (-2.5) 1.25 0.5).
Proof.
  assert (Ha : 2 <> 0) by lra.
  split; [exact Ha|].
  exact (proj1 (proj1 (X18_uv_determines_planar_position 2
                         (mkVertex (-2.5) 1.25 0.5) (mkVertex (-2.5) 1.25 0.5) Ha))).
Defined.

(** ** Snapshot capture *)

Lemma setVisible_back (o : SceneObject) :
  obj_visible o = true -> setVisible true (setVisible false o) = o.
Proof. destruct o as [n t m b]; simpl. intros ->. reflexivity. Qed.

Lemma showAgain_cons (i : nat) (hs : list nat) (objs : list SceneObject) :
  showAgain (i :: hs) objs = showAgain hs (alter (setVisible true) i objs).
Proof. reflexivity. Qed.

(** The traversal keeps what was in [hiddenObjects] and adds positions; showing
    the added positions again gives back the objects it was run on, whatever
    precedes them in the scene. *)
Lemma hideHelpers_showAgain (objs : list SceneObject) :
  forall (i : nat) (hidden : list nat),
    exists hs,
      snd (hideHelpers objs i hidden) = hidden ++ hs
      /\ forall pre : list SceneObject,
           length pre = i ->
           showAgain hs (pre ++ fst (hideHelpers objs i hidden)) = pre ++ objs.
Proof.
  induction objs as [|o rest IH]; intros i hidden.
  - exists []. simpl. split; [rewrite app_nil_r; reflexivity | reflexivity].
  - simpl. destruct (isSnapshotHelper o) eqn:Hh; [destruct (obj_visible o) eqn:Hv|].
    + destruct (IH (S i) (hidden ++ [i])) as (hs & E & Hshow).
      destruct (hideHelpers rest (S i) (hidden ++ [i])) as [rest' hidden'].
      simpl in *. exists (i :: hs).
      split; [rewrite E, <- app_assoc; reflexivity|].
      intros pre Hpre. rewrite showAgain_cons.
      assert (Ealter : alter (setVisible true) i (pre ++ setVisible false o :: rest')
                       = (pre ++ [o]) ++ rest').
      { rewrite <- Hpre.
        replace (length pre) with (length pre + 0)%nat by lia.
        rewrite alter_app_r. simpl. rewrite (setVisible_back o Hv).
        rewrite <- app_assoc. reflexivity. }
      rewrite Ealter, Hshow by (rewrite length_app; simpl; lia).
      rewrite <- app_assoc. reflexivity.
    + destruct (IH (S i) hidden) as (hs & E & Hshow).
      destruct (hideHelpers rest (S i) hidden) as [rest' hidden'].
      simpl in *. exists hs. split; [exact E|].
      intros pre Hpre.
      replace (pre ++ o :: rest') with ((pre ++ [o]) ++ rest')
        by (rewrite <- app_assoc; reflexivity).
      rewrite Hshow by (rewrite length_app; simpl; lia).
      rewrite <- app_assoc. reflexivity.
    + destruct (IH (S i) hidden) as (hs & E & Hshow).
      destruct (hideHelpers rest (S i) hidden) as [rest' hidden'].
      simpl in *. exists hs. split; [exact E|].
      intros pre Hpre.
      replace (pre ++ o :: rest') with ((pre ++ [o]) ++ rest')
        by (rewrite <- app_assoc; reflexivity).
      rewrite Hshow by (rewrite length_app; simpl; lia).
      rewrite <- app_assoc. reflexivity.
Qed.

(** The scene during the snapshot, object by object. *)
Lemma hideHelpers_objects (objs : list SceneObject) :
  forall (i : nat) (hidden : list nat),
    fst (hideHelpers objs i hidden)
    = map (fun o => if isSnapshotHelper o then setVisible false o else o) objs.
Proof.
  induction objs as [|o rest IH]; intros i hidden; [reflexivity|].
  simpl. destruct (isSnapshotHelper o) eqn:Hh; [destruct (obj_visible o) eqn:Hv|].
  - specialize (IH (S i) (hidden ++ [i])).
    destruct (hideHelpers rest (S i) (hidden ++ [i])) as [rest' hidden'].
    simpl in *. rewrite IH. reflexivity.
  - specialize (IH (S i) hidden).
    destruct (hideHelpers rest (S i) hidden) as [rest' hidden'].
    simpl in *. rewrite IH. f_equal.
    destruct o as [n t m b]; simpl in *. subst b. reflexivity.
  - specialize (IH (S i) hidden).
    destruct (hideHelpers rest (S i) hidden) as [rest' hidden'].
    simpl in *. rewrite IH. reflexivity.
Qed.

(** X19.  Whatever its inputs, the snapshot effect leaves the pixel ratio, the
    scene background and every object of the scene, its visibility included,
    as they were: the helpers it hides for the snapshot are shown again, and
    helpers that were already hidden stay hidden.  Only the clear colour is
    not put back: after a capture it is colour 0 with alpha 0. *)
Theorem X19_snapshot_restores_scene :
  forall (trigger : Z) (scale w h webglMax : R) (st : GLState),
    gl_pixelRatio (after (screenshotEffect trigger scale w h webglMax st))
    = gl_pixelRatio st
    /\ scene_background (after (screenshotEffect trigger scale w h webglMax st))
       = scene_background st
    /\ scene_objects (after (screenshotEffect trigger scale w h webglMax st))
       = scene_objects st
    /\ (forall shot,
          callback (screenshotEffect trigger scale w h webglMax st)
          = Some (OnCapture shot) ->
          gl_clearColor (after (screenshotEffect trigger scale w h webglMax st)) = 0%Z
          /\ gl_clearAlpha (after (screenshotEffect trigger scale w h webglMax st)) = 0).
Proof.
  intros trigger scale w h webglMax st. unfold screenshotEffect.
  destruct (0 <? trigger)%Z; [|repeat split; intros; discriminate].
  destruct (Rgt_dec (Rmax w h * scale) webglMax);
    [repeat split; intros; discriminate|].
  destruct (hideHelpers_showAgain (scene_objects st) 0 []) as (hs & E & Hshow).
  specialize (Hshow [] eq_refl).
  destruct (hideHelpers (scene_objects st) 0 []) as [objs1 hidden].
  simpl in *. subst hidden.
  repeat split; try reflexivity. exact Hshow.
Qed.

(** X20.  The snapshot effect captures exactly when the trigger is positive
    and the larger side of the canvas times the scale does not exceed the
    maximum texture size.  Above the limit it only reports the error that
    names the limit and renders nothing.  When it captures, the frame passed
    to [onCapture] is rendered first, with the requested scale as pixel
    ratio, no background and a transparent clear colour; it has the objects
    of the scene in order, none of the helpers (contact shadows, shadow
    material, grid) visible and every other object as it is in the scene; the
    second frame rendered is the restored state. *)
Theorem X20_snapshot_frame :
  forall (trigger : Z) (scale w h webglMax : R) (st : GLState),
    ((0 < trigger)%Z -> Rmax w h * scale > webglMax ->
       screenshotEffect trigger scale w h webglMax st
       = mkCaptureOutcome st []
           (Some (OnError [Text "Resolution too high. Max supported: ";
                           Number webglMax; Text "px. Try a lower scale."])))
    /\ ((0 < trigger)%Z -> ~ Rmax w h * scale > webglMax ->
          exists shot,
            callback (screenshotEffect trigger scale w h webglMax st)
            = Some (OnCapture shot)
            /\ rendered (screenshotEffect trigger scale w h webglMax st)
               = [shot; after (screenshotEffect trigger scale w h webglMax st)]
            /\ gl_pixelRatio shot = scale
            /\ scene_background shot = None
            /\ gl_clearAlpha shot = 0
            /\ length (scene_objects shot) = length (scene_objects st)
            /\ forall i o,
                 scene_objects st !! i = Some o ->
                 exists o',
                   scene_objects shot !! i = Some o'
                   /\ (isSnapshotHelper o = true ->
                       obj_visible o' = false /\ isSnapshotHelper o' = true)
                   /\ (isSnapshotHelper o = false -> o' = o))
    /\ (forall shot,
          callback (screenshotEffect trigger scale w h webglMax st)
          = Some (OnCapture shot) ->
          (0 < trigger)%Z /\ Rmax w h * scale <= webglMax).
Proof.
  intros trigger scale w h webglMax st. split; [|split].
  - intros Ht Hbig. unfold screenshotEffect.
    rewrite (proj2 (Z.ltb_lt _ _) Ht).
    destruct (Rgt_dec (Rmax w h * scale) webglMax); [reflexivity | contradiction].
  - intros Ht Hok. unfold screenshotEffect.
    rewrite (proj2 (Z.ltb_lt _ _) Ht).
    destruct (Rgt_dec (Rmax w h * scale) webglMax); [contradiction|].
    pose proof (hideHelpers_objects (scene_objects st) 0 []) as Hobjs.
    destruct (hideHelpers (scene_objects st) 0 []) as [objs1 hidden].
    cbn [fst] in Hobjs. subst objs1. eexists.
    cbn [callback rendered after gl_pixelRatio scene_background gl_clearAlpha
         scene_objects].
    split; [reflexivity|]. split; [reflexivity|].
    split; [reflexivity|]. split; [reflexivity|]. split; [reflexivity|].
    split; [apply length_map|].
    intros i o Ho.
    cbn [scene_objects].
    change (map ?f ?l) with (f <$> l). rewrite list_lookup_fmap, Ho.
    cbn [fmap option_fmap option_map].
    eexists. split; [reflexivity|].
    destruct (isSnapshotHelper o) eqn:Hh; split; intros H; try discriminate.
    + split; [reflexivity|]. destruct o as [on ot om ob]; exact Hh.
    + reflexivity.
  - intros shot. unfold screenshotEffect.
    destruct (0 <? trigger)%Z eqn:Ht; [|discriminate].
    destruct (Rgt_dec (Rmax w h * scale) webglMax) as [Hbig|Hok]; [discriminate|].
    intros _. apply Z.ltb_lt in Ht. split; [exact Ht | lra].
Qed.

(** The callback of a capture. *)
Lemma screenshotEffect_captures (trigger : Z) (scale w h webglMax : R) (st : GLState) :
  (0 < trigger)%Z -> ~ Rmax w h * scale > webglMax ->
  callback (screenshotEffect trigger scale w h webglMax st)
  = Some (OnCapture
            (mkGLState scale 0 0 None
               (map (fun o => if isSnapshotHelper o then setVisible false o else o)
                  (scene_objects st)))).
Proof.
  intros Ht Hok. unfold screenshotEffect.
  rewrite (proj2 (Z.ltb_lt _ _) Ht).
  destruct (Rgt_dec (Rmax w h * scale) webglMax); [contradiction|].
  pose proof (hideHelpers_objects (scene_objects st) 0 []) as Hobjs.
  destruct (hideHelpers (scene_objects st) 0 []) as [objs1 hidden].
  cbn [fst] in Hobjs. subst objs1. reflexivity.
Qed.

Lemma X19_snapshot_restores_scene_witness :
  callback (screenshotEffect 1 2 800 600 4096 exampleGL)
  = Some (OnCapture
            (mkGLState 2 0 0 None
               (map (fun o => if isSnapshotHelper o then setVisible false o else o)
                  (scene_objects exampleGL))))
  /\ scene_objects (after (screenshotEffect 1 2 800 600 4096 exampleGL))
     = exampleScene
  /\ gl_clearAlpha (after (screenshotEffect 1 2 800 600 4096 exampleGL)) = 0.
Proof.
  assert (Hok : ~ Rmax 800 600 * 2 > 4096)
    by (rewrite Rmax_left by lra; lra).
  pose proof (screenshotEffect_captures 1 2 800 600 4096 exampleGL
                ltac:(lia) Hok) as Hc.
  destruct (X19_snapshot_restores_scene 1 2 800 600 4096 exampleGL)
    as (_ & _ & Hobjs & Hclear).
  split; [exact Hc|]. split; [exact Hobjs|].
  exact (proj2 (Hclear _ Hc)).
Defined.

Lemma X20_snapshot_frame_witness :
  (0 < 1)%Z
  /\ Rmax 800 600 * 8 > 4096
  /\ callback (screenshotEffect 1 8 800 600 4096 exampleGL)
     = Some (OnError [Text "Resolution too high. Max supported: ";
                      Number 4096; Text "px. Try a lower scale."])
  /\ ~ Rmax 800 600 * 2 > 4096
  /\ exists shot,
       callback (screenshotEffect 1 2 800 600 4096 exampleGL)
       = Some (OnCapture shot)
       /\ gl_pixelRatio shot = 2
       /\ length (scene_objects shot) = 4%nat.
Proof.
  assert (Ht : (0 < 1)%Z) by lia.
  assert (Hbig : Rmax 800 600 * 8 > 4096) by (rewrite Rmax_left by lra; lra).
  assert (Hok : ~ Rmax 800 600 * 2 > 4096) by (rewrite Rmax_left by lra; lra).
  destruct (X20_snapshot_frame 1 8 800 600 4096 exampleGL) as (Herr & _ & _).
  destruct (X20_snapshot_frame 1 2 800 600 4096 exampleGL) as (_ & Hcap & _).
  split; [exact Ht|]. split; [exact Hbig|].
  split; [rewrite (Herr Ht Hbig); reflexivity|].
  split; [exact Hok|].
  destruct (Hcap Ht Hok) as (shot & Hc & _ & Hp & _ & _ & Hl & _).
  exists shot. split; [exact Hc|]. split; [exact Hp | exact Hl].
Defined.

(** ** Loading and saving a project *)

Lemma getProp_nullish (v : JsValue) (k : string) :
  getProp v k = None <-> isNullish v = true.
Proof. destruct v; simpl; split; intros H; congruence. Qed.

Lemma getProp_propOr (v : JsValue) (k : string) :
  isNullish v = false -> getProp v k = Some (propOr v k).
Proof. unfold propOr. destruct v; simpl; intros H; congruence. Qed.

(** The [try] block, case by case: it stops at the first read from
    [undefined] or [null], with the setter calls made so far. *)
Lemma loadBlock_result (project : JsValue) (s : AppState) :
  loadBlock project s
  = match getProp project "cutoutData" with
    | None => (s, None)
    | Some cd =>
        match getProp cd "textureUrl" with
        | None => (setCutoutData cd s, None)
        | Some url =>
            if isNullish (propOr project "settings")
            then (setImageSrc url (setCutoutData cd s), None)
            else (loadedState url cd (propOr project "settings"), Some tt)
        end
    end.
Proof.
  unfold loadBlock, actBind, read, call.
  destruct (getProp project "cutoutData") as [cd|] eqn:E1; [|reflexivity].
  destruct (getProp cd "textureUrl") as [url|] eqn:E2; [|reflexivity].
  assert (Hp : isNullish project = false).
  { destruct project; simpl in *; congruence. }
  rewrite (getProp_propOr project "settings" Hp).
  destruct (isNullish (propOr project "settings")) eqn:E3.
  - rewrite (proj2 (getProp_nullish _ "thickness") E3). reflexivity.
  - rewrite !(getProp_propOr (propOr project "settings") _ E3). reflexivity.
Qed.

(** X21.  A project load either completes or raises the alert "Invalid
    project file".  It completes exactly when the parse succeeds and the
    project, its [cutoutData] and its [settings] are neither [undefined] nor
    [null]; nothing else is checked.  Then no alert is raised, the mode
    becomes VIEW_3D, and the cutout, the image source (the cutout's
    [textureUrl]) and the eight settings are the values read from the file,
    [undefined] where the file lacks one.  When the alert is raised, the mode
    and the eight settings are those from before. *)
Theorem X21_project_load_outcome :
  forall (parsed : option JsValue) (s : AppState),
    (exists project cd url,
        parsed = Some project
        /\ getProp project "cutoutData" = Some cd
        /\ getProp cd "textureUrl" = Some url
        /\ isNullish (propOr project "settings") = false
        /\ onProjectRead parsed s
           = (loadedState url cd (propOr project "settings"), []))
    \/ (snd (onProjectRead parsed s) = [AppAlert "Invalid project file"]
        /\ (parsed = None
            \/ exists project,
                 parsed = Some project
                 /\ (isNullish project = true
                     \/ isNullish (propOr project "cutoutData") = true
                     \/ isNullish (propOr project "settings") = true))
        /\ mode (fst (onProjectRead parsed s)) = mode s
        /\ thickness (fst (onProjectRead parsed s)) = thickness s
        /\ extrusionColor (fst (onProjectRead parsed s)) = extrusionColor s
        /\ bevelEnabled (fst (onProjectRead parsed s)) = bevelEnabled s
        /\ bevelSize (fst (onProjectRead parsed s)) = bevelSize s
        /\ isIso (fst (onProjectRead parsed s)) = isIso s
        /\ fov (fst (onProjectRead parsed s)) = fov s
        /\ lightIntensity (fst (onProjectRead parsed s)) = lightIntensity s
        /\ lightColor (fst (onProjectRead parsed s)) = lightColor s).
Proof.
  intros [project|] s; [|right; simpl; repeat split; auto].
  unfold onProjectRead. rewrite loadBlock_result.
  destruct (getProp project "cutoutData") as [cd|] eqn:E1.
  - assert (Hcd : propOr project "cutoutData" = cd) by (unfold propOr; rewrite E1; reflexivity).
    destruct (getProp cd "textureUrl") as [url|] eqn:E2.
    + destruct (isNullish (propOr project "settings")) eqn:E3.
      * right. simpl. split; [reflexivity|]. split; [|repeat split].
        right. exists project. split; [reflexivity|]. right; right; exact E3.
      * left. exists project, cd, url. repeat split; auto.
    + right. simpl. split; [reflexivity|]. split; [|repeat split].
      right. exists project. split; [reflexivity|]. right; left.
      rewrite Hcd. apply getProp_nullish in E2. exact E2.
  - right. simpl. split; [reflexivity|]. split; [|repeat split].
    right. exists project. split; [reflexivity|]. left.
    apply getProp_nullish in E1. exact E1.
Qed.

(** X22.  A rejected load is not atomic.  Nothing is changed when the parse
    fails or the project is [null]; but a project whose [cutoutData] is
    missing or [null] has already replaced the cutout of the state by that
    value, and a project with a cutout and without [settings] has already
    replaced both the cutout and the image source, when the alert is
    raised. *)
Theorem X22_rejected_load_is_not_atomic :
  forall (s : AppState),
    onProjectRead None s = (s, [AppAlert "Invalid project file"])
    /\ onProjectRead (Some JNull) s = (s, [AppAlert "Invalid project file"])
    /\ (forall project cd,
          getProp project "cutoutData" = Some cd ->
          isNullish cd = true ->
          onProjectRead (Some project) s
          = (setCutoutData cd s, [AppAlert "Invalid project file"]))
    /\ (forall project cd url,
          getProp project "cutoutData" = Some cd ->
          getProp cd "textureUrl" = Some url ->
          isNullish (propOr project "settings") = true ->
          onProjectRead (Some project) s
          = (setImageSrc url (setCutoutData cd s),
             [AppAlert "Invalid project file"])).
Proof.
  intros s. split; [reflexivity|]. split; [reflexivity|]. split.
  - intros project cd E1 Hn. unfold onProjectRead. rewrite loadBlock_result, E1.
    rewrite (proj2 (getProp_nullish cd "textureUrl") Hn). reflexivity.
  - intros project cd url E1 E2 E3. unfold onProjectRead.
    rewrite loadBlock_result, E1, E2, E3. reflexivity.
Qed.

Lemma X22_rejected_load_is_not_atomic_witness :
  getProp projectWithoutSettings "cutoutData" = Some (jsOfCutout scenarioData)
  /\ getProp (jsOfCutout scenarioData) "textureUrl" = Some (JStr "photo.png")
  /\ isNullish (propOr projectWithoutSettings "settings") = true
  /\ onProjectRead (Some projectWithoutSettings) initialApp
     = (setImageSrc (JStr "photo.png")
          (setCutoutData (jsOfCutout scenarioData) initialApp),
        [AppAlert "Invalid project file"])
  /\ getProp (JObj []) "cutoutData" = Some JUndefined
  /\ isNullish JUndefined = true
  /\ cutoutData (fst (onProjectRead (Some (JObj [])) initialApp)) = JUndefined.
Proof.
  assert (E1 : getProp projectWithoutSettings "cutoutData"
               = Some (jsOfCutout scenarioData)) by reflexivity.
  assert (E2 : getProp (jsOfCutout scenarioData) "textureUrl"
               = Some (JStr "photo.png")) by reflexivity.
  assert (E3 : isNullish (propOr projectWithoutSettings "settings") = true)
    by reflexivity.
  assert (E4 : getProp (JObj []) "cutoutData" = Some JUndefined) by reflexivity.
  destruct (X22_rejected_load_is_not_atomic initialApp) as (_ & _ & H3 & H4).
  split; [exact E1|]. split; [exact E2|]. split; [exact E3|].
  split; [exact (H4 _ _ _ E1 E2 E3)|].
  split; [exact E4|]. split; [reflexivity|].
  rewrite (H3 _ _ E4 eq_refl). reflexivity.
Defined.

(** X23.  What is saved can be loaded: [handleSaveProject] offers a download
    exactly when the cutout of the state is truthy, and loading the project
    object it serializes completes, in whatever state: it restores the cutout
    and the eight settings, takes the image source from the cutout's
    [textureUrl] and shows the 3D view.  For a cutout handed over by the
    editor the image source is the cutout's texture URL. *)
Theorem X23_saved_project_loads :
  forall (s t : AppState),
    (truthy (cutoutData s) = false -> handleSaveProject s = [])
    /\ (truthy (cutoutData s) = true ->
        handleSaveProject s = [SaveFile (projectOf s)]
        /\ onProjectRead (Some (projectOf s)) t
           = (mkAppState VIEW_3D (propOr (cutoutData s) "textureUrl") (cutoutData s)
                (thickness s) (extrusionColor s) (bevelEnabled s) (bevelSize s)
                (isIso s) (fov s) (lightIntensity s) (lightColor s),
              []))
    /\ (forall data : CutoutData,
          handleSaveProject (handleCropFinish data s)
          = [SaveFile (projectOf (handleCropFinish data s))]
          /\ onProjectRead (Some (projectOf (handleCropFinish data s))) t
             = (setImageSrc (JStr (textureUrl data)) (handleCropFinish data s), [])).
Proof.
  intros s t.
  assert (Load : forall u : AppState,
             isNullish (cutoutData u) = false ->
             onProjectRead (Some (projectOf u)) t
             = (mkAppState VIEW_3D (propOr (cutoutData u) "textureUrl") (cutoutData u)
                  (thickness u) (extrusionColor u) (bevelEnabled u) (bevelSize u)
                  (isIso u) (fov u) (lightIntensity u) (lightColor u),
                [])).
  { intros u Hn. unfold onProjectRead. rewrite loadBlock_result.
    change (getProp (projectOf u) "cutoutData") with (Some (cutoutData u)).
    cbv beta iota.
    rewrite (getProp_propOr (cutoutData u) "textureUrl" Hn).
    reflexivity. }
  split; [|split].
  - intros H. unfold handleSaveProject. rewrite H. reflexivity.
  - intros H. split; [unfold handleSaveProject; rewrite H; reflexivity|].
    apply Load. destruct (cutoutData s); simpl in *; congruence.
  - intros data. split; [reflexivity|].
    rewrite Load by reflexivity. reflexivity.
Qed.

Lemma X23_saved_project_loads_witness :
  truthy (cutoutData initialApp) = false
  /\ handleSaveProject initialApp = []
  /\ truthy (cutoutData (handleCropFinish scenarioData initialApp)) = true
  /\ onProjectRead (Some (projectOf (handleCropFinish scenarioData initialApp)))
       initialApp
     = (mkAppState VIEW_3D
          (propOr (cutoutData (handleCropFinish scenarioData initialApp)) "textureUrl")
          (jsOfCutout scenarioData)
          (JNum 0.5) (JStr "#e4e4e7") (JBool true) (JNum 0.05) (JBool false)
          (JNum 45) (JNum 1.5) (JStr "#ffffff"),
        []).
Proof.
  assert (H0 : truthy (cutoutData initialApp) = false) by reflexivity.
  assert (H1 : truthy (cutoutData (handleCropFinish scenarioData initialApp)) = true)
    by reflexivity.
  split; [exact H0|].
  split; [exact (proj1 (X23_saved_project_loads initialApp initialApp) H0)|].
  split; [exact H1|].
  exact (proj2 (proj1 (proj2 (X23_saved_project_loads
                                (handleCropFinish scenarioData initialApp)
                                initialApp)) H1)).
Defined.
